(** * spirentiqlib: a shallow embedding of [spirenttestcenteriq.py]

    The development follows the layout of the Python module: Python values
    and exceptions, the result reshaper ([deepupdate],
    [convert_result_to_dict]), the transport dispatcher ([__execute]), the
    database catalogue ([find_db_by_name]), the schema model ([IqSet],
    [IqResultSet], [IqDimensionSet], [IqDatabase]) and the query builder
    ([IqQuery], [IqSingleQuery], [IqMultiQuery]).

    Python objects that are mutated in place are modelled by explicit state
    passing: a method takes the object and returns the object as the call
    leaves it, together with the outcome of the call. *)

From Stdlib Require Import String Ascii List ZArith Lia Bool Arith DecimalString.
Import ListNotations.

Set Warnings "-register-all".

Open Scope string_scope.
Open Scope list_scope.

(** Python's [+] on strings. *)
Infix "+++" := String.append (right associativity, at level 60).

(* ================================================================== *)
(** ** Python values, exceptions, outcomes *)

(** The values that travel through the library: what [response.json()]
    yields (null, booleans, integers, strings, arrays, objects) and the
    dicts and lists the library builds from them.  A dict is an association
    list in insertion order, as Python dicts are.  JSON numbers are carried
    as integers: the library never computes with a cell. *)
Inductive pyval : Type :=
| PNone
| PBool (b : bool)
| PInt (z : Z)
| PStr (s : string)
| PList (l : list pyval)
| PDict (d : list (pyval * pyval)).

Definition pydict : Type := list (pyval * pyval).

(** The exceptions the modelled code can raise.  [PyException] is the plain
    [Exception(msg)] the library raises itself. *)
Inductive exn : Type :=
| KeyError (msg : string)
| IndexError
| TypeError
| AttributeError
| ValueError
| NameError (name : string)
| UnboundLocalError (name : string)
| HTTPError (status : Z)
| RuntimeError (msg : pyval)
| PyException (msg : string).

(** Outcome of a call.  [Unmodelled] marks the one place where Python
    builds a self-referential dict, which the tree-shaped [pyval] cannot
    hold (see [convert_result_to_dict]). *)
Inductive result (A : Type) : Type :=
| Returned (a : A)
| Raised (e : exn)
| Unmodelled.

Arguments Returned {A} a.
Arguments Raised {A} e.
Arguments Unmodelled {A}.

Definition bind {A B : Type} (m : result A) (k : A -> result B) : result B :=
  match m with
  | Returned a => k a
  | Raised e => Raised e
  | Unmodelled => Unmodelled
  end.

Notation "x <- m ;; k" := (bind m (fun x => k))
  (at level 61, m at next level, right associativity).

(** [try: m except: h] with a bare [except] clause. *)
Definition try_except {A : Type} (m : result A) (h : exn -> result A) : result A :=
  match m with
  | Raised e => h e
  | other => other
  end.

(** Only immutable values hash. *)
Definition hashable (v : pyval) : bool :=
  match v with
  | PList _ | PDict _ => false
  | _ => true
  end.

(** Equality of dict keys: [True == 1] and [False == 0] in Python, and they
    hash alike. *)
Definition key_eqb (a b : pyval) : bool :=
  match a, b with
  | PNone, PNone => true
  | PBool x, PBool y => Bool.eqb x y
  | PBool x, PInt y => Z.eqb (if x then 1 else 0) y
  | PInt x, PBool y => Z.eqb x (if y then 1 else 0)
  | PInt x, PInt y => Z.eqb x y
  | PStr x, PStr y => String.eqb x y
  | _, _ => false
  end.

(** [d[k]] *)
Fixpoint dict_get (d : pydict) (k : pyval) : option pyval :=
  match d with
  | [] => None
  | (k', v) :: rest => if key_eqb k' k then Some v else dict_get rest k
  end.

(** [d[k] = v]: an existing key keeps its place, a new one goes last. *)
Fixpoint dict_set (d : pydict) (k v : pyval) : pydict :=
  match d with
  | [] => [(k, v)]
  | (k', v') :: rest =>
      if key_eqb k' k then (k', v) :: rest else (k', v') :: dict_set rest k v
  end.

(** [k in d] *)
Definition dict_mem (d : pydict) (k : pyval) : bool :=
  match dict_get d k with Some _ => true | None => false end.

(** [d.keys()] *)
Definition dict_keys (d : pydict) : list pyval := map fst d.

(** [s in l] for a list of strings. *)
Definition str_in (s : string) (l : list string) : bool :=
  existsb (String.eqb s) l.

(* ================================================================== *)
(** ** Result reshaping *)

(** [deepupdate(target, src)].  Python mutates [target]; the model returns
    the updated target.  [copy.deepcopy] and [copy.copy] are the identity on
    immutable trees.  The model is of [deepupdate] on JSON values, the only
    ones the library passes to it: Python sets do not occur in JSON and have
    no constructor here, so the branch [type(v) == set], which unites [v]
    with the set the target holds, has no counterpart and nothing proved
    here speaks of set values.  When [target] is not a dict and [src] is not
    empty,
    Python fails with a [TypeError] on the membership test or on the item
    assignment for the string keys of JSON objects. *)
Fixpoint deepupdate (target : pyval) (src : pyval) {struct src} : result pyval :=
  match src with
  | PDict items =>
      (fix items_loop (items : list (pyval * pyval)) (target : pyval)
         {struct items} : result pyval :=
         match items with
         | [] => Returned target
         | (k, v) :: rest =>
             match target with
             | PDict t =>
                 t' <- match v with
                       | PList l =>
                           match dict_get t k with
                           | None => Returned (dict_set t k v)
                           | Some (PList l0) => Returned (dict_set t k (PList (l0 ++ l)))
                           | Some _ => Raised AttributeError
                           end
                       | PDict _ =>
                           match dict_get t k with
                           | None => Returned (dict_set t k v)
                           | Some tv => r <- deepupdate tv v ;; Returned (dict_set t k r)
                           end
                       | _ => Returned (dict_set t k v)
                       end ;;
                 items_loop rest (PDict t')
             | _ => Raised TypeError
             end
         end) items target
  | _ => Raised AttributeError
  end.

(** The raw result [{"result": {"columns": [...], "rows": [[...], ...]}}];
    [rows = None] when the key ["rows"] is absent. *)
Record raw_result : Type := mk_raw {
  columns : list string;
  rows : option (list (list pyval))
}.

(** The validation loop at the head of [convert_result_to_dict]. *)
Fixpoint check_key_names (key_names cols : list string) : result unit :=
  match key_names with
  | [] => Returned tt
  | key :: rest =>
      if str_in key cols then check_key_names rest cols
      else Raised (KeyError ("The key '" +++ key +++ "' is not a valid value."))
  end.

(** [for column in columns: entry[column] = row[column_index]; column_index += 1] *)
Fixpoint fill_entry (cols : list string) (row : list pyval) (column_index : nat)
  (entry : pydict) : result pydict :=
  match cols with
  | [] => Returned entry
  | column :: rest =>
      match nth_error row column_index with
      | None => Raised IndexError
      | Some v => fill_entry rest row (S column_index) (dict_set entry (PStr column) v)
      end
  end.

(** The values of the key columns of one row, in [key_names] order; each is
    used as a dict key, so it has to hash. *)
Fixpoint key_values (entry : pydict) (key_names : list string) : result (list pyval) :=
  match key_names with
  | [] => Returned []
  | name :: rest =>
      match dict_get entry (PStr name) with
      | None => Raised (KeyError name)
      | Some key_value =>
          if hashable key_value
          then kvs <- key_values entry rest ;; Returned (key_value :: kvs)
          else Raised TypeError
      end
  end.

(** [{kv1: {kv2: ... {kvn: entry}}}] *)
Fixpoint nest (kvs : list pyval) (entry : pydict) : pyval :=
  match kvs with
  | [] => PDict entry
  | kv :: rest => PDict [(kv, nest rest entry)]
  end.

(** The dict built for one row when [key_names] is given.  The source
    walks [key_names] with a cursor [current] and stores [entry] under the
    value of the name equal to [key_names[-1]], then moves the cursor into
    what it stored.  When that name occurs only last, the result is the
    nesting above (rebuilt once per key name, always the same).  When it also
    occurs earlier, the cursor enters [entry] itself and the final store
    makes [entry] reachable from itself: [Unmodelled]. *)
Definition build_new_dict (entry : pydict) (key_names : list string) : result pyval :=
  if str_in (last key_names "") (removelast key_names)
  then Unmodelled
  else kvs <- key_values entry key_names ;; Returned (nest kvs entry).

(** The loop over the rows; [row_index] and [result_dict] are the loop's
    variables. *)
Fixpoint rows_loop (cols : list string) (key_names : option (list string))
  (rs : list (list pyval)) (row_index : Z) (result_dict : pyval) : result pyval :=
  match rs with
  | [] => Returned result_dict
  | row :: rest =>
      entry <- fill_entry cols row 0 [] ;;
      match key_names with
      | Some ((_ :: _) as names) =>
          new_dict <- build_new_dict entry names ;;
          result_dict' <- deepupdate result_dict new_dict ;;
          rows_loop cols key_names rest row_index result_dict'
      | _ =>
          let row_index := (row_index + 1)%Z in
          match result_dict with
          | PDict d =>
              rows_loop cols key_names rest row_index
                (PDict (dict_set d (PInt row_index) (PDict entry)))
          | _ => Raised TypeError
          end
      end
  end.

(** [SpirentTestCenterIQ.convert_result_to_dict(raw_data, key_names=None)] *)
Definition convert_result_to_dict (raw_data : raw_result)
  (key_names : option (list string)) : result pyval :=
  _ <- match key_names with
       | Some ((_ :: _) as names) => check_key_names names (columns raw_data)
       | _ => Returned tt
       end ;;
  match rows raw_data with
  | Some ((_ :: _) as rs) => rows_loop (columns raw_data) key_names rs 0%Z (PDict [])
  | _ => Returned (PDict [])
  end.

(* ================================================================== *)
(** ** Transport *)

(** What the [requests] library hands back: the status code and the body,
    [None] when the body does not parse as JSON. *)
Record response : Type := mk_response {
  status_code : Z;
  json_body : option pyval
}.

(** [response.raise_for_status()]: an [HTTPError] for 4xx and 5xx. *)
Definition raise_for_status (r : response) : result unit :=
  if ((400 <=? status_code r) && (status_code r <? 600))%Z
  then Raised (HTTPError (status_code r))
  else Returned tt.

(** [__extract_json]: [response.json()], a [ValueError] (JSON decode error)
    when the body is not JSON. *)
Definition extract_json (r : response) : result pyval :=
  match json_body r with
  | Some v => Returned v
  | None => Raised ValueError
  end.

(** [v[key]] for a string key. *)
Definition subscript (v : pyval) (key : string) : result pyval :=
  match v with
  | PDict d =>
      match dict_get d (PStr key) with
      | Some x => Returned x
      | None => Raised (KeyError key)
      end
  | _ => Raised TypeError
  end.

Definition lower_ascii (c : ascii) : ascii :=
  let n := nat_of_ascii c in
  if (65 <=? n)%nat && (n <=? 90)%nat then ascii_of_nat (n + 32) else c.

(** [str.lower()] on ASCII text. *)
Fixpoint lower (s : string) : string :=
  match s with
  | EmptyString => EmptyString
  | String c rest => String (lower_ascii c) (lower rest)
  end.

(** The HTTP client: method, URL and JSON payload to a response. *)
Definition http_client : Type := string -> string -> option pyval -> result response.

(** The client object, as far as the modelled methods read it. *)
Record SpirentTestCenterIQ : Type := mk_iq {
  spirent_iq_rest_api_url : string;
  requests : http_client
}.

(** [get_result_url]: the stored URL; when it is empty the source reads the
    global [stc], which the module never defines. *)
Definition get_result_url (self : SpirentTestCenterIQ) : result string :=
  if String.eqb (spirent_iq_rest_api_url self) ""
  then Raised (NameError "stc")
  else Returned (spirent_iq_rest_api_url self).

(** The [if/elif] chain that sends the request: the local [response] stays
    unbound ([None]) when [cmdtype] is none of the five methods. *)
Definition send_request (self : SpirentTestCenterIQ) (cmdtype url : string)
  (payload : option pyval) : result (option response) :=
  let m := lower cmdtype in
  if String.eqb m "get" then r <- requests self "get" url None ;; Returned (Some r)
  else if String.eqb m "put" then r <- requests self "put" url None ;; Returned (Some r)
  else if String.eqb m "post" then r <- requests self "post" url payload ;; Returned (Some r)
  else if String.eqb m "delete" then r <- requests self "delete" url None ;; Returned (Some r)
  else if String.eqb m "head" then r <- requests self "head" url None ;; Returned (Some r)
  else Returned None.

(** Reading the local variable [response]. *)
Definition read_response (v : option response) : result response :=
  match v with
  | Some r => Returned r
  | None => Raised (UnboundLocalError "response")
  end.

(** [SpirentTestCenterIQ.__execute(cmdtype, url, payload=None)], up to its
    first [return]; the statements after it never run. *)
Definition execute (self : SpirentTestCenterIQ) (cmdtype url : string)
  (payload : option pyval) : result pyval :=
  base <- get_result_url self ;;
  let url := base +++ "/" +++ url in
  response <- send_request self cmdtype url payload ;;
  _ <- try_except
         (r <- read_response response ;; raise_for_status r)
         (fun _ =>
            try_except
              (r <- read_response response ;;
               responsedata <- extract_json r ;;
               message <- subscript responsedata "message" ;;
               Raised (RuntimeError message))
              (fun _ => Returned tt)) ;;
  r <- read_response response ;;
  extract_json r.

(** [execute_query(query, mode="once", db_id=None)] with the database id
    already resolved by the caller. *)
Definition execute_query (self : SpirentTestCenterIQ) (query : pyval)
  (mode : string) (db_id : pyval) : result pyval :=
  let full_query :=
    PDict [(PStr "database", PDict [(PStr "id", db_id)]);
           (PStr "mode", PStr mode);
           (PStr "definition", query)] in
  execute self "post" "queries" (Some full_query).

(* ================================================================== *)
(** ** Schema model: [IqSet], [IqResultSet], [IqDimensionSet] *)

(** One entry of a set's ["facts"] or ["attributes"] list. *)
Record column : Type := mk_column {
  column_name : string;
  column_type : string;
  column_unit : string;
  column_display_name : string;
  column_description : string
}.

(** The metadata dict of one set, as the service sends it; an absent key is
    [None]. *)
Record set_info_t : Type := mk_set_info {
  info_name : string;
  facts : option (list column);
  attributes : option (list column);
  info_dimension_sets : option (list string);
  info_primary_dimension_set : option string
}.

(** Set objects live in the heap of their database and are referred to by
    address, so that a reference held by a result set or by a query denotes
    the object itself.  A reference is [None] where Python holds [None]. *)
Definition addr : Type := nat.

Inductive set_class : Type :=
| IqResultSet (dimension_sets : list (option addr)) (primary_dimension_set : option addr)
| IqDimensionSet.

Record IqSet : Type := mk_set {
  set_info : set_info_t;
  set_name : string;
  column_list : list string;
  column_info : list (string * column);
  class_of : set_class
}.

(** [d[k] = v] on a dict with string keys. *)
Fixpoint sdict_set {V : Type} (d : list (string * V)) (k : string) (v : V)
  : list (string * V) :=
  match d with
  | [] => [(k, v)]
  | (k', v') :: rest =>
      if String.eqb k' k then (k', v) :: rest else (k', v') :: sdict_set rest k v
  end.

Fixpoint sdict_get {V : Type} (d : list (string * V)) (k : string) : option V :=
  match d with
  | [] => None
  | (k', v) :: rest => if String.eqb k' k then Some v else sdict_get rest k
  end.

(** [IqSet.populate_columns(columns)], on the [column_list] the
    constructor left empty. *)
Fixpoint populate_columns (cols : list column)
  (acc : list string * list (string * column)) : list string * list (string * column) :=
  match cols with
  | [] => acc
  | c :: rest =>
      populate_columns rest
        (fst acc ++ [column_name c], sdict_set (snd acc) (column_name c) c)
  end.

Definition get_or_empty {A : Type} (o : option (list A)) : list A :=
  match o with Some l => l | None => [] end.

(** [IqResultSet(db, iq, set_info)] *)
Definition new_result_set (si : set_info_t) : IqSet :=
  let pc := populate_columns (get_or_empty (facts si)) ([], []) in
  mk_set si (info_name si) (fst pc) (snd pc) (IqResultSet [] None).

(** [IqDimensionSet(db, iq, set_info)] *)
Definition new_dimension_set (si : set_info_t) : IqSet :=
  let pc := populate_columns (get_or_empty (attributes si)) ([], []) in
  mk_set si (info_name si) (fst pc) (snd pc) IqDimensionSet.

(** [IqSet.get_full_column_name(column)] *)
Definition IqSet_get_full_column_name (self : IqSet) (column : string) : string :=
  set_name self +++ "." +++ column.

(** [IqResultSet.get_full_column_name(column, latest=False)] *)
Definition IqResultSet_get_full_column_name (self : IqSet) (column : string)
  (latest : bool) : string :=
  if latest then "(" +++ set_name self +++ "$last." +++ column +++ ")"
  else set_name self +++ "." +++ column.

(** [get_column_alias(column)] *)
Definition get_column_alias (self : IqSet) (column : string) : string :=
  set_name self +++ "_" +++ column.

(** [x.get_full_column_name(column)] on whatever set [x] is: a result set
    answers with its own method and the default [latest=False]. *)
Definition call_get_full_column_name (x : IqSet) (column : string) : string :=
  match class_of x with
  | IqResultSet _ _ => IqResultSet_get_full_column_name x column false
  | IqDimensionSet => IqSet_get_full_column_name x column
  end.

(** The dict [{"projections": [...], "column_alias_list": [...]}]. *)
Record columns_info_t : Type := mk_columns_info {
  projections : list string;
  column_alias_list : list string
}.

(** One turn of the loops in [get_columns_info]. *)
Definition append_column (ci : columns_info_t) (full_column alias : string)
  : columns_info_t :=
  mk_columns_info (projections ci ++ [full_column +++ " AS " +++ alias])
                  (column_alias_list ci ++ [alias]).

(** [IqSet.get_columns_info()]: the base method takes no [latest]. *)
Definition IqSet_get_columns_info (self : IqSet) : columns_info_t :=
  fold_left
    (fun ci column =>
       append_column ci (IqSet_get_full_column_name self column)
                        (get_column_alias self column))
    (column_list self) (mk_columns_info [] []).

(** The inner loop of [IqResultSet.get_columns_info] over one linked set. *)
Definition append_dimension_columns (dimension_set : IqSet) (ci : columns_info_t)
  : columns_info_t :=
  fold_left
    (fun ci column =>
       append_column ci (call_get_full_column_name dimension_set column)
                        (get_column_alias dimension_set column))
    (column_list dimension_set) ci.

(** The outer loop over [self.dimension_sets]; an unresolved reference is
    Python's [None], which has no [column_list]. *)
Fixpoint dimension_sets_loop (heap : list IqSet) (refs : list (option addr))
  (ci : columns_info_t) : result columns_info_t :=
  match refs with
  | [] => Returned ci
  | None :: _ => Raised AttributeError
  | Some a :: rest =>
      match nth_error heap a with
      | None => Unmodelled
      | Some dimension_set =>
          dimension_sets_loop heap rest (append_dimension_columns dimension_set ci)
      end
  end.

(** [IqResultSet.get_columns_info(latest=False)] *)
Definition IqResultSet_get_columns_info (heap : list IqSet) (self : IqSet)
  (latest : bool) : result columns_info_t :=
  let own :=
    fold_left
      (fun ci column =>
         append_column ci (IqResultSet_get_full_column_name self column latest)
                          (get_column_alias self column))
      (column_list self) (mk_columns_info [] []) in
  match class_of self with
  | IqResultSet dimension_sets _ => dimension_sets_loop heap dimension_sets own
  | IqDimensionSet => Raised AttributeError
  end.

(** The call [x.get_columns_info()], with [latest = None], or
    [x.get_columns_info(latest)] on whatever set [x] is.  A result set
    answers with its own method, where [latest] defaults to [False]; a
    dimension set has the method of [IqSet] only, whose single parameter is
    [self], so that an argument makes the call itself fail. *)
Definition get_columns_info (heap : list IqSet) (x : IqSet) (latest : option bool)
  : result columns_info_t :=
  match class_of x with
  | IqResultSet _ _ =>
      IqResultSet_get_columns_info heap x
        (match latest with Some b => b | None => false end)
  | IqDimensionSet =>
      match latest with
      | Some _ => Raised TypeError
      | None => Returned (IqSet_get_columns_info x)
      end
  end.

(** [get_column_type(column_name)] and its three siblings. *)
Definition get_column_field (field : column -> string) (self : IqSet)
  (name : string) : result string :=
  match sdict_get (column_info self) name with
  | None => Raised (PyException ("The column '" +++ name +++ "' was not found."))
  | Some c => Returned (field c)
  end.

Definition get_column_type := get_column_field column_type.
Definition get_column_unit := get_column_field column_unit.
Definition get_column_display_name := get_column_field column_display_name.
Definition get_column_description := get_column_field column_description.

(* ================================================================== *)
(** ** [IqDatabase] *)

(** The database metadata returned by [get_db_info]. *)
Record db_info_t : Type := mk_db_info {
  info_id : string;
  info_db_name : string;
  info_first_created : string;
  info_last_updated : string;
  info_test_running : option pyval;
  result_sets : list set_info_t;
  dimension_sets : list set_info_t
}.

Record IqDatabase : Type := mk_db {
  db_id : string;
  profile_id : option string;
  info : db_info_t;
  id : string;
  name : string;
  first_create : string;
  last_updated : string;
  running : pyval;
  heap : list IqSet;
  set_list : list addr;
  result_set_list : list addr;
  dimension_set_list : list addr
}.

Definition with_sets (db : IqDatabase) (h : list IqSet) (sl rl dl : list addr)
  : IqDatabase :=
  mk_db (db_id db) (profile_id db) (info db) (id db) (name db) (first_create db)
        (last_updated db) (running db) h sl rl dl.

(** [find_set_by_name(name)]: first match in [set_list]; the argument is
    [None] when the caller passes Python's [None]. *)
Fixpoint find_in_set_list (h : list IqSet) (sl : list addr) (nm : string)
  : option addr :=
  match sl with
  | [] => None
  | a :: rest =>
      match nth_error h a with
      | Some iq_set =>
          if String.eqb (set_name iq_set) nm then Some a
          else find_in_set_list h rest nm
      | None => find_in_set_list h rest nm
      end
  end.

Definition find_set_by_name (db : IqDatabase) (nm : option string) : option addr :=
  match nm with
  | Some n => find_in_set_list (heap db) (set_list db) n
  | None => None
  end.

(** Replace the object stored at an address. *)
Fixpoint heap_update (h : list IqSet) (a : addr) (x : IqSet) : list IqSet :=
  match h, a with
  | [], _ => []
  | _ :: rest, O => x :: rest
  | y :: rest, S a' => y :: heap_update rest a' x
  end.

(** [IqResultSet.refresh_related_set_info()] on the object [self]; the
    method of [IqSet], which a dimension set inherits, does nothing. *)
Definition related_set_info (db : IqDatabase) (self : IqSet) : IqSet :=
  match class_of self with
  | IqResultSet dsets _ =>
      let found :=
        map (fun nm => find_set_by_name db (Some nm))
            (get_or_empty (info_dimension_sets (set_info self))) in
      let primary :=
        find_set_by_name db (info_primary_dimension_set (set_info self)) in
      mk_set (set_info self) (set_name self) (column_list self)
             (column_info self) (IqResultSet (dsets ++ found) primary)
  | IqDimensionSet => self
  end.

(** [iq_set.refresh_related_set_info()] for the object at address [a]. *)
Definition refresh_related_set_info (db : IqDatabase) (a : addr) : IqDatabase :=
  match nth_error (heap db) a with
  | Some self =>
      with_sets db (heap_update (heap db) a (related_set_info db self))
                (set_list db) (result_set_list db) (dimension_set_list db)
  | None => db
  end.

(** The two construction loops of [refresh_set_list]: allocate an object,
    append its address. *)
Fixpoint construct_sets (mk : set_info_t -> IqSet) (infos : list set_info_t)
  (h : list IqSet) (l : list addr) : list IqSet * list addr :=
  match infos with
  | [] => (h, l)
  | si :: rest => construct_sets mk rest (h ++ [mk si]) (l ++ [length h])
  end.

(** [IqDatabase.refresh_set_list()] *)
Definition refresh_set_list (db : IqDatabase) : IqDatabase :=
  let '(h1, rl) :=
    construct_sets new_result_set (result_sets (info db))
                   (heap db) (result_set_list db) in
  let '(h2, dl) :=
    construct_sets new_dimension_set (dimension_sets (info db))
                   h1 (dimension_set_list db) in
  let db1 := with_sets db h2 (rl ++ dl) rl dl in
  fold_left refresh_related_set_info (set_list db1) db1.

(** [IqDatabase.refresh()], given the metadata the service answered. *)
Definition refresh (db : IqDatabase) (db_info : db_info_t) : IqDatabase :=
  let running :=
    match info_test_running db_info with Some v => v | None => PBool false end in
  refresh_set_list
    (mk_db (db_id db) (profile_id db) db_info (info_id db_info)
           (info_db_name db_info) (info_first_created db_info)
           (info_last_updated db_info) running (heap db) [] [] []).

(** [IqDatabase(iq, db_id)], given the metadata the service answered. *)
Definition unloaded_database (db_id : string) (db_info : db_info_t) : IqDatabase :=
  mk_db db_id None db_info "" "" "" "" PNone [] [] [] [].

Definition new_database (db_id : string) (db_info : db_info_t) : IqDatabase :=
  refresh (unloaded_database db_id db_info) db_info.

(* ================================================================== *)
(** ** The database catalogue *)

(** A [datetime] as [dateutil.parser.parse] returns it: zone-aware when
    the text names a zone, zone-less otherwise.  [instant] is the point on
    the time line of an aware value and the wall-clock reading of a zone-less
    one, in microseconds. *)
Record datetime : Type := mk_datetime {
  aware : bool;
  instant : Z
}.

(** [a < b] on two [datetime] objects: aware values are ordered by their
    instants, zone-less ones by their readings, and Python refuses to order
    an aware value against a zone-less one. *)
Definition datetime_lt (a b : datetime) : result bool :=
  if Bool.eqb (aware a) (aware b)
  then Returned (instant a <? instant b)%Z
  else Raised TypeError.

(** The loop of [find_db_by_name]; [dateutil_parse] stands for
    [dateutil.parser.parse], giving the [datetime] a timestamp denotes or
    the exception it raises.  A [datetime] is true in a condition, so
    [not db_timestamp] holds only while [db_timestamp] is [None]. *)
Fixpoint find_db_loop (dateutil_parse : string -> result datetime)
  (db_list : list IqDatabase) (nm : option string)
  (current_db : option IqDatabase) (db_timestamp : option datetime)
  : result (option IqDatabase) :=
  match db_list with
  | [] => Returned current_db
  | db :: rest =>
      if match nm with Some n => String.eqb (name db) n | None => false end
      then
        new_db_timestamp <- dateutil_parse (last_updated db) ;;
        match db_timestamp with
        | None => find_db_loop dateutil_parse rest nm (Some db) (Some new_db_timestamp)
        | Some ts =>
            newer <- datetime_lt ts new_db_timestamp ;;
            if (newer : bool)
            then find_db_loop dateutil_parse rest nm (Some db) (Some new_db_timestamp)
            else find_db_loop dateutil_parse rest nm current_db db_timestamp
        end
      else find_db_loop dateutil_parse rest nm current_db db_timestamp
  end.

(** [SpirentTestCenterIQ.find_db_by_name(name=None)] *)
Definition find_db_by_name (dateutil_parse : string -> result datetime)
  (db_list : list IqDatabase) (nm : option string) : result (option IqDatabase) :=
  find_db_loop dateutil_parse db_list nm None None.

(** [find_db_by_id(id=None)] *)
Fixpoint find_db_by_id (db_list : list IqDatabase) (i : option string)
  : option IqDatabase :=
  match db_list with
  | [] => None
  | db :: rest =>
      match i with
      | Some s =>
          if negb (String.eqb s "") && String.eqb s (id db) then Some db
          else find_db_by_id rest i
      | None => find_db_by_id rest i
      end
  end.

(* ================================================================== *)
(** ** Query builder: [IqQuery], [IqSingleQuery], [IqMultiQuery] *)

(** The attributes [IqQuery.__init__] sets.  [alias] is the attribute
    [self.name]. *)
Record query_state : Type := mk_query_state {
  alias : option string;
  filters : list pyval;
  groups : list pyval;
  orders : list pyval;
  timestamp_range : pyval;
  limit : pyval;
  pagination : pyval
}.

(** A query object with the objects it owns.  Sub-queries are taken to be
    distinct objects, so the tree of sub-queries is a tree of values. *)
Inductive IqQuery : Type :=
| IqSingleQuery (st : query_state) (iq_set : option addr)
    (columns_info : option columns_info_t) (cols : list string)
| IqMultiQuery (st : query_state) (subqueries : list IqQuery) (keys : list string).

Definition state_of (q : IqQuery) : query_state :=
  match q with
  | IqSingleQuery st _ _ _ => st
  | IqMultiQuery st _ _ => st
  end.

Definition with_state (q : IqQuery) (st : query_state) : IqQuery :=
  match q with
  | IqSingleQuery _ s ci c => IqSingleQuery st s ci c
  | IqMultiQuery _ subs ks => IqMultiQuery st subs ks
  end.

(** [IqQuery.__init__(db, name=None)] *)
Definition new_query_state (nm : option string) : query_state :=
  mk_query_state nm [] [] [] (PDict []) PNone PNone.

Definition set_filters (st : query_state) (fs : list pyval) : query_state :=
  mk_query_state (alias st) fs (groups st) (orders st) (timestamp_range st)
                 (limit st) (pagination st).

Definition set_groups (st : query_state) (gs : list pyval) : query_state :=
  mk_query_state (alias st) (filters st) gs (orders st) (timestamp_range st)
                 (limit st) (pagination st).

Definition set_orders (st : query_state) (os : list pyval) : query_state :=
  mk_query_state (alias st) (filters st) (groups st) os (timestamp_range st)
                 (limit st) (pagination st).

Definition set_timestamp_range (st : query_state) (t : pyval) : query_state :=
  mk_query_state (alias st) (filters st) (groups st) (orders st) t
                 (limit st) (pagination st).

Definition add_filter (st : query_state) (f : pyval) : query_state :=
  set_filters st (filters st ++ [f]).

Definition delete_filters (st : query_state) : query_state := set_filters st [].

Definition add_group (st : query_state) (g : pyval) : query_state :=
  set_groups st (groups st ++ [g]).

Definition delete_groups (st : query_state) : query_state := set_groups st [].

Definition delete_orders (st : query_state) : query_state := set_orders st [].

(** The names bound at the top level of [spirenttestcenteriq.py]: the
    module's own attributes, its imports, assignments, functions and
    classes. *)
Definition module_globals : list string :=
  ["__name__"; "__doc__"; "__package__"; "__loader__"; "__spec__"; "__file__";
   "__cached__"; "__builtins__";
   "sys"; "os"; "time"; "datetime"; "pkg_resources"; "json"; "re"; "copy";
   "csv"; "dateutil"; "LooseVersion"; "requests"; "pprint";
   "__author__"; "__copyright__"; "__credits__"; "__version__";
   "__maintainer__"; "__email__"; "__status__";
   "timeit"; "deepupdate"; "SpirentTestCenterIQ"; "IqDatabase"; "IqSet";
   "IqResultSet"; "IqDimensionSet"; "IqQuery"; "IqSingleQuery"; "IqMultiQuery"].

(** Python's built-in functions and constants; the built-in exception
    classes, all spelled with a capital, complete the built-in scope. *)
Definition builtins : list string :=
  ["abs"; "aiter"; "all"; "anext"; "any"; "ascii"; "bin"; "bool"; "breakpoint";
   "bytearray"; "bytes"; "callable"; "chr"; "classmethod"; "compile"; "complex";
   "delattr"; "dict"; "dir"; "divmod"; "enumerate"; "eval"; "exec"; "filter";
   "float"; "format"; "frozenset"; "getattr"; "globals"; "hasattr"; "hash";
   "help"; "hex"; "id"; "input"; "int"; "isinstance"; "issubclass"; "iter";
   "len"; "list"; "locals"; "map"; "max"; "memoryview"; "min"; "next";
   "object"; "oct"; "open"; "ord"; "pow"; "print"; "property"; "range";
   "repr"; "reversed"; "round"; "set"; "setattr"; "slice"; "sorted";
   "staticmethod"; "str"; "sum"; "super"; "tuple"; "type"; "vars"; "zip";
   "__import__"; "True"; "False"; "None"; "NotImplemented"; "Ellipsis";
   "__debug__"; "copyright"; "credits"; "license"; "exit"; "quit"].

(** Reading a name inside a method body: the locals, then the module's
    globals, then the built-ins.  A global or built-in is a module, class or
    function, not a [pyval]: [Unmodelled]. *)
Definition load_name (locals : list (string * pyval)) (nm : string) : result pyval :=
  match sdict_get locals nm with
  | Some v => Returned v
  | None =>
      if str_in nm module_globals || str_in nm builtins
      then Unmodelled
      else Raised (NameError nm)
  end.

(** [IqQuery.add_order(order)]: the body is [self.orders.append(group)].
    The object is returned as the call leaves it. *)
Definition add_order (self : query_state) (order : pyval)
  : query_state * result unit :=
  match load_name [("order", order)] "group" with
  | Returned v => (set_orders self (orders self ++ [v]), Returned tt)
  | Raised e => (self, Raised e)
  | Unmodelled => (self, Unmodelled)
  end.

(** [add_timestamp_range_relative(interval=None)] *)
Definition add_timestamp_range_relative (st : query_state) (interval : option string)
  : query_state :=
  match interval with
  | Some i =>
      if String.eqb i "" then set_timestamp_range st (PDict [])
      else set_timestamp_range st
             (PDict [(PStr "relative", PDict [(PStr "interval", PStr i)])])
  | None => set_timestamp_range st (PDict [])
  end.

Definition nonempty (o : option string) : option string :=
  match o with
  | Some s => if String.eqb s "" then None else Some s
  | None => None
  end.

(** [add_timestamp_range_absolute(start=None, end=None)] for arguments
    that are already strings. *)
Definition add_timestamp_range_absolute (st : query_state)
  (start stop : option string) : query_state :=
  match nonempty start, nonempty stop with
  | None, None => set_timestamp_range st (PDict [])
  | s, e =>
      let d0 := match s with Some x => [(PStr "start", PStr x)] | None => [] end in
      let d1 := match e with Some x => dict_set d0 (PStr "end") (PStr x) | None => d0 end in
      set_timestamp_range st (PDict [(PStr "absolute", PDict d1)])
  end.

Definition opt_str (o : option string) : pyval :=
  match o with Some s => PStr s | None => PNone end.

Definition str_list (l : list string) : pyval := PList (map PStr l).

(** [IqQuery.get_query()] *)
Definition IqQuery_get_query (st : query_state) : pydict :=
  [(PStr "alias", opt_str (alias st));
   (PStr "filters", PList (filters st));
   (PStr "groups", PList (groups st));
   (PStr "orders", PList (orders st));
   (PStr "timestamp_range", timestamp_range st);
   (PStr "limit", limit st);
   (PStr "pagination", pagination st)].

(** [IqSingleQuery.refresh_columns_info(latest=False)], which calls
    [self.iq_set.get_columns_info(latest)]: no set, no attribute; a
    dimension set only has the base method, which rejects the argument. *)
Definition refresh_columns_info (db : IqDatabase) (self : IqQuery) (latest : bool)
  : IqQuery * result unit :=
  match self with
  | IqSingleQuery st iq_set _ _ =>
      match iq_set with
      | None => (self, Raised AttributeError)
      | Some a =>
          match nth_error (heap db) a with
          | None => (self, Unmodelled)
          | Some s =>
              match class_of s with
              | IqDimensionSet => (self, Raised TypeError)
              | IqResultSet _ _ =>
                  match IqResultSet_get_columns_info (heap db) s latest with
                  | Returned ci =>
                      (IqSingleQuery st iq_set (Some ci) (column_alias_list ci),
                       Returned tt)
                  | Raised e => (self, Raised e)
                  | Unmodelled => (self, Unmodelled)
                  end
              end
          end
      end
  | IqMultiQuery _ _ _ => (self, Raised AttributeError)
  end.

(** [IqSingleQuery(db, iq_set_name=None, name=None)] *)
Definition new_single_query (db : IqDatabase) (iq_set_name nm : option string)
  : result IqQuery :=
  let nm' := match nonempty nm with Some n => Some n | None => iq_set_name end in
  let self :=
    IqSingleQuery (new_query_state nm') (find_set_by_name db iq_set_name) None [] in
  match refresh_columns_info db self false with
  | (self', Returned _) => Returned self'
  | (_, Raised e) => Raised e
  | (_, Unmodelled) => Unmodelled
  end.

(** [get_columns()]: a single query answers its alias list, a multi-query
    the concatenation of its sub-queries' answers. *)
Fixpoint get_columns (q : IqQuery) : list string :=
  match q with
  | IqSingleQuery _ _ _ cols => cols
  | IqMultiQuery _ subs _ => flat_map get_columns subs
  end.

(** [add_subqueries(queries)] *)
Definition add_subqueries (self : IqQuery) (queries : list IqQuery) : IqQuery :=
  match self with
  | IqMultiQuery st subs ks => IqMultiQuery st (subs ++ queries) ks
  | other => other
  end.

(** The locals of [IqMultiQuery.get_query] that its loops build up. *)
Record build_state : Type := mk_build_state {
  built_subqueries : list pyval;
  seen_columns : list string;
  built_projections : list string;
  key_dict : list (string * list string)
}.

(** [key_dict[column].append(full_column)], creating the list first *)
Definition key_dict_append (kd : list (string * list string)) (column full_column : string)
  : list (string * list string) :=
  match sdict_get kd column with
  | None => sdict_set kd column [full_column]
  | Some refs => sdict_set kd column (refs ++ [full_column])
  end.

(** The loop [for column in subquery.get_columns()]; [subquery.name + "."]
    fails on a sub-query without a name. *)
Fixpoint scan_columns (sub_name : option string) (ks : list string)
  (cs : list string) (b : build_state) : result build_state :=
  match cs with
  | [] => Returned b
  | column :: rest =>
      match sub_name with
      | None => Raised TypeError
      | Some n =>
          let full_column := n +++ "." +++ column in
          let b1 :=
            if str_in column (seen_columns b) then b
            else mk_build_state (built_subqueries b) (seen_columns b ++ [column])
                   (built_projections b ++ [full_column +++ " AS " +++ column])
                   (key_dict b) in
          let b2 :=
            if str_in column ks
            then mk_build_state (built_subqueries b1) (seen_columns b1)
                   (built_projections b1)
                   (key_dict_append (key_dict b1) column full_column)
            else b1 in
          scan_columns sub_name ks rest b2
      end
  end.

(** The loop [for subquery in self.subqueries], over the method
    [get_query] of the sub-queries; it returns the sub-queries as the calls
    leave them. *)
Fixpoint subqueries_loop (get_query : IqQuery -> IqQuery * result pyval)
  (ks : list string) (subs : list IqQuery) (b : build_state)
  : list IqQuery * result build_state :=
  match subs with
  | [] => ([], Returned b)
  | subquery :: rest =>
      match get_query subquery with
      | (subquery', Returned q) =>
          let b1 := mk_build_state (built_subqueries b ++ [q]) (seen_columns b)
                      (built_projections b) (key_dict b) in
          match scan_columns (alias (state_of subquery')) ks
                  (get_columns subquery') b1 with
          | Returned b2 =>
              let '(rest', r) := subqueries_loop get_query ks rest b2 in
              (subquery' :: rest', r)
          | Raised e => (subquery' :: rest, Raised e)
          | Unmodelled => (subquery' :: rest, Unmodelled)
          end
      | (subquery', Raised e) => (subquery' :: rest, Raised e)
      | (subquery', Unmodelled) => (subquery' :: rest, Unmodelled)
      end
  end.

Definition key_not_joinable_message (column : string) : string :=
  "The key '" +++ column +++
  "' was only found in one sub-query. It must exist in all sub-queries.".

Definition key_ambiguous_message (column : string) : string :=
  "The key '" +++ column +++ "' was only found in more than two sub-queries.".

(** The loop [for column in key_dict.keys()], appending to the list that
    [query["filters"]] refers to; the list is returned as the loop leaves
    it. *)
Fixpoint key_filters_loop (kd : list (string * list string)) (fs : list pyval)
  : list pyval * result unit :=
  match kd with
  | [] => (fs, Returned tt)
  | (column, refs) :: rest =>
      match refs with
      | [_] => (fs, Raised (PyException (key_not_joinable_message column)))
      | [r0; r1] => key_filters_loop rest (fs ++ [PStr (r0 +++ "=" +++ r1)])
      | [] => (fs, Raised IndexError)
      | _ => (fs, Raised (PyException (key_ambiguous_message column)))
      end
  end.

(** [get_query(latest=False)] of a single query and of a multi-query.  The
    multi-query stores [self.filters] itself under ["filters"]; only an empty
    list is replaced by a fresh one, so the filters appended for the keys
    land in [self.filters] whenever it was not empty. *)
Fixpoint get_query (db : IqDatabase) (latest : bool) (self : IqQuery)
  {struct self} : IqQuery * result pyval :=
  match self with
  | IqSingleQuery st _ _ _ =>
      let query := IqQuery_get_query st in
      match refresh_columns_info db self latest with
      | (self', Returned _) =>
          match self' with
          | IqSingleQuery _ _ (Some ci) _ =>
              (self', Returned (PDict (dict_set query (PStr "projections")
                                         (str_list (projections ci)))))
          | _ => (self', Raised TypeError)
          end
      | (self', Raised e) => (self', Raised e)
      | (self', Unmodelled) => (self', Unmodelled)
      end
  | IqMultiQuery st subs ks =>
      match subqueries_loop (get_query db latest) ks subs
              (mk_build_state [] [] [] []) with
      | (subs', Returned b) =>
          let '(fs, r) := key_filters_loop (key_dict b) (filters st) in
          let st' := match filters st with [] => st | _ => set_filters st fs end in
          (IqMultiQuery st' subs' ks,
           _ <- r ;;
           Returned (PDict
             [(PStr "alias", opt_str (alias st));
              (PStr "filters", PList fs);
              (PStr "groups", PList (groups st));
              (PStr "orders", PList (orders st));
              (PStr "limit", limit st);
              (PStr "pagination", pagination st);
              (PStr "subqueries", PList (built_subqueries b));
              (PStr "projections", str_list (built_projections b))]))
      | (subs', Raised e) => (IqMultiQuery st subs' ks, Raised e)
      | (subs', Unmodelled) => (IqMultiQuery st subs' ks, Unmodelled)
      end
  end.

(** [IqMultiQuery(db, iq_set_names=None, subqueries=None, name=None,
    keys=None)]; the constructor ignores its [subqueries] argument. *)
Fixpoint new_single_queries (db : IqDatabase) (iq_set_names : list string)
  : result (list IqQuery) :=
  match iq_set_names with
  | [] => Returned []
  | set_name :: rest =>
      q <- new_single_query db (Some set_name) None ;;
      qs <- new_single_queries db rest ;;
      Returned (q :: qs)
  end.

Definition new_multi_query (db : IqDatabase) (iq_set_names : option (list string))
  (nm : option string) (ks : option (list string)) : result IqQuery :=
  match iq_set_names with
  | None => Raised TypeError
  | Some names =>
      subs <- new_single_queries db names ;;
      Returned (IqMultiQuery (new_query_state nm) subs (get_or_empty ks))
  end.

(** [add_order] on a query object of either class. *)
Definition IqQuery_add_order (self : IqQuery) (order : pyval)
  : IqQuery * result unit :=
  let '(st, r) := add_order (state_of self) order in (with_state self st, r).

(* ================================================================== *)
(** ** Sample data *)

(** The raw result of the specification's reshaping example. *)
Definition sample_raw : raw_result :=
  mk_raw ["a"; "b"] (Some [[PInt 1; PInt 2]; [PInt 3; PInt 4]]).

(** The items the row loop stores when no key name is given: row number,
    starting after [row_index], and the row's entry. *)
Fixpoint numbered_entries (cols : list string) (row_index : Z)
  (rs : list (list pyval)) : pydict :=
  match rs with
  | [] => []
  | row :: rest =>
      (PInt (row_index + 1)%Z,
       PDict (combine (map PStr cols) (firstn (length cols) row)))
      :: numbered_entries cols (row_index + 1)%Z rest
  end.

(** A service answering every request with 404 and an error body. *)
Definition sample_error_body : pyval :=
  PDict [(PStr "message", PStr "Database not found")].

Definition sample_failing_client : SpirentTestCenterIQ :=
  mk_iq "http://10.0.0.1:9199"
        (fun _ _ _ => Returned (mk_response 404 (Some sample_error_body))).

(** A reading of fixed-width timestamps [YYYY-MM-DDTHH:MM:SS.ffffff], with
    the suffix [Z] as the service writes them or without, used in the
    examples: the digits in order, which orders such timestamps as the
    instants they denote; the value is zone-aware when the text ends in
    [Z]. *)
Fixpoint sample_parse_from (s : string) (acc : Z) : result Z :=
  match s with
  | EmptyString => Returned acc
  | String c rest =>
      let n := nat_of_ascii c in
      if (48 <=? n)%nat && (n <=? 57)%nat
      then sample_parse_from rest (10 * acc + Z.of_nat (n - 48))%Z
      else if existsb (Ascii.eqb c) ["-"; "T"; ":"; "."; "Z"]%char
           then sample_parse_from rest acc
           else Raised ValueError
  end.

Fixpoint ends_in_Z (s : string) : bool :=
  match s with
  | EmptyString => false
  | String c EmptyString => Ascii.eqb c "Z"%char
  | String _ rest => ends_in_Z rest
  end.

Definition sample_parse (s : string) : result datetime :=
  t <- sample_parse_from s 0%Z ;; Returned (mk_datetime (ends_in_Z s) t).

(** Two databases with the same name and the same [last_updated]. *)
Definition sample_db (i nm updated : string) : IqDatabase :=
  mk_db i None (mk_db_info i nm "2019-12-11T01:58:34.870653Z" updated None [] [])
        i nm "2019-12-11T01:58:34.870653Z" updated (PBool false) [] [] [] [].

Definition sample_db_first : IqDatabase :=
  sample_db "l5ixqul3p5axfgzq" "api testing" "2019-12-11T08:09:16.662384Z".

Definition sample_db_last : IqDatabase :=
  sample_db "k2dmw9x0a7bqhc5e" "api testing" "2019-12-11T08:09:16.662384Z".

Definition sample_db_older : IqDatabase :=
  sample_db "p0o9i8u7y6t5r4e3" "api testing" "2019-12-10T23:00:00.000000Z".

(** A database of the same name whose timestamp names no zone. *)
Definition sample_db_zoneless : IqDatabase :=
  sample_db "z9y8x7w6v5u4t3s2" "api testing" "2019-12-11T09:00:00.000000".

(** [dateutil.parser.parse(db.last_updated)] yields a [datetime] with or
    without zone, as [zone] says, at the instant [t]. *)
Definition last_updated_at (dateutil_parse : string -> result datetime)
  (zone : bool) (db : IqDatabase) (t : Z) : Prop :=
  dateutil_parse (last_updated db) = Returned (mk_datetime zone t).

(** A database with two result sets that both link the dimension set
    declared after them. *)
Definition sample_column (nm : string) : column := mk_column nm "integer" "" nm "".

Definition sample_tx_info : set_info_t :=
  mk_set_info "tx_stream_live_stats" (Some [sample_column "frame_count"]) None
    (Some ["stream"]) (Some "stream").

Definition sample_rx_info : set_info_t :=
  mk_set_info "rx_stream_live_stats" (Some [sample_column "frame_count"]) None
    (Some ["stream"]) None.

Definition sample_stream_info : set_info_t :=
  mk_set_info "stream" None (Some [sample_column "stream_id"]) None None.

Definition sample_db_info : db_info_t :=
  mk_db_info "l5ixqul3p5axfgzq" "api testing"
    "2019-12-11T01:58:34.870653Z" "2019-12-11T08:09:16.662384Z" None
    [sample_tx_info; sample_rx_info] [sample_stream_info].

(** The first result set as the refresh leaves it. *)
Definition sample_tx : IqSet :=
  mk_set sample_tx_info "tx_stream_live_stats" ["frame_count"]
    [("frame_count", sample_column "frame_count")] (IqResultSet [Some 2] (Some 2)).

Definition sample_database : IqDatabase :=
  new_database "l5ixqul3p5axfgzq" sample_db_info.

(** The projection clauses in the words of the specification:
    ["<set>.<column> AS <set>_<column>"], its latest form
    ["(<set>$last.<column>) AS <set>_<column>"], and the alias. *)
Definition spec_alias (set_nm col : string) : string := set_nm +++ "_" +++ col.

Definition spec_projection (set_nm col : string) : string :=
  (set_nm +++ "." +++ col) +++ " AS " +++ spec_alias set_nm col.

Definition spec_latest_projection (set_nm col : string) : string :=
  ("(" +++ set_nm +++ "$last." +++ col +++ ")") +++ " AS " +++ spec_alias set_nm col.

(** A result set's references all resolved: [dims] are the objects the
    references denote, in order. *)
Definition resolved (h : list IqSet) (refs : list (option addr)) (dims : list IqSet)
  : Prop :=
  Forall2 (fun r d => exists a, r = Some a /\ nth_error h a = Some d) refs dims.

(** The multi-query of the canned stream results, here over two result
    sets that share the alias [stream_stream_id]. *)
Definition sample_multi_query : result IqQuery :=
  new_multi_query sample_database
    (Some ["tx_stream_live_stats"; "rx_stream_live_stats"]) None
    (Some ["stream_stream_id"]).

Definition sample_join_filter : pyval :=
  PStr "tx_stream_live_stats.stream_stream_id=rx_stream_live_stats.stream_stream_id".

(** The notions the key check of a multi-query is stated with.  The name a
    sub-query qualifies its columns with: *)
Definition sub_name (sq : IqQuery) : string :=
  match alias (state_of sq) with Some n => n | None => "" end.

Definition qualified (sq : IqQuery) (column : string) : string :=
  sub_name sq +++ "." +++ column.

(** The sub-queries whose columns include [k], in order. *)
Definition found_in (subs : list IqQuery) (k : string) : list IqQuery :=
  filter (fun sq => str_in k (get_columns sq)) subs.

(** The distinct elements of a list in the order of their first
    occurrence. *)
Definition first_seen (l : list string) : list string :=
  fold_left (fun acc c => if str_in c acc then acc else acc ++ [c]) l [].

(** The declared keys that some sub-query lists, in first-seen order. *)
Definition seen_keys (ks : list string) (subs : list IqQuery) : list string :=
  first_seen (filter (fun c => str_in c ks) (flat_map get_columns subs)).

(** The equality filter joining the two sub-queries that list [k]. *)
Definition join_filter (subs : list IqQuery) (k : string) : pyval :=
  match found_in subs k with
  | [a; b] => PStr (qualified a k +++ "=" +++ qualified b k)
  | _ => PNone
  end.

(** The references the column loop gathers from one sub-query: a pair of
    key column and qualified name for every listed column that is a key. *)
Definition key_events (ks : list string) (sq : IqQuery) : list (string * string) :=
  flat_map (fun c => if str_in c ks then [(c, qualified sq c)] else [])
           (get_columns sq).

Definition refs_of (events : list (string * string)) (k : string) : list string :=
  map snd (filter (fun e => String.eqb (fst e) k) events).

Definition gather (kd : list (string * list string)) (events : list (string * string))
  : list (string * list string) :=
  fold_left (fun kd e => key_dict_append kd (fst e) (snd e)) events kd.

(** A multi-query whose declared key no sub-query lists, and one with a
    key that only the first sub-query lists. *)
Definition sample_absent_key_query : result IqQuery :=
  new_multi_query sample_database
    (Some ["tx_stream_live_stats"; "rx_stream_live_stats"]) None
    (Some ["no_such_column"]).

Definition sample_subqueries : list IqQuery :=
  match sample_multi_query with
  | Returned (IqMultiQuery _ subs _) => subs
  | _ => []
  end.

Definition sample_lone_keys : list string :=
  ["stream_stream_id"; "tx_stream_live_stats_frame_count"].

(* ================================================================== *)
(** ** Notions used to state further properties *)

(** One turn of the loop of [deepupdate], on the dict [t] the target
    holds. *)
Definition merge_item (t : pydict) (k v : pyval) : result pydict :=
  match v with
  | PList l =>
      match dict_get t k with
      | None => Returned (dict_set t k v)
      | Some (PList l0) => Returned (dict_set t k (PList (l0 ++ l)))
      | Some _ => Raised AttributeError
      end
  | PDict _ =>
      match dict_get t k with
      | None => Returned (dict_set t k v)
      | Some tv => r <- deepupdate tv v ;; Returned (dict_set t k r)
      end
  | _ => Returned (dict_set t k v)
  end.

(** The loop of [deepupdate] over the items of [src]. *)
Fixpoint merge_items (items : pydict) (target : pyval) : result pyval :=
  match items with
  | [] => Returned target
  | (k, v) :: rest =>
      match target with
      | PDict t => t' <- merge_item t k v ;; merge_items rest (PDict t')
      | _ => Raised TypeError
      end
  end.

(** The keys of a dict are pairwise different, as Python keeps them. *)
Fixpoint distinct_keys (d : pydict) : Prop :=
  match d with
  | [] => True
  | (k, _) :: rest =>
      (forall k', In k' (dict_keys rest) -> key_eqb k k' = false) /\
      distinct_keys rest
  end.

(** The entry the row loop builds for a row with enough cells. *)
Definition row_entry (cols : list string) (row : list pyval) : pydict :=
  combine (map PStr cols) (firstn (length cols) row).

(** The cell of a row under a column name ([None] for no such column). *)
Definition cell (cols : list string) (row : list pyval) (nm : string) : pyval :=
  match dict_get (row_entry cols row) (PStr nm) with
  | Some v => v
  | None => PNone
  end.

(** What [deepupdate] leaves under the key [k] of an item [(k, v)] of the
    source, on JSON values: a list is appended to the list the target held,
    a dict is merged into the value the target held, [None], a boolean, a
    number or a string replaces it. *)
Definition merged_under (t t' : pydict) (k v : pyval) : Prop :=
  match v with
  | PList l =>
      match dict_get t k with
      | Some (PList l0) => dict_get t' k = Some (PList (l0 ++ l))
      | Some _ => False
      | None => dict_get t' k = Some v
      end
  | PDict _ =>
      match dict_get t k with
      | Some tv => exists r, deepupdate tv v = Returned r /\ dict_get t' k = Some r
      | None => dict_get t' k = Some v
      end
  | _ => dict_get t' k = Some v
  end.


(** The example of [deepupdate]'s docstring. *)
Definition sample_target : pydict :=
  [(PStr "name", PStr "Ferry");
   (PStr "hobbies", PList [PStr "programming"; PStr "sci-fi"])].

Definition sample_source : pydict :=
  [(PStr "hobbies", PList [PStr "gaming"])].

Definition sample_merged : pydict :=
  [(PStr "name", PStr "Ferry");
   (PStr "hobbies", PList [PStr "programming"; PStr "sci-fi"; PStr "gaming"])].

(** Rows of which the first two share the cell under [a]. *)
Definition sample_rows : list (list pyval) :=
  [[PInt 1; PInt 2]; [PInt 1; PInt 4]; [PInt 3; PInt 4]].

(* ================================================================== *)
(** ** The client object: construction, catalogue, views, snapshots *)

(** The STC API instance a client may hold: what its truth test gives in
    a condition (a plain object is true; a class that defines [__bool__] or
    [__len__] decides otherwise, or raises) and its [get] method. *)
Record stc_api : Type := mk_stc {
  stc_true : result bool;
  stc_get : string -> string -> result pyval
}.

(** Python truthiness of a value. *)
Definition truthy (v : pyval) : bool :=
  match v with
  | PNone => false
  | PBool b => b
  | PInt z => negb (Z.eqb z 0)
  | PStr s => negb (String.eqb s "")
  | PList l => match l with [] => false | _ => true end
  | PDict d => match d with [] => false | _ => true end
  end.

(** [get_session_db_id()]: the bare [except] turns every failure, the
    missing instance included, into [None]. *)
Definition get_session_db_id (stc : option stc_api) : pyval :=
  match stc with
  | Some api =>
      match stc_get api "system1.project.testinfo" "ResultDbId" with
      | Returned v => v
      | _ => PNone
      end
  | None => PNone
  end.

(** [subscribe(retention_duration=15, subscribe_type="ALL",
    config_subscribe_type="ALL")]: when [self.stc] is true in the condition,
    the body reads the name [stc], of which the method has no local and the
    module no global; what it would do with it is a call on that object.
    Otherwise, for [None] as for an instance that is false, it returns
    [erp], which is [None]. *)
Definition subscribe (stc : option stc_api) (retention_duration : Z)
  (subscribe_type config_subscribe_type : string) : result pyval :=
  match stc with
  | Some api =>
      held <- stc_true api ;;
      if (held : bool)
      then _ <- load_name [("retention_duration", PInt retention_duration);
                           ("subscribe_type", PStr subscribe_type);
                           ("config_subscribe_type", PStr config_subscribe_type);
                           ("erp", PNone)] "stc" ;;
           Unmodelled
      else Returned PNone
  | None => Returned PNone
  end.

(** [for x in v] *)
Fixpoint chars (s : string) : list pyval :=
  match s with
  | EmptyString => []
  | String c rest => PStr (String c EmptyString) :: chars rest
  end.

Definition py_iter (v : pyval) : result (list pyval) :=
  match v with
  | PList l => Returned l
  | PDict d => Returned (dict_keys d)
  | PStr s => Returned (chars s)
  | _ => Raised TypeError
  end.

(** The condition of [refresh_database_list]:
    ["application.name" in db_info["metadata"].keys() and
     db_info["metadata"]["application.name"] == "TestCenter"] *)
Definition is_testcenter (db_info : pyval) : result bool :=
  metadata <- subscript db_info "metadata" ;;
  match metadata with
  | PDict m =>
      match dict_get m (PStr "application.name") with
      | Some (PStr s) => Returned (String.eqb s "TestCenter")
      | Some _ => Returned false
      | None => Returned false
      end
  | _ => Raised AttributeError
  end.

(** [IqDatabase(self, db_id)] as the catalogue loop calls it:
    [get_db_info] replaces a false [db_id] by the session's and builds the
    path ["databases/" + db_id]; [fetch] stands for the request and the
    reading of its answer as database metadata.  The object keeps the
    [db_id] it was given, which the record holds as a string. *)
Definition new_database_from (stc : option stc_api)
  (fetch : string -> result db_info_t) (db_id : pyval) : result IqDatabase :=
  match db_id with
  | PStr s =>
      if String.eqb s ""
      then match get_session_db_id stc with
           | PStr s' => info <- fetch s' ;; Returned (new_database s info)
           | _ => Raised TypeError
           end
      else info <- fetch s ;; Returned (new_database s info)
  | _ =>
      if truthy db_id then Raised TypeError
      else match get_session_db_id stc with
           | PStr _ => Unmodelled
           | _ => Raised TypeError
           end
  end.

(** The loop of [refresh_database_list] over the catalogue; the list is
    returned as the loop leaves it. *)
Fixpoint db_list_loop (stc : option stc_api) (fetch : string -> result db_info_t)
  (infos : list pyval) (db_list : list IqDatabase) : list IqDatabase * result unit :=
  match infos with
  | [] => (db_list, Returned tt)
  | db_info :: rest =>
      match is_testcenter db_info with
      | Returned true =>
          match i <- subscript db_info "id" ;; new_database_from stc fetch i with
          | Returned db => db_list_loop stc fetch rest (db_list ++ [db])
          | Raised e => (db_list, Raised e)
          | Unmodelled => (db_list, Unmodelled)
          end
      | Returned false => db_list_loop stc fetch rest db_list
      | Raised e => (db_list, Raised e)
      | Unmodelled => (db_list, Unmodelled)
      end
  end.

(** [refresh_database_list()]: the list is emptied before the catalogue is
    asked for. *)
Definition refresh_database_list (self : SpirentTestCenterIQ) (stc : option stc_api)
  (fetch : string -> result db_info_t) : list IqDatabase * result unit :=
  match all_db_info <- execute self "get" "databases?detail=summary" None ;;
        py_iter all_db_info with
  | Returned infos => db_list_loop stc fetch infos []
  | Raised e => ([], Raised e)
  | Unmodelled => ([], Unmodelled)
  end.

(** A database id as [find_db_by_id] sees it: only a string can equal the
    [id] of a database. *)
Definition as_id (v : pyval) : option string :=
  match v with PStr s => Some s | _ => None end.

(** [set_current_db(name=None, db_id=None)]; the value is the new
    [current_db]. *)
Definition set_current_db (dateutil_parse : string -> result datetime)
  (stc : option stc_api) (db_list : list IqDatabase) (nm db_id : option string)
  : result (option IqDatabase) :=
  match db_id, nm with
  | None, None => Returned (find_db_by_id db_list (as_id (get_session_db_id stc)))
  | _, _ =>
      match nonempty db_id with
      | Some _ => Returned (find_db_by_id db_list db_id)
      | None =>
          match nonempty nm with
          | Some _ => find_db_by_name dateutil_parse db_list nm
          | None => Returned None
          end
      end
  end.

(** The attributes of a constructed client. *)
Record client : Type := mk_client {
  iq : SpirentTestCenterIQ;
  query_definitions : pyval;
  stc_instance : option stc_api;
  db_list : list IqDatabase;
  current_db : option IqDatabase
}.

(** [SpirentTestCenterIQ(iq_server_ip=None, iq_server_port=9199, ...,
    stc_api_instance=None)].  [definitions_file] is [None] when no file
    exists at the path and otherwise what opening and parsing it gives; when
    that fails, [__load_json_from_file] fails in turn on adding the exception
    to its message.  Without a server address the URL attribute is never set,
    and the first request misses it. *)
Definition new_client (dateutil_parse : string -> result datetime)
  (http : http_client) (fetch : string -> result db_info_t)
  (iq_server_ip : option string) (iq_server_port : Z)
  (definitions_file : option (result pyval)) (stc : option stc_api)
  : result client :=
  defs <- match definitions_file with
          | None => Returned (PDict [])
          | Some (Returned v) => Returned v
          | Some _ => Raised TypeError
          end ;;
  _ <- subscribe stc 15 "ALL" "ALL" ;;
  match nonempty iq_server_ip with
  | None => Raised AttributeError
  | Some ip =>
      let self :=
        mk_iq ("http://" +++ ip +++ ":" +++
               NilZero.string_of_int (Z.to_int iq_server_port)) http in
      match refresh_database_list self stc fetch with
      | (dbs, Returned _) =>
          cur <- set_current_db dateutil_parse stc dbs None None ;;
          Returned (mk_client self defs stc dbs cur)
      | (_, Raised e) => Raised e
      | (_, Unmodelled) => Unmodelled
      end
  end.

(** The lines [execute_view_query] prints for an unknown view, up to a key
    that is no string. *)
Fixpoint view_lines (ks : list pyval) : list string * result unit :=
  match ks with
  | [] => ([], Returned tt)
  | PStr view :: rest =>
      let '(ls, r) := view_lines rest in (("  " +++ view) :: ls, r)
  | _ :: _ => ([], Raised TypeError)
  end.

(** [execute_view_query(view_name, db_id=None)]: the printed lines and the
    outcome. *)
Definition execute_view_query (self : client) (view_name : string)
  (db_id : option pyval) : list string * result pyval :=
  let db_id' :=
    match db_id with
    | Some v => v
    | None => get_session_db_id (stc_instance self)
    end in
  match query_definitions self with
  | PDict defs =>
      match dict_get defs (PStr view_name) with
      | Some query =>
          let db_id'' :=
            match db_id' with
            | PNone => get_session_db_id (stc_instance self)
            | v => v
            end in
          ([], execute_query (iq self) query "once" db_id'')
      | None =>
          let '(ls, r) := view_lines (dict_keys defs) in
          (("ERROR: The view '" +++ view_name +++
            "' is not defined. Please use one of the following views:") :: ls,
           _ <- r ;; Returned PNone)
      end
  | _ => ([], Raised AttributeError)
  end.

(** The query of [get_snapshot_list]. *)
Definition snapshot_query (order : string) : pyval :=
  PDict
    [(PStr "filters", PList []);
     (PStr "groups", PList []);
     (PStr "orders", PList [PStr ("view.test_event_timestamp " +++ order)]);
     (PStr "projections",
      PList [PStr "view.test_snapshot_name as snapshot_name";
             PStr "view.test_snapshot_number as snapshot_number"]);
     (PStr "subqueries",
      PList [PDict
               [(PStr "alias", PStr "view");
                (PStr "filters", PList [PStr "test_events.name = 'snapshot_completed'"]);
                (PStr "groups", PList []);
                (PStr "orders", PList []);
                (PStr "projections",
                 PList [PStr "test.snapshot_name as test_snapshot_name";
                        PStr "test.snapshot_number as test_snapshot_number";
                        PStr "test_events.name as test_event_name";
                        PStr "test_events.timestamp as test_event_timestamp"])]])].

(** [v[0]] *)
Definition index0 (v : pyval) : result pyval :=
  match v with
  | PList (x :: _) => Returned x
  | PList [] => Raised IndexError
  | PStr (String c _) => Returned (PStr (String c EmptyString))
  | PStr EmptyString => Raised IndexError
  | PDict d =>
      match dict_get d (PInt 0) with
      | Some x => Returned x
      | None => Raised (KeyError "0")
      end
  | _ => Raised TypeError
  end.

(** [for snapshot in ...: snapshots.append(snapshot[0])] *)
Fixpoint first_cells (items : list pyval) : result (list pyval) :=
  match items with
  | [] => Returned []
  | snapshot :: rest =>
      x <- index0 snapshot ;;
      xs <- first_cells rest ;;
      Returned (x :: xs)
  end.

(** [IqDatabase.get_snapshot_list(order="ASC")] *)
Definition get_snapshot_list (self : SpirentTestCenterIQ) (db : IqDatabase)
  (order : string) : result (list pyval) :=
  answer <- execute_query self (PDict [(PStr "multi_result", snapshot_query order)])
              "once" (PStr (id db)) ;;
  res <- subscript answer "result" ;;
  rs <- subscript res "rows" ;;
  items <- py_iter rs ;;
  first_cells items.

(** What a catalogue entry gives as the name of the application that
    produced the database: the value under ["application.name"] of the dict
    under ["metadata"], if there is one. *)
Definition application_name (db_info : pyval) : option pyval :=
  match db_info with
  | PDict d =>
      match dict_get d (PStr "metadata") with
      | Some (PDict m) => dict_get m (PStr "application.name")
      | _ => None
      end
  | _ => None
  end.

(** A catalogue entry of a database that TestCenter produced. *)
Definition names_testcenter (db_info : pyval) : bool :=
  match application_name db_info with
  | Some (PStr s) => String.eqb s "TestCenter"
  | _ => false
  end.

(** The first cell of a row. *)
Definition first_cell (row : pyval) : pyval :=
  match row with
  | PList (x :: _) => x
  | _ => PNone
  end.

(** The body [execute_query] posts. *)
Definition full_query (query : pyval) (mode : string) (db_id : pyval) : pyval :=
  PDict [(PStr "database", PDict [(PStr "id", db_id)]);
         (PStr "mode", PStr mode);
         (PStr "definition", query)].

(** A service that lists three databases, one of them produced by
    TestCenter, one by another application and one that names none, and
    answers every other request with a table of snapshots. *)
Definition sample_catalogue : pyval :=
  PList
    [PDict [(PStr "id", PStr "l5ixqul3p5axfgzq");
            (PStr "name", PStr "api testing");
            (PStr "metadata", PDict [(PStr "application.name", PStr "TestCenter")])];
     PDict [(PStr "id", PStr "k2dmw9x0a7bqhc5e");
            (PStr "name", PStr "other");
            (PStr "metadata", PDict [(PStr "application.name", PStr "Landslide")])];
     PDict [(PStr "id", PStr "p0o9i8u7y6t5r4e3");
            (PStr "name", PStr "unnamed application");
            (PStr "metadata", PDict [(PStr "test.running", PStr "false")])]].

Definition sample_snapshots : pyval :=
  PDict [(PStr "result",
          PDict [(PStr "columns", PList [PStr "snapshot_name"; PStr "snapshot_number"]);
                 (PStr "rows", PList [PList [PStr "first"; PInt 1];
                                      PList [PStr "second"; PInt 2]])])].

Definition sample_http : http_client :=
  fun method url _ =>
    if String.eqb method "get"
    then Returned (mk_response 200 (Some sample_catalogue))
    else Returned (mk_response 200 (Some sample_snapshots)).

Definition sample_service : SpirentTestCenterIQ :=
  mk_iq "http://10.0.0.1:9199" sample_http.

Definition sample_fetch : string -> result db_info_t :=
  fun _ => Returned sample_db_info.

Definition sample_view : pyval :=
  PDict [(PStr "single_result",
          PDict [(PStr "filters", PList []);
                 (PStr "projections", PList [PStr "port.name as port_name"])])].

Definition sample_client : client :=
  mk_client sample_service
    (PDict [(PStr "ports", sample_view); (PStr "streams", sample_view)])
    None [sample_database] None.

(** The line [execute_view_query] prints for a view name. *)
Definition view_line (k : pyval) : string :=
  match k with
  | PStr view => "  " +++ view
  | _ => ""
  end.

(** The database id [execute_view_query] ends up sending. *)
Definition view_db_id (stc : option stc_api) (db_id : option pyval) : pyval :=
  match db_id with
  | Some PNone | None => get_session_db_id stc
  | Some v => v
  end.

(** The column of a list that [populate_columns] leaves under a name: the
    last one so named. *)
Definition last_column (cols : list column) (nm : string) : option column :=
  find (fun c => String.eqb (column_name c) nm) (rev cols).

(** The names a database's metadata declares, result sets first. *)
Definition declared_names (db_info : db_info_t) : list string :=
  map info_name (result_sets db_info) ++ map info_name (dimension_sets db_info).

(** The position of the first occurrence of a name in a list. *)
Fixpoint index_of (nm : string) (l : list string) : option nat :=
  match l with
  | [] => None
  | x :: rest =>
      if String.eqb x nm then Some 0 else option_map S (index_of nm rest)
  end.

(** A database whose only result set links a dimension set that the
    metadata does not declare. *)
Definition sample_dangling_info : db_info_t :=
  mk_db_info "k2dmw9x0a7bqhc5e" "dangling"
    "2019-12-11T01:58:34.870653Z" "2019-12-11T08:09:16.662384Z" None
    [mk_set_info "tx_port_live_stats" (Some [sample_column "frame_count"]) None
       (Some ["port"]) None]
    [sample_stream_info].

Definition sample_dangling_database : IqDatabase :=
  new_database "k2dmw9x0a7bqhc5e" sample_dangling_info.

(** The column names of the first declared set of a name: the facts of a
    result set, the attributes of a dimension set. *)
Definition declared_columns (db_info : db_info_t) (nm : string) : list string :=
  match index_of nm (declared_names db_info) with
  | Some k =>
      match nth_error (map (fun si => get_or_empty (facts si)) (result_sets db_info) ++
                       map (fun si => get_or_empty (attributes si))
                           (dimension_sets db_info)) k with
      | Some cols => map column_name cols
      | None => []
      end
  | None => []
  end.

(** The column names a result set's metadata declares. *)
Definition declared_columns_of (si : set_info_t) : list string :=
  map column_name (get_or_empty (facts si)).

(** The columns information of a declared result set whose links are all
    declared, read off the metadata: the set's own columns, then the
    columns of each linked set. *)
Definition declared_columns_info (db_info : db_info_t) (si : set_info_t)
  (latest : bool) : columns_info_t :=
  mk_columns_info
    (map ((if latest then spec_latest_projection else spec_projection)
            (info_name si)) (declared_columns_of si) ++
     flat_map (fun d => map (spec_projection d) (declared_columns db_info d))
              (get_or_empty (info_dimension_sets si)))
    (map (spec_alias (info_name si)) (declared_columns_of si) ++
     flat_map (fun d => map (spec_alias d) (declared_columns db_info d))
              (get_or_empty (info_dimension_sets si))).

(** The sub-query a top-level column is taken from: the first one that
    lists it. *)
Definition owner (subs : list IqQuery) (column : string) : option IqQuery :=
  find (fun sq => str_in column (get_columns sq)) subs.

(** The top-level projection of a column alias: qualified by the name of
    the owner, under the alias itself. *)
Definition top_projection (subs : list IqQuery) (column : string) : string :=
  match owner subs column with
  | Some sq => qualified sq column +++ " AS " +++ column
  | None => ""
  end.

(** Every listed column with its qualified name, as the column loop meets
    them. *)
Definition column_events (sq : IqQuery) : list (string * string) :=
  map (fun c => (c, qualified sq c)) (get_columns sq).

(** What the column loop does to the seen columns and the projections. *)
Definition project_step (acc : list string * list string) (e : string * string)
  : list string * list string :=
  if str_in (fst e) (fst acc) then acc
  else (fst acc ++ [fst e], snd acc ++ [snd e +++ " AS " +++ fst e]).

Definition first_ref (events : list (string * string)) (c : string) : string :=
  match find (fun e => String.eqb (fst e) c) events with
  | Some e => snd e
  | None => ""
  end.

Definition is_single (q : IqQuery) : bool :=
  match q with
  | IqSingleQuery _ _ _ _ => true
  | IqMultiQuery _ _ _ => false
  end.

(** A database in which a result set carries the name of a dimension set:
    the first result set links [stream], and the second result set is
    called [stream] as well. *)
Definition sample_shadow_info : db_info_t :=
  mk_db_info "p0o9i8u7y6t5r4e3" "shadow"
    "2019-12-11T01:58:34.870653Z" "2019-12-11T08:09:16.662384Z" None
    [sample_tx_info;
     mk_set_info "stream" (Some [sample_column "frame_count"]) None None None]
    [sample_stream_info].

Definition sample_shadow_database : IqDatabase :=
  new_database "p0o9i8u7y6t5r4e3" sample_shadow_info.

(*PROPERTIES*)
(* ================================================================== *)
(** * Properties *)

(** ** Dicts *)

Lemma str_in_In (s : string) (l : list string) : str_in s l = true <-> In s l.
Proof.
  unfold str_in. rewrite existsb_exists. split.
  - intros [x [Hx He]]. apply String.eqb_eq in He. now subst.
  - intros H. exists s. split; [assumption | apply String.eqb_refl].
Qed.

Lemma str_in_not_In (s : string) (l : list string) : str_in s l = false <-> ~ In s l.
Proof.
  rewrite <- str_in_In. destruct (str_in s l); split; congruence.
Qed.

Lemma dict_get_app (d1 d2 : pydict) (k : pyval) :
  dict_get (d1 ++ d2) k =
  match dict_get d1 k with Some v => Some v | None => dict_get d2 k end.
Proof.
  induction d1 as [|[k' v'] d1 IH]; simpl; [reflexivity|].
  destruct (key_eqb k' k); [reflexivity | exact IH].
Qed.

(** Storing under a key the dict does not hold appends the item. *)
Lemma dict_set_fresh (d : pydict) (k v : pyval) :
  dict_get d k = None -> dict_set d k v = d ++ [(k, v)].
Proof.
  induction d as [|[k' v'] d IH]; simpl; intros H; [reflexivity|].
  destruct (key_eqb k' k); [discriminate|]. now rewrite IH.
Qed.

(** On distinct column names, the item at position [j] is found under the
    [j]-th name. *)
Lemma dict_get_combine_nth (ks : list string) (vs : list pyval) (j : nat) (k : string) :
  NoDup ks -> length ks <= length vs -> nth_error ks j = Some k ->
  dict_get (combine (map PStr ks) vs) (PStr k) = nth_error vs j.
Proof.
  revert vs j. induction ks as [|c ks IH]; intros vs j Hnd Hlen Hj.
  - destruct j; discriminate.
  - destruct vs as [|v vs]; [simpl in Hlen; lia|].
    inversion Hnd as [|? ? Hnotin Hnd']; subst. simpl in Hlen.
    destruct j as [|j]; simpl in *.
    + injection Hj as ->. now rewrite String.eqb_refl.
    + destruct (String.eqb_spec c k) as [->|Hne].
      * exfalso. apply Hnotin. eapply nth_error_In; eassumption.
      * apply IH; [assumption | lia | assumption].
Qed.

(** ** [convert_result_to_dict] *)

Lemma map_fst_combine {A B : Type} (l : list A) (l' : list B) :
  length l <= length l' -> map fst (combine l l') = l.
Proof.
  revert l'. induction l as [|x l IH]; intros [|y l'] H; simpl in *;
    try reflexivity; try lia.
  f_equal. apply IH. lia.
Qed.

Lemma skipn_nth_error {A : Type} (l : list A) (n : nat) (x : A) :
  nth_error l n = Some x -> skipn n l = x :: skipn (S n) l.
Proof.
  revert n. induction l as [|y l IH]; intros [|n] H; simpl in *; try discriminate.
  - now injection H as ->.
  - now apply IH.
Qed.

(** The entry of one row: every column, in order, with the cell at the
    column's index. *)
Lemma fill_entry_spec (cols : list string) (row : list pyval) :
  forall (idx : nat) (entry : pydict),
    NoDup cols ->
    (forall c, In c cols -> dict_get entry (PStr c) = None) ->
    idx + length cols <= length row ->
    fill_entry cols row idx entry =
    Returned (entry ++ combine (map PStr cols) (firstn (length cols) (skipn idx row))).
Proof.
  induction cols as [|c cols IH]; intros idx entry Hnd Hfresh Hlen; simpl.
  - now rewrite app_nil_r.
  - simpl in Hlen. inversion Hnd as [|? ? Hnotin Hnd']; subst.
    destruct (nth_error row idx) as [v|] eqn:Hv.
    2:{ apply nth_error_None in Hv. lia. }
    rewrite (dict_set_fresh entry (PStr c) v) by (apply Hfresh; now left).
    rewrite IH; [| assumption | | lia].
    + rewrite <- app_assoc. rewrite (skipn_nth_error row idx v Hv). reflexivity.
    + intros c' Hc'. rewrite dict_get_app.
      rewrite (Hfresh c') by now right. simpl.
      destruct (String.eqb_spec c c') as [->|Hne]; [contradiction | reflexivity].
Qed.

Lemma rows_loop_no_keys (cols : list string) :
  NoDup cols ->
  forall (rs : list (list pyval)) (idx : Z) (d : pydict),
    Forall (fun row => length cols <= length row) rs ->
    (forall z, (idx < z)%Z -> dict_get d (PInt z) = None) ->
    rows_loop cols None rs idx (PDict d) =
    Returned (PDict (d ++ numbered_entries cols idx rs)).
Proof.
  intros Hnd. induction rs as [|row rs IH]; intros idx d Hall Hfresh; simpl.
  - now rewrite app_nil_r.
  - inversion Hall as [|? ? Hrow Hall']; subst.
    rewrite (fill_entry_spec cols row 0 []); [| assumption | reflexivity | simpl; lia].
    simpl. rewrite (dict_set_fresh d) by (apply Hfresh; lia).
    rewrite IH; [| assumption |].
    + now rewrite <- app_assoc.
    + intros z Hz. rewrite dict_get_app, Hfresh by lia. simpl.
      destruct (Z.eqb_spec (idx + 1) z); [lia | reflexivity].
Qed.

Lemma numbered_entries_keys (cols : list string) (rs : list (list pyval)) (idx : Z) :
  dict_keys (numbered_entries cols idx rs) =
  map (fun i => PInt (idx + Z.of_nat i)) (seq 1 (length rs)).
Proof.
  revert idx. induction rs as [|row rs IH]; intros idx; simpl; [reflexivity|].
  unfold dict_keys in *. simpl. rewrite IH. f_equal.
  rewrite <- (seq_shift (length rs) 1), map_map.
  apply map_ext. intros i. f_equal. lia.
Qed.

Lemma numbered_entries_get (cols : list string) (rs : list (list pyval)) :
  forall (idx : Z) (i : nat) (row : list pyval),
    nth_error rs i = Some row ->
    dict_get (numbered_entries cols idx rs) (PInt (idx + Z.of_nat (S i))) =
    Some (PDict (combine (map PStr cols) (firstn (length cols) row))).
Proof.
  induction rs as [|r rs IH]; intros idx i row Hi; [destruct i; discriminate|].
  destruct i as [|i]; cbn [numbered_entries dict_get key_eqb].
  - simpl in Hi. injection Hi as ->.
    destruct (Z.eqb_spec (idx + 1) (idx + Z.of_nat 1)); [reflexivity | lia].
  - simpl in Hi.
    destruct (Z.eqb_spec (idx + 1) (idx + Z.of_nat (S (S i)))); [lia|].
    rewrite <- (IH (idx + 1)%Z i row Hi). do 2 f_equal. lia.
Qed.

(** C8, as amended.  With no key names, [convert_result_to_dict] on a
    table with distinct column names [k1..km] and rows [r1..rn] of at least
    [m] cells returns a dict whose keys are exactly the row numbers 1..n, in
    order (so it has as many entries as there are rows), and entry [i] holds
    exactly the column names, each [kj] mapped to the [j]-th cell of row
    [i]. *)
Theorem convert_result_to_dict_row_index (cols : list string) (rs : list (list pyval)) :
  NoDup cols ->
  Forall (fun row => length cols <= length row) rs ->
  exists d : pydict,
    convert_result_to_dict (mk_raw cols (Some rs)) None = Returned (PDict d) /\
    dict_keys d = map (fun i => PInt (Z.of_nat i)) (seq 1 (length rs)) /\
    length d = length rs /\
    forall (i : nat) (row : list pyval),
      nth_error rs i = Some row ->
      exists entry : pydict,
        dict_get d (PInt (Z.of_nat (S i))) = Some (PDict entry) /\
        dict_keys entry = map PStr cols /\
        forall (j : nat) (k : string),
          nth_error cols j = Some k ->
          dict_get entry (PStr k) = nth_error row j.
Proof.
  intros Hnd Hall. exists (numbered_entries cols 0 rs).
  assert (Hkeys : dict_keys (numbered_entries cols 0 rs) =
                  map (fun i => PInt (Z.of_nat i)) (seq 1 (length rs)))
    by apply numbered_entries_keys.
  repeat split.
  - destruct rs as [|row rs']; [reflexivity|].
    unfold convert_result_to_dict. cbn [bind columns rows].
    now rewrite (rows_loop_no_keys cols Hnd (row :: rs') 0 []).
  - exact Hkeys.
  - apply (f_equal (@length pyval)) in Hkeys.
    unfold dict_keys in Hkeys. now rewrite !length_map, length_seq in Hkeys.
  - intros i row Hi.
    exists (combine (map PStr cols) (firstn (length cols) row)).
    assert (Hlen : length cols <= length row).
    { rewrite Forall_forall in Hall. apply Hall. eapply nth_error_In; eassumption. }
    repeat split.
    + apply (numbered_entries_get cols rs 0 i row Hi).
    + unfold dict_keys. apply map_fst_combine.
      rewrite length_map, length_firstn. lia.
    + intros j k Hj.
      rewrite (dict_get_combine_nth cols _ j k Hnd); [| | assumption].
      * rewrite nth_error_firstn.
        assert (Hlt : j < length cols) by (apply nth_error_Some; congruence).
        apply Nat.ltb_lt in Hlt. now rewrite Hlt.
      * rewrite length_firstn. lia.
Qed.

(** The specification's example: columns [a], [b] and rows [[1,2]], [[3,4]]
    give [{1: {a: 1, b: 2}, 2: {a: 3, b: 4}}]. *)
Example convert_result_to_dict_sample :
  convert_result_to_dict sample_raw None =
  Returned (PDict [(PInt 1, PDict [(PStr "a", PInt 1); (PStr "b", PInt 2)]);
                   (PInt 2, PDict [(PStr "a", PInt 3); (PStr "b", PInt 4)])]).
Proof. reflexivity. Qed.

Lemma convert_result_to_dict_row_index_witness :
  exists d : pydict,
    convert_result_to_dict sample_raw None = Returned (PDict d) /\
    dict_keys d = [PInt 1; PInt 2] /\
    length d = 2 /\
    forall (i : nat) (row : list pyval),
      nth_error [[PInt 1; PInt 2]; [PInt 3; PInt 4]] i = Some row ->
      exists entry : pydict,
        dict_get d (PInt (Z.of_nat (S i))) = Some (PDict entry) /\
        dict_keys entry = [PStr "a"; PStr "b"] /\
        forall (j : nat) (k : string),
          nth_error ["a"; "b"] j = Some k ->
          dict_get entry (PStr k) = nth_error row j.
Proof.
  apply (convert_result_to_dict_row_index
           ["a"; "b"] [[PInt 1; PInt 2]; [PInt 3; PInt 4]]).
  - repeat constructor; simpl; intuition discriminate.
  - repeat constructor; simpl; lia.
Defined.

(** C8 as stated fails: it speaks of every raw result, but a row with fewer
    cells than there are columns makes the call raise [IndexError] instead
    of returning a dict, and with a column name that occurs twice the entry
    holds under that name the cell of its last occurrence, not the [j]-th
    cell for the first. *)
Lemma convert_result_to_dict_row_index_short_row :
  convert_result_to_dict (mk_raw ["a"; "b"] (Some [[PInt 1; PInt 2]; [PInt 3]])) None =
    Raised IndexError /\
  convert_result_to_dict (mk_raw ["a"; "a"] (Some [[PInt 1; PInt 2]])) None =
    Returned (PDict [(PInt 1, PDict [(PStr "a", PInt 2)])]).
Proof. split; reflexivity. Qed.

(** The validation loop stops at the first requested key that is no
    column. *)
Lemma check_key_names_absent (cols key_names : list string) (key : string) :
  In key key_names -> ~ In key cols ->
  exists (pre post : list string) (k : string),
    key_names = pre ++ k :: post /\
    (forall x, In x pre -> In x cols) /\
    ~ In k cols /\
    check_key_names key_names cols =
    Raised (KeyError ("The key '" +++ k +++ "' is not a valid value.")).
Proof.
  induction key_names as [|x key_names IH]; intros Hin Hnot; [contradiction|].
  simpl. destruct (str_in x cols) eqn:Hx.
  - apply str_in_In in Hx.
    destruct Hin as [->|Hin]; [contradiction|].
    destruct (IH Hin Hnot) as [pre [post [k [-> [Hpre [Hk Hc]]]]]].
    exists (x :: pre), post, k. repeat split; try assumption.
    intros y [<-|Hy]; auto.
  - apply str_in_not_In in Hx.
    exists [], key_names, x. repeat split; try assumption. intros y [].
Qed.

(** C7. When [key_names] holds a name that is no column of the raw result,
    [convert_result_to_dict] raises the [KeyError] naming the first such key;
    it does so whatever the rows are, well-formed or not, so no row is read
    and no partial dict is produced. *)
Theorem convert_result_to_dict_unknown_key (cols key_names : list string) (key : string) :
  In key key_names -> ~ In key cols ->
  exists (pre post : list string) (k : string),
    key_names = pre ++ k :: post /\
    (forall x, In x pre -> In x cols) /\
    ~ In k cols /\
    forall rs : option (list (list pyval)),
      convert_result_to_dict (mk_raw cols rs) (Some key_names) =
      Raised (KeyError ("The key '" +++ k +++ "' is not a valid value.")).
Proof.
  intros Hin Hnot.
  destruct (check_key_names_absent cols key_names key Hin Hnot)
    as [pre [post [k [Heq [Hpre [Hk Hc]]]]]].
  exists pre, post, k. repeat split; try assumption.
  intros rs. unfold convert_result_to_dict. cbn [columns rows].
  destruct key_names as [|x l]; [contradiction|].
  now rewrite Hc.
Qed.

Lemma convert_result_to_dict_unknown_key_witness :
  exists (pre post : list string) (k : string),
    ["a"; "zz"; "b"] = pre ++ k :: post /\
    (forall x, In x pre -> In x ["a"; "b"]) /\
    ~ In k ["a"; "b"] /\
    forall rs : option (list (list pyval)),
      convert_result_to_dict (mk_raw ["a"; "b"] rs) (Some ["a"; "zz"; "b"]) =
      Raised (KeyError ("The key '" +++ k +++ "' is not a valid value.")).
Proof.
  apply (convert_result_to_dict_unknown_key ["a"; "b"] ["a"; "zz"; "b"] "zz").
  - simpl. auto.
  - simpl. intuition discriminate.
Defined.

(** ** Transport *)

(** Whatever the status code, [__execute] ends in its last statement:
    nothing raised while the status is examined leaves the inner
    [try]. *)
Lemma execute_extract_json (self : SpirentTestCenterIQ) (cmdtype url : string)
  (payload : option pyval) (base : string) (r : response) :
  get_result_url self = Returned base ->
  send_request self cmdtype (base +++ "/" +++ url) payload = Returned (Some r) ->
  execute self cmdtype url payload = extract_json r.
Proof.
  intros Hbase Hsend. unfold execute. rewrite Hbase. cbn [bind].
  rewrite Hsend. cbn [bind read_response].
  unfold raise_for_status, extract_json.
  destruct ((400 <=? status_code r) && (status_code r <? 600))%Z;
    cbn [try_except bind]; [| reflexivity].
  destruct (json_body r) as [v|]; cbn [bind try_except]; [| reflexivity].
  unfold subscript. destruct v; try reflexivity.
  now destruct (dict_get d (PStr "message")).
Qed.

(** C1, at the failing input: a [GET] answered with status 404 and the body
    [{"message": "Database not found"}] makes [__execute] return that body
    as its normal result; no error reaches the caller. *)
Theorem execute_non_2xx_returns_body :
  raise_for_status (mk_response 404 (Some sample_error_body)) = Raised (HTTPError 404) /\
  execute sample_failing_client "get" "databases/l5ixqul3p5axfgzq" None =
  Returned sample_error_body.
Proof. split; reflexivity. Qed.

(** ** The database catalogue *)

Section FindDb.

Variable dateutil_parse : string -> result datetime.
Variable nm : string.
Variable zone : bool.

Local Abbreviation stamp := (last_updated_at dateutil_parse zone).

Lemma datetime_lt_same_zone (t0 t1 : Z) :
  datetime_lt (mk_datetime zone t0) (mk_datetime zone t1) = Returned (t0 <? t1)%Z.
Proof. unfold datetime_lt. cbn [aware instant]. now rewrite Bool.eqb_reflx. Qed.

(** The loop once a candidate is held: it keeps the candidate unless a
    later match is strictly newer, and then holds the first such match that
    nothing after it exceeds. *)
Lemma find_db_loop_candidate (l : list IqDatabase) :
  forall (c : IqDatabase) (t0 : Z),
    (forall db, In db l -> name db = nm -> exists t, stamp db t) ->
    (find_db_loop dateutil_parse l (Some nm) (Some c) (Some (mk_datetime zone t0)) =
       Returned (Some c) /\
     forall x tx, In x l -> name x = nm -> stamp x tx -> (tx <= t0)%Z)
    \/
    (exists pre db post t,
        l = pre ++ db :: post /\ name db = nm /\ stamp db t /\ (t0 < t)%Z /\
        (forall x tx, In x pre -> name x = nm -> stamp x tx -> (tx < t)%Z) /\
        (forall x tx, In x post -> name x = nm -> stamp x tx -> (tx <= t)%Z) /\
        find_db_loop dateutil_parse l (Some nm) (Some c) (Some (mk_datetime zone t0)) =
          Returned (Some db)).
Proof.
  induction l as [|d l IH]; intros c t0 Hparse.
  - left. split; [reflexivity | intros x tx []].
  - assert (Hparse' : forall db, In db l -> name db = nm -> exists t, stamp db t)
      by (intros db Hdb; apply Hparse; now right).
    cbn [find_db_loop]. destruct (String.eqb_spec (name d) nm) as [Hd|Hd].
    + destruct (Hparse d (or_introl eq_refl) Hd) as [t1 Ht1].
      unfold last_updated_at in Ht1. rewrite Ht1. cbn [bind].
      rewrite datetime_lt_same_zone. cbn [bind].
      destruct (Z.ltb_spec t0 t1) as [Hlt|Hge].
      * right. destruct (IH d t1 Hparse') as [[Hr Hle] | Hex].
        -- exists [], d, l, t1. repeat split; try assumption.
           intros x tx [].
        -- destruct Hex as [pre [db [post [t [-> [Hn [Ht [Hlt' [Hpre [Hpost Hr]]]]]]]]]].
           exists (d :: pre), db, post, t. repeat split; try assumption; try lia.
           intros x tx [<-|Hx] Hxn Hxt; [| now apply (Hpre x)].
           unfold last_updated_at in Hxt. rewrite Ht1 in Hxt. injection Hxt as <-. lia.
      * destruct (IH c t0 Hparse') as [[Hr Hle] | Hex].
        -- left. split; [assumption|].
           intros x tx [<-|Hx] Hxn Hxt; [| now apply (Hle x)].
           unfold last_updated_at in Hxt. rewrite Ht1 in Hxt. injection Hxt as <-. lia.
        -- right.
           destruct Hex as [pre [db [post [t [-> [Hn [Ht [Hlt' [Hpre [Hpost Hr]]]]]]]]]].
           exists (d :: pre), db, post, t. repeat split; try assumption.
           intros x tx [<-|Hx] Hxn Hxt; [| now apply (Hpre x)].
           unfold last_updated_at in Hxt. rewrite Ht1 in Hxt. injection Hxt as <-. lia.
    + destruct (IH c t0 Hparse') as [[Hr Hle] | Hex].
      * left. split; [assumption|].
        intros x tx [<-|Hx] Hxn Hxt; [contradiction | now apply (Hle x)].
      * right.
        destruct Hex as [pre [db [post [t [-> [Hn [Ht [Hlt' [Hpre [Hpost Hr]]]]]]]]]].
        exists (d :: pre), db, post, t. repeat split; try assumption.
        intros x tx [<-|Hx] Hxn Hxt; [contradiction | now apply (Hpre x)].
Qed.

(** C2, as amended.  When the timestamps of the databases called [nm]
    parse, all of them with a zone or all of them without,
    [find_db_by_name] returns [None] if no database has that name, and
    otherwise the first database in the list among those of that name with
    the latest [last_updated]: every same-named database before it is
    strictly older, none after it is newer. *)
Theorem find_db_by_name_first_latest (db_list : list IqDatabase) :
  (forall db, In db db_list -> name db = nm -> exists t, stamp db t) ->
  ((forall db, In db db_list -> name db <> nm) /\
   find_db_by_name dateutil_parse db_list (Some nm) = Returned None)
  \/
  (exists pre db post t,
      db_list = pre ++ db :: post /\ name db = nm /\ stamp db t /\
      (forall x tx, In x pre -> name x = nm -> stamp x tx -> (tx < t)%Z) /\
      (forall x tx, In x post -> name x = nm -> stamp x tx -> (tx <= t)%Z) /\
      find_db_by_name dateutil_parse db_list (Some nm) = Returned (Some db)).
Proof.
  unfold find_db_by_name.
  induction db_list as [|d l IH]; intros Hparse.
  - left. split; [intros db [] | reflexivity].
  - assert (Hparse' : forall db, In db l -> name db = nm -> exists t, stamp db t)
      by (intros db Hdb; apply Hparse; now right).
    cbn [find_db_loop]. destruct (String.eqb_spec (name d) nm) as [Hd|Hd].
    + right. destruct (Hparse d (or_introl eq_refl) Hd) as [t1 Ht1].
      unfold last_updated_at in Ht1. rewrite Ht1. cbn [bind].
      destruct (find_db_loop_candidate l d t1 Hparse') as [[Hr Hle] | Hex].
      * exists [], d, l, t1. repeat split; try assumption. intros x tx [].
      * destruct Hex as [pre [db [post [t [-> [Hn [Ht [Hlt' [Hpre [Hpost Hr]]]]]]]]]].
        exists (d :: pre), db, post, t. repeat split; try assumption.
        intros x tx [<-|Hx] Hxn Hxt; [| now apply (Hpre x)].
        unfold last_updated_at in Hxt. rewrite Ht1 in Hxt. injection Hxt as <-. lia.
    + destruct (IH Hparse') as [[Hnone Hr] | Hex].
      * left. split; [| assumption].
        intros db [<-|Hdb]; [assumption | now apply Hnone].
      * right.
        destruct Hex as [pre [db [post [t [-> [Hn [Ht [Hpre [Hpost Hr]]]]]]]]].
        exists (d :: pre), db, post, t. repeat split; try assumption.
        intros x tx [<-|Hx] Hxn Hxt; [contradiction | now apply (Hpre x)].
Qed.

End FindDb.

Lemma find_db_by_name_first_latest_witness :
  let db_list := [sample_db_older; sample_db_first; sample_db_last] in
  ((forall db, In db db_list -> name db <> "api testing") /\
   find_db_by_name sample_parse db_list (Some "api testing") = Returned None)
  \/
  (exists pre db post t,
      db_list = pre ++ db :: post /\ name db = "api testing" /\
      last_updated_at sample_parse true db t /\
      (forall x tx, In x pre -> name x = "api testing" ->
                    last_updated_at sample_parse true x tx -> (tx < t)%Z) /\
      (forall x tx, In x post -> name x = "api testing" ->
                    last_updated_at sample_parse true x tx -> (tx <= t)%Z) /\
      find_db_by_name sample_parse db_list (Some "api testing") = Returned (Some db)).
Proof.
  apply (find_db_by_name_first_latest sample_parse "api testing" true
           [sample_db_older; sample_db_first; sample_db_last]).
  intros db [<-|[<-|[<-|[]]]] _; eexists; reflexivity.
Defined.

(** C2 as stated fails: of two databases with the same name and the same
    [last_updated], the first in the list is returned, not the last. *)
Lemma find_db_by_name_tie_keeps_first :
  name sample_db_first = name sample_db_last /\
  sample_parse (last_updated sample_db_first) =
  sample_parse (last_updated sample_db_last) /\
  find_db_by_name sample_parse [sample_db_first; sample_db_last]
    (Some "api testing") = Returned (Some sample_db_first) /\
  find_db_by_name sample_parse [sample_db_first; sample_db_last]
    (Some "api testing") <> Returned (Some sample_db_last).
Proof.
  repeat split; try reflexivity.
  vm_compute. discriminate.
Qed.

(** Outside the amended claim: when one same-named database has a
    timestamp with a zone and another one without, the comparison of the two
    [datetime] objects raises [TypeError], whichever comes first. *)
Example find_db_by_name_mixed_zones :
  find_db_by_name sample_parse [sample_db_first; sample_db_zoneless]
    (Some "api testing") = Raised TypeError /\
  find_db_by_name sample_parse [sample_db_zoneless; sample_db_first]
    (Some "api testing") = Raised TypeError.
Proof. split; vm_compute; reflexivity. Qed.

(** ** [IqDatabase]: the set list and its second pass *)

Lemma construct_sets_spec (mk : set_info_t -> IqSet) (infos : list set_info_t) :
  forall (h : list IqSet) (l : list addr),
    construct_sets mk infos h l =
    (h ++ map mk infos, l ++ seq (length h) (length infos)).
Proof.
  induction infos as [|si infos IH]; intros h l; simpl.
  - now rewrite !app_nil_r.
  - rewrite IH, <- !app_assoc, length_app. simpl.
    now rewrite Nat.add_1_r.
Qed.

Lemma nth_error_heap_update (h : list IqSet) (a b : addr) (x : IqSet) :
  nth_error (heap_update h a x) b =
  if Nat.eqb a b then option_map (fun _ => x) (nth_error h b) else nth_error h b.
Proof.
  revert a b. induction h as [|y h IH]; intros a b.
  - simpl. destruct b; destruct (Nat.eqb a _); reflexivity.
  - destruct a as [|a]; destruct b as [|b]; simpl; try reflexivity. apply IH.
Qed.

Lemma map_set_name_heap_update (h : list IqSet) (a : addr) (x y : IqSet) :
  nth_error h a = Some y -> set_name x = set_name y ->
  map set_name (heap_update h a x) = map set_name h.
Proof.
  revert a. induction h as [|z h IH]; intros [|a] Hy Hn; simpl in *;
    try discriminate.
  - injection Hy as ->. now rewrite Hn.
  - f_equal. now apply IH.
Qed.

(** [find_set_by_name] reads the names of the objects only. *)
Lemma find_in_set_list_names (h h' : list IqSet) (sl : list addr) (nm : string) :
  map set_name h = map set_name h' ->
  find_in_set_list h sl nm = find_in_set_list h' sl nm.
Proof.
  intros Hn. induction sl as [|a sl IH]; simpl; [reflexivity|].
  assert (Ha : option_map set_name (nth_error h a) =
               option_map set_name (nth_error h' a))
    by now rewrite <- !nth_error_map, Hn.
  destruct (nth_error h a) as [x|], (nth_error h' a) as [x'|];
    simpl in Ha; try discriminate; [| exact IH].
  injection Ha as ->. now rewrite IH.
Qed.

Lemma related_set_info_names (db db' : IqDatabase) (self : IqSet) :
  set_list db = set_list db' ->
  map set_name (heap db) = map set_name (heap db') ->
  related_set_info db self = related_set_info db' self.
Proof.
  intros Hsl Hn. unfold related_set_info, find_set_by_name.
  destruct (class_of self); [| reflexivity].
  rewrite Hsl. do 2 f_equal.
  - f_equal. apply map_ext. intros nm.
    now apply find_in_set_list_names.
  - destruct (info_primary_dimension_set (set_info self)); [| reflexivity].
    now apply find_in_set_list_names.
Qed.

Lemma related_set_info_name (db : IqDatabase) (self : IqSet) :
  set_name (related_set_info db self) = set_name self.
Proof. unfold related_set_info. now destruct (class_of self). Qed.

(** The second pass over distinct addresses: the lists and the names stay,
    every visited object has run its method once against the complete set
    list, every other object is untouched. *)
Lemma second_pass_spec (l : list addr) :
  forall db : IqDatabase,
    NoDup l ->
    let db' := fold_left refresh_related_set_info l db in
    set_list db' = set_list db /\
    result_set_list db' = result_set_list db /\
    dimension_set_list db' = dimension_set_list db /\
    map set_name (heap db') = map set_name (heap db) /\
    (forall b, In b l ->
       nth_error (heap db') b = option_map (related_set_info db) (nth_error (heap db) b)) /\
    (forall b, ~ In b l -> nth_error (heap db') b = nth_error (heap db) b).
Proof.
  induction l as [|a l IH]; intros db Hnd; simpl.
  - repeat split; try reflexivity. intros b [].
  - inversion Hnd as [|? ? Hnotin Hnd']; subst.
    set (db1 := refresh_related_set_info db a).
    assert (H1 : set_list db1 = set_list db /\
                 result_set_list db1 = result_set_list db /\
                 dimension_set_list db1 = dimension_set_list db /\
                 map set_name (heap db1) = map set_name (heap db) /\
                 forall b, nth_error (heap db1) b =
                           if Nat.eqb a b
                           then option_map (related_set_info db) (nth_error (heap db) b)
                           else nth_error (heap db) b).
    { unfold db1, refresh_related_set_info.
      destruct (nth_error (heap db) a) as [self|] eqn:Ha; simpl.
      - repeat split; try reflexivity.
        + apply (map_set_name_heap_update _ _ _ self Ha).
          apply related_set_info_name.
        + intros b. rewrite nth_error_heap_update.
          destruct (Nat.eqb_spec a b) as [<-|]; [| reflexivity].
          now rewrite Ha.
      - repeat split; try reflexivity.
        intros b. destruct (Nat.eqb_spec a b) as [<-|]; [| reflexivity].
        now rewrite Ha. }
    destruct H1 as [Hsl [Hrl [Hdl [Hnm Hheap]]]].
    destruct (IH db1 Hnd') as [Hsl' [Hrl' [Hdl' [Hnm' [Hin' Hout']]]]].
    repeat split; try congruence.
    + intros b [<-|Hb].
      * rewrite Hout' by assumption. rewrite Hheap. now rewrite Nat.eqb_refl.
      * rewrite (Hin' b Hb), Hheap.
        destruct (Nat.eqb_spec a b) as [<-|]; [contradiction|].
        destruct (nth_error (heap db) b); [| reflexivity]. simpl. f_equal.
        now apply related_set_info_names.
    + intros b Hb. rewrite Hout' by tauto. rewrite Hheap.
      destruct (Nat.eqb_spec a b) as [<-|]; [| reflexivity].
      exfalso. apply Hb. now left.
Qed.

(** Looking a name up in a run of freshly allocated objects finds the
    first object of that name. *)
Lemma find_in_set_list_seq (nm : string) (objs : list IqSet) :
  forall h0 : list IqSet,
    In nm (map set_name objs) ->
    exists (j : nat) (o : IqSet),
      find_in_set_list (h0 ++ objs) (seq (length h0) (length objs)) nm =
      Some (length h0 + j) /\
      nth_error objs j = Some o /\ set_name o = nm /\
      forall j' o', j' < j -> nth_error objs j' = Some o' -> set_name o' <> nm.
Proof.
  induction objs as [|x objs IH]; intros h0 Hin; [contradiction|].
  simpl. rewrite nth_error_app2, Nat.sub_diag by lia. simpl.
  destruct (String.eqb_spec (set_name x) nm) as [Hx|Hx].
  - exists 0, x. rewrite Nat.add_0_r. repeat split; try assumption.
    intros j' o' Hj. lia.
  - destruct Hin as [Hin|Hin]; [contradiction|].
    destruct (IH (h0 ++ [x]) Hin) as [j [o [Hf [Hj [Ho Hfirst]]]]].
    rewrite <- app_assoc, length_app in Hf. simpl in Hf.
    rewrite Nat.add_1_r in Hf.
    exists (S j), o. repeat split; try assumption.
    + rewrite Hf. f_equal. lia.
    + intros [|j'] o' Hlt Ho'; simpl in Ho'.
      * now injection Ho' as <-.
      * apply (Hfirst j' o'); [lia | assumption].
Qed.

Lemma map_seq_nth {A B : Type} (objs : list A) (f : nat -> B) (g : A -> B) :
  forall L : nat,
    (forall j o, nth_error objs j = Some o -> f (L + j) = g o) ->
    map f (seq L (length objs)) = map g objs.
Proof.
  induction objs as [|x objs IH]; intros L H; simpl; [reflexivity|].
  f_equal.
  - rewrite <- (Nat.add_0_r L). now apply H.
  - apply IH. intros j o Hj.
    replace (S L + j) with (L + S j) by lia. now apply H.
Qed.

(** The state [refresh] reaches: the objects of the result sets, then those
    of the dimension sets, allocated after the old heap; the set list is the
    run of their addresses; each holds what its second-pass method made of
    it against the complete set list. *)
Lemma refresh_shape (db0 : IqDatabase) (db_info : db_info_t) :
  let db := refresh db0 db_info in
  let L := length (heap db0) in
  let n := length (result_sets db_info) in
  let objs := map new_result_set (result_sets db_info) ++
              map new_dimension_set (dimension_sets db_info) in
  set_list db = seq L (length objs) /\
  result_set_list db = seq L n /\
  dimension_set_list db = seq (L + n) (length (dimension_sets db_info)) /\
  exists db1 : IqDatabase,
    heap db1 = heap db0 ++ objs /\
    set_list db1 = seq L (length objs) /\
    forall j o, nth_error objs j = Some o ->
                nth_error (heap db) (L + j) = Some (related_set_info db1 o).
Proof.
  intros db L n objs. subst db. unfold refresh, refresh_set_list.
  cbn [info heap result_set_list dimension_set_list].
  rewrite !construct_sets_spec. cbn [app].
  rewrite length_app, length_map. fold L n.
  set (h2 := (heap db0 ++ map new_result_set (result_sets db_info)) ++
             map new_dimension_set (dimension_sets db_info)).
  set (rl := seq L n).
  set (dl := seq (L + n) (length (dimension_sets db_info))).
  assert (Hsl : rl ++ dl = seq L (length objs)).
  { unfold objs, rl, dl. now rewrite length_app, !length_map, seq_app. }
  match goal with
  | |- context [fold_left _ _ ?d] => set (db1 := d)
  end.
  assert (Hsl1 : set_list db1 = seq L (length objs)) by exact Hsl.
  destruct (second_pass_spec (set_list db1) db1) as [E1 [E2 [E3 [E4 [Hin Hout]]]]].
  { rewrite Hsl1. apply seq_NoDup. }
  repeat split.
  - rewrite E1. exact Hsl1.
  - rewrite E2. reflexivity.
  - rewrite E3. reflexivity.
  - exists db1. repeat split.
    + unfold db1, h2, objs. cbn [heap with_sets]. now rewrite app_assoc.
    + exact Hsl1.
    + intros j o Hj. rewrite Hin.
      * unfold db1 at 2. cbn [heap with_sets]. unfold h2.
        rewrite <- app_assoc. change (map new_result_set (result_sets db_info) ++
          map new_dimension_set (dimension_sets db_info)) with objs.
        rewrite nth_error_app2 by (unfold L; lia).
        replace (L + j - length (heap db0)) with j by (unfold L; lia).
        now rewrite Hj.
      * rewrite Hsl1. apply in_seq.
        assert (j < length objs) by (apply nth_error_Some; congruence). lia.
Qed.

(** An object of the freshly built run is a result set before position
    [n] and a dimension set from there on. *)
Lemma nth_error_objs (rsi dsi : list set_info_t) (j : nat) (o : IqSet) :
  nth_error (map new_result_set rsi ++ map new_dimension_set dsi) j = Some o ->
  (j < length rsi /\ exists si, In si rsi /\ o = new_result_set si) \/
  (length rsi <= j /\ exists si, In si dsi /\ o = new_dimension_set si).
Proof.
  intros H. rewrite nth_error_app, length_map in H.
  destruct (Nat.ltb_spec j (length rsi)) as [Hlt|Hge].
  - left. split; [assumption|].
    rewrite nth_error_map in H.
    destruct (nth_error rsi j) as [si|] eqn:Hsi; [| discriminate].
    exists si. split; [eapply nth_error_In; eassumption | now injection H as <-].
  - right. split; [assumption|].
    rewrite nth_error_map in H.
    destruct (nth_error dsi (j - length rsi)) as [si|] eqn:Hsi; [| discriminate].
    exists si. split; [eapply nth_error_In; eassumption | now injection H as <-].
Qed.

(** ** Column projections *)

Lemma fold_append_column (f g : string -> string) (cols : list string) :
  forall ci : columns_info_t,
    fold_left (fun ci column => append_column ci (f column) (g column)) cols ci =
    mk_columns_info
      (projections ci ++ map (fun c => f c +++ " AS " +++ g c) cols)
      (column_alias_list ci ++ map g cols).
Proof.
  induction cols as [|c cols IH]; intros ci; simpl.
  - rewrite !app_nil_r. now destruct ci.
  - rewrite IH. unfold append_column. simpl. now rewrite <- !app_assoc.
Qed.

(** The columns a linked set contributes, always in the plain form. *)
Lemma append_dimension_columns_spec (d : IqSet) (ci : columns_info_t) :
  append_dimension_columns d ci =
  mk_columns_info
    (projections ci ++ map (spec_projection (set_name d)) (column_list d))
    (column_alias_list ci ++ map (spec_alias (set_name d)) (column_list d)).
Proof.
  unfold append_dimension_columns. rewrite fold_append_column.
  f_equal. f_equal. apply map_ext. intros c.
  unfold call_get_full_column_name, IqResultSet_get_full_column_name,
    IqSet_get_full_column_name, spec_projection, get_column_alias, spec_alias.
  now destruct (class_of d).
Qed.

Lemma dimension_sets_loop_resolved (h : list IqSet) (refs : list (option addr))
  (dims : list IqSet) :
  resolved h refs dims ->
  forall ci : columns_info_t,
    dimension_sets_loop h refs ci =
    Returned
      (mk_columns_info
         (projections ci ++
          flat_map (fun d => map (spec_projection (set_name d)) (column_list d)) dims)
         (column_alias_list ci ++
          flat_map (fun d => map (spec_alias (set_name d)) (column_list d)) dims)).
Proof.
  induction 1 as [|r d refs dims [a [-> Ha]] _ IH]; intros ci; simpl.
  - rewrite !app_nil_r. now destruct ci.
  - rewrite Ha, IH, append_dimension_columns_spec. simpl.
    now rewrite <- !app_assoc.
Qed.

(** What the two methods compute.  For a set with columns [c1..cn], the
    base [get_columns_info], which takes no argument, gives
    exactly the [n] projections ["<set>.<ci> AS <set>_<ci>"] in declaration
    order with the parallel aliases ["<set>_<ci>"].  A result set whose
    references are resolved gives, for its own columns, those projections or,
    with [latest], ["(<set>$last.<ci>) AS <set>_<ci>"] under the same
    aliases, followed in both cases by the plain projections and aliases of
    each linked set's columns, in the order the sets are linked. *)
Theorem get_columns_info_projections (h : list IqSet) (self : IqSet) (latest : bool)
  (dsets : list (option addr)) (prim : option addr) (dims : list IqSet) :
  (forall s : IqSet,
     IqSet_get_columns_info s =
       mk_columns_info (map (spec_projection (set_name s)) (column_list s))
                       (map (spec_alias (set_name s)) (column_list s)) /\
     length (projections (IqSet_get_columns_info s)) = length (column_list s)) /\
  (class_of self = IqResultSet dsets prim ->
   resolved h dsets dims ->
   IqResultSet_get_columns_info h self latest =
     Returned
       (mk_columns_info
          (map ((if latest then spec_latest_projection else spec_projection)
                  (set_name self)) (column_list self) ++
           flat_map (fun d => map (spec_projection (set_name d)) (column_list d)) dims)
          (map (spec_alias (set_name self)) (column_list self) ++
           flat_map (fun d => map (spec_alias (set_name d)) (column_list d)) dims))).
Proof.
  split.
  - intros s.
    assert (Hbase : IqSet_get_columns_info s =
                    mk_columns_info (map (spec_projection (set_name s)) (column_list s))
                                    (map (spec_alias (set_name s)) (column_list s))).
    { unfold IqSet_get_columns_info. now rewrite fold_append_column. }
    split; [exact Hbase|]. rewrite Hbase. simpl. apply length_map.
  - intros Hclass Hres.
    unfold IqResultSet_get_columns_info. rewrite Hclass, fold_append_column.
    rewrite (dimension_sets_loop_resolved h dsets dims Hres). simpl.
    do 3 f_equal. apply map_ext. intros c.
    unfold IqResultSet_get_full_column_name, spec_latest_projection,
      spec_projection, get_column_alias, spec_alias.
    now destruct latest.
Qed.

Lemma get_columns_info_projections_witness :
  IqResultSet_get_columns_info (heap sample_database) sample_tx true =
  Returned
    (mk_columns_info
       ["(tx_stream_live_stats$last.frame_count) AS tx_stream_live_stats_frame_count";
        "stream.stream_id AS stream_stream_id"]
       ["tx_stream_live_stats_frame_count"; "stream_stream_id"]).
Proof.
  apply (get_columns_info_projections (heap sample_database) sample_tx true
           [Some 2] (Some 2) [new_dimension_set sample_stream_info]).
  - reflexivity.
  - repeat constructor. exists 2. split; reflexivity.
Defined.

(** The call [self.iq_set.get_columns_info(latest)] that
    [refresh_columns_info] makes is the method call on the set. *)
Lemma refresh_columns_info_calls (db : IqDatabase) (st : query_state) (a : addr)
  (ci : option columns_info_t) (cs : list string) (s : IqSet) (latest : bool) :
  nth_error (heap db) a = Some s ->
  snd (refresh_columns_info db (IqSingleQuery st (Some a) ci cs) latest) =
  (_ <- get_columns_info (heap db) s (Some latest) ;; Returned tt).
Proof.
  intros Hs. unfold refresh_columns_info, get_columns_info. rewrite Hs.
  destruct (class_of s); [| reflexivity].
  now destruct (IqResultSet_get_columns_info (heap db) s latest).
Qed.

(** C5, at the failing input: the dimension set [stream] of the sample
    database, with the one column [stream_id].  [get_columns_info] called
    with [latest=False], as the claim has it for every set, raises
    [TypeError], because the method of [IqSet] takes no [latest]; only the
    call without argument returns the projection and the alias.  The call
    with the argument is the one [IqSingleQuery] makes, so a single query on
    the dimension set cannot be built, while the same call on a result set
    returns. *)
Theorem get_columns_info_rejects_latest :
  exists (s rs : IqSet),
    nth_error (heap sample_database) 2 = Some s /\
    set_name s = "stream" /\ class_of s = IqDimensionSet /\
    column_list s = ["stream_id"] /\
    get_columns_info (heap sample_database) s (Some false) = Raised TypeError /\
    get_columns_info (heap sample_database) s (Some true) = Raised TypeError /\
    get_columns_info (heap sample_database) s None =
      Returned (mk_columns_info ["stream.stream_id AS stream_stream_id"]
                                ["stream_stream_id"]) /\
    new_single_query sample_database (Some "stream") None = Raised TypeError /\
    nth_error (heap sample_database) 0 = Some rs /\
    get_columns_info (heap sample_database) rs (Some false) =
      Returned (mk_columns_info
                  ["tx_stream_live_stats.frame_count AS tx_stream_live_stats_frame_count";
                   "stream.stream_id AS stream_stream_id"]
                  ["tx_stream_live_stats_frame_count"; "stream_stream_id"]).
Proof.
  do 2 eexists.
  split; [vm_compute; reflexivity|]. split; [vm_compute; reflexivity|].
  split; [vm_compute; reflexivity|]. split; [vm_compute; reflexivity|].
  split; [vm_compute; reflexivity|]. split; [vm_compute; reflexivity|].
  split; [vm_compute; reflexivity|]. split; [vm_compute; reflexivity|].
  split; vm_compute; reflexivity.
Qed.

(** ** Query builder *)

Lemma with_state_state_of (q : IqQuery) : with_state q (state_of q) = q.
Proof. now destruct q. Qed.

(** C10. On every query object and for every argument, [add_order] raises
    the [NameError] for [group] and leaves the object, its [orders] list
    included, as it was. *)
Theorem add_order_raises_name_error (q : IqQuery) (order : pyval) :
  IqQuery_add_order q order = (q, Raised (NameError "group")) /\
  orders (state_of (fst (IqQuery_add_order q order))) = orders (state_of q).
Proof.
  assert (H : IqQuery_add_order q order = (q, Raised (NameError "group"))).
  { unfold IqQuery_add_order, add_order. cbn. now rewrite with_state_state_of. }
  split; [exact H | now rewrite H].
Qed.

(** The keys of the dict a single query emits. *)
Lemma single_query_dict_keys (db : IqDatabase) (latest : bool) (st : query_state)
  (s : option addr) (ci : option columns_info_t) (cs : list string)
  (q' : IqQuery) (d : pydict) :
  get_query db latest (IqSingleQuery st s ci cs) = (q', Returned (PDict d)) ->
  dict_keys d =
  map PStr ["alias"; "filters"; "groups"; "orders"; "timestamp_range"; "limit";
            "pagination"; "projections"].
Proof.
  cbn [get_query]. unfold refresh_columns_info. intros H.
  destruct s as [a|]; [| cbn in H; discriminate].
  destruct (nth_error (heap db) a) as [x|]; [| cbn in H; discriminate].
  destruct (class_of x); [| cbn in H; discriminate].
  destruct (IqResultSet_get_columns_info (heap db) x latest);
    cbn in H; try discriminate.
  injection H as _ <-. reflexivity.
Qed.

(** The keys of the dict a multi-query emits: no [timestamp_range]. *)
Lemma multi_query_dict_keys (db : IqDatabase) (latest : bool) (st : query_state)
  (subs : list IqQuery) (ks : list string) (q' : IqQuery) (d : pydict) :
  get_query db latest (IqMultiQuery st subs ks) = (q', Returned (PDict d)) ->
  dict_keys d =
  map PStr ["alias"; "filters"; "groups"; "orders"; "limit"; "pagination";
            "subqueries"; "projections"].
Proof.
  cbn [get_query]. intros H.
  destruct (subqueries_loop (get_query db latest) ks subs (mk_build_state [] [] [] []))
    as [subs' [b| |]]; try discriminate.
  destruct (key_filters_loop (key_dict b) (filters st)) as [fs [[]| |]];
    cbn [bind] in H; try discriminate.
  injection H as _ <-. reflexivity.
Qed.

(** C6, at the failing input: the sample multi-query with the relative
    time range [PT1H] set builds a dict without the key [timestamp_range],
    while each of its sub-queries' dicts has it. *)
Theorem multi_query_omits_timestamp_range :
  exists (q q' : IqQuery) (d : pydict) (subs : list pyval),
    sample_multi_query = Returned q /\
    get_query sample_database false
      (with_state q (add_timestamp_range_relative (state_of q) (Some "PT1H"))) =
    (q', Returned (PDict d)) /\
    dict_keys d =
    map PStr ["alias"; "filters"; "groups"; "orders"; "limit"; "pagination";
              "subqueries"; "projections"] /\
    dict_mem d (PStr "timestamp_range") = false /\
    dict_get d (PStr "subqueries") = Some (PList subs) /\
    Forall (fun sub => exists sd, sub = PDict sd /\
                                  dict_mem sd (PStr "timestamp_range") = true) subs.
Proof.
  do 4 eexists. split; [vm_compute; reflexivity|].
  split; [vm_compute; reflexivity|].
  split; [vm_compute; reflexivity|]. split; [vm_compute; reflexivity|].
  split; [vm_compute; reflexivity|].
  repeat constructor; eexists; split; vm_compute; reflexivity.
Qed.

(** C4, at the failing input: the sample multi-query with one filter of
    the caller's, built twice.  The first build emits the join filter once
    and leaves it in the query's own filter list; the second build emits it
    twice. *)
Theorem multi_query_rebuild_duplicates_join_filter :
  exists (q q1 q2 : IqQuery) (d1 d2 : pydict),
    sample_multi_query = Returned q /\
    get_query sample_database false
      (with_state q (add_filter (state_of q) (PStr "x > 1"))) =
    (q1, Returned (PDict d1)) /\
    dict_get d1 (PStr "filters") = Some (PList [PStr "x > 1"; sample_join_filter]) /\
    filters (state_of q1) = [PStr "x > 1"; sample_join_filter] /\
    get_query sample_database false q1 = (q2, Returned (PDict d2)) /\
    dict_get d2 (PStr "filters") =
    Some (PList [PStr "x > 1"; sample_join_filter; sample_join_filter]).
Proof.
  do 5 eexists. split; [vm_compute; reflexivity|].
  split; [vm_compute; reflexivity|].
  split; [vm_compute; reflexivity|]. split; [vm_compute; reflexivity|].
  split; vm_compute; reflexivity.
Qed.

(** *** The key dict *)

Lemma first_seen_snoc (l : list string) (c : string) :
  first_seen (l ++ [c]) =
  if str_in c (first_seen l) then first_seen l else first_seen l ++ [c].
Proof. unfold first_seen. now rewrite fold_left_app. Qed.

Lemma first_seen_In (l : list string) (c : string) :
  In c (first_seen l) <-> In c l.
Proof.
  induction l as [|x l IH] using rev_ind; [reflexivity|].
  rewrite first_seen_snoc, in_app_iff. simpl.
  destruct (str_in x (first_seen l)) eqn:Hx.
  - apply str_in_In in Hx. rewrite IH in *. intuition (subst; auto).
  - rewrite in_app_iff. simpl. tauto.
Qed.

Lemma first_seen_NoDup (l : list string) : NoDup (first_seen l).
Proof.
  induction l as [|x l IH] using rev_ind; [constructor|].
  rewrite first_seen_snoc.
  destruct (str_in x (first_seen l)) eqn:Hx; [assumption|].
  apply str_in_not_In in Hx.
  apply NoDup_app; [assumption | repeat constructor; intros [] |].
  intros y Hy [<-|[]]. contradiction.
Qed.

Lemma sdict_get_map {V : Type} (f : string -> V) (l : list string) (c : string) :
  sdict_get (map (fun k => (k, f k)) l) c =
  if str_in c l then Some (f c) else None.
Proof.
  induction l as [|x l IH]; simpl; [reflexivity|].
  rewrite (String.eqb_sym c x).
  destruct (String.eqb_spec x c) as [->|]; simpl; [reflexivity | exact IH].
Qed.

Lemma sdict_set_map {V : Type} (f : string -> V) (l : list string) (c : string) (v : V) :
  NoDup l ->
  sdict_set (map (fun k => (k, f k)) l) c v =
  if str_in c l
  then map (fun k => (k, if String.eqb k c then v else f k)) l
  else map (fun k => (k, f k)) l ++ [(c, v)].
Proof.
  induction l as [|x l IH]; simpl; intros Hnd; [reflexivity|].
  inversion Hnd as [|? ? Hx Hnd']; subst.
  rewrite (String.eqb_sym c x).
  destruct (String.eqb_spec x c) as [->|Hne]; simpl.
  - f_equal. apply map_ext_in. intros k Hk.
    destruct (String.eqb_spec k c) as [->|]; [contradiction | reflexivity].
  - rewrite (IH Hnd'). destruct (str_in c l); reflexivity.
Qed.

Lemma refs_of_snoc (events : list (string * string)) (e : string * string) (k : string) :
  refs_of (events ++ [e]) k =
  refs_of events k ++ (if String.eqb (fst e) k then [snd e] else []).
Proof.
  unfold refs_of. rewrite filter_app, map_app. simpl.
  now destruct (String.eqb (fst e) k).
Qed.

Lemma refs_of_absent (events : list (string * string)) (k : string) :
  ~ In k (map fst events) -> refs_of events k = [].
Proof.
  induction events as [|[c r] events IH]; simpl; intros H; [reflexivity|].
  unfold refs_of in *. simpl.
  destruct (String.eqb_spec c k) as [->|]; [tauto|].
  apply IH. tauto.
Qed.

(** The key dict after the loops: one item per gathered key, in first-seen
    order, holding that key's references in the order gathered. *)
Lemma gather_spec (events : list (string * string)) :
  gather [] events =
  map (fun k => (k, refs_of events k)) (first_seen (map fst events)).
Proof.
  induction events as [|e events IH] using rev_ind; [reflexivity|].
  unfold gather in *. rewrite fold_left_app, IH. simpl.
  rewrite map_app. simpl. rewrite first_seen_snoc.
  unfold key_dict_append. rewrite sdict_get_map.
  destruct (str_in (fst e) (first_seen (map fst events))) eqn:Hin;
    rewrite sdict_set_map by apply first_seen_NoDup; rewrite Hin.
  - apply map_ext. intros k. rewrite refs_of_snoc.
    rewrite (String.eqb_sym k (fst e)).
    destruct (String.eqb_spec (fst e) k) as [<-|]; [reflexivity|].
    now rewrite app_nil_r.
  - apply str_in_not_In in Hin.
    rewrite map_app. simpl. f_equal.
    + apply map_ext_in. intros k Hk. rewrite refs_of_snoc.
      destruct (String.eqb_spec (fst e) k) as [<-|]; [contradiction|].
      now rewrite app_nil_r.
    + rewrite refs_of_snoc, String.eqb_refl, refs_of_absent; [reflexivity|].
      now rewrite <- first_seen_In.
Qed.

Lemma gather_app (kd : list (string * list string)) (e1 e2 : list (string * string)) :
  gather kd (e1 ++ e2) = gather (gather kd e1) e2.
Proof. unfold gather. apply fold_left_app. Qed.

(** What the column loop adds to the key dict for one sub-query. *)
Lemma scan_columns_gather (ks : list string) (sq : IqQuery) (cs : list string) :
  forall b b' : build_state,
    scan_columns (alias (state_of sq)) ks cs b = Returned b' ->
    key_dict b' =
    gather (key_dict b)
      (flat_map (fun c => if str_in c ks then [(c, qualified sq c)] else []) cs).
Proof.
  unfold qualified, sub_name.
  induction cs as [|c cs IH]; intros b b' H; simpl in H.
  - now injection H as <-.
  - destruct (alias (state_of sq)) as [n|]; [| discriminate].
    apply IH in H. rewrite H. cbn [flat_map]. rewrite gather_app. f_equal.
    destruct (str_in c ks); destruct (str_in c (seen_columns b)); reflexivity.
Qed.

(** What the sub-query loop leaves in the key dict. *)
Lemma subqueries_loop_gather (gq : IqQuery -> IqQuery * result pyval)
  (ks : list string) (subs : list IqQuery) :
  forall (b b' : build_state) (subs' : list IqQuery),
    subqueries_loop gq ks subs b = (subs', Returned b') ->
    key_dict b' = gather (key_dict b) (flat_map (key_events ks) subs').
Proof.
  induction subs as [|sq subs IH]; intros b b' subs' H; simpl in H.
  - now injection H as <- <-.
  - destruct (gq sq) as [sq' [q| |]]; try discriminate.
    destruct (scan_columns (alias (state_of sq')) ks (get_columns sq') _)
      as [b2| |] eqn:Hscan; try discriminate.
    destruct (subqueries_loop gq ks subs b2) as [rest' r'] eqn:Hrest.
    injection H as <- ->.
    cbn [flat_map]. rewrite gather_app.
    rewrite (IH _ _ _ Hrest). f_equal.
    now rewrite (scan_columns_gather ks sq' _ _ _ Hscan).
Qed.

(** *** The key check *)

Lemma key_filters_loop_all_two (kd : list (string * list string)) :
  forall fs : list pyval,
    (forall e, In e kd -> length (snd e) = 2) ->
    key_filters_loop kd fs =
    (fs ++ map (fun e => PStr (nth 0 (snd e) "" +++ "=" +++ nth 1 (snd e) "")) kd,
     Returned tt).
Proof.
  induction kd as [|[k refs] kd IH]; intros fs H; simpl.
  - now rewrite app_nil_r.
  - pose proof (H (k, refs) (or_introl eq_refl)) as Hlen. simpl in Hlen.
    destruct refs as [|r0 [|r1 [|r2 refs]]]; try discriminate.
    rewrite IH by (intros e He; apply H; now right).
    now rewrite <- app_assoc.
Qed.

Lemma key_filters_loop_first_bad (pre post : list (string * list string))
  (k : string) (refs : list string) (fs : list pyval) :
  (forall e, In e pre -> length (snd e) = 2) ->
  (length refs = 1 ->
   snd (key_filters_loop (pre ++ (k, refs) :: post) fs) =
   Raised (PyException (key_not_joinable_message k))) /\
  (2 < length refs ->
   snd (key_filters_loop (pre ++ (k, refs) :: post) fs) =
   Raised (PyException (key_ambiguous_message k))).
Proof.
  revert fs. induction pre as [|[k0 refs0] pre IH]; intros fs H.
  - simpl. destruct refs as [|r0 [|r1 [|r2 refs]]]; simpl; split; intros; 
      try reflexivity; try discriminate; lia.
  - pose proof (H (k0, refs0) (or_introl eq_refl)) as Hlen. simpl in Hlen.
    destruct refs0 as [|r0 [|r1 [|r2 refs0]]]; try discriminate.
    simpl. apply IH. intros e He. apply H. now right.
Qed.

(** *** Gathered references and sub-queries *)

Lemma refs_of_app (e1 e2 : list (string * string)) (k : string) :
  refs_of (e1 ++ e2) k = refs_of e1 k ++ refs_of e2 k.
Proof. unfold refs_of. now rewrite filter_app, map_app. Qed.

Lemma refs_of_flat_map (ks : list string) (subs : list IqQuery) (k : string) :
  refs_of (flat_map (key_events ks) subs) k =
  flat_map (fun sq => refs_of (key_events ks sq) k) subs.
Proof.
  induction subs as [|sq subs IH]; simpl; [reflexivity|].
  now rewrite refs_of_app, IH.
Qed.

(** A sub-query that lists each column once contributes one reference for
    a key it lists and none otherwise. *)
Lemma refs_of_key_events (ks : list string) (sq : IqQuery) (k : string) :
  In k ks -> NoDup (get_columns sq) ->
  refs_of (key_events ks sq) k =
  if str_in k (get_columns sq) then [qualified sq k] else [].
Proof.
  intros Hk. unfold key_events.
  induction (get_columns sq) as [|c cs IH]; intros Hnd; [reflexivity|].
  inversion Hnd as [|? ? Hc Hnd']; subst.
  cbn [flat_map]. rewrite refs_of_app, (IH Hnd').
  cbn [str_in existsb]. fold (str_in k cs).
  destruct (String.eqb_spec k c) as [->|Hne].
  - apply str_in_In in Hk. rewrite Hk.
    apply str_in_not_In in Hc. rewrite Hc.
    unfold refs_of. simpl. now rewrite String.eqb_refl.
  - simpl. destruct (str_in c ks); [| reflexivity].
    unfold refs_of. simpl.
    destruct (String.eqb_spec c k) as [->|]; [contradiction | reflexivity].
Qed.

Lemma refs_of_found_in (ks : list string) (subs : list IqQuery) (k : string) :
  In k ks -> (forall sq, In sq subs -> NoDup (get_columns sq)) ->
  refs_of (flat_map (key_events ks) subs) k =
  map (fun sq => qualified sq k) (found_in subs k).
Proof.
  intros Hk Hnd. rewrite refs_of_flat_map. unfold found_in.
  induction subs as [|sq subs IH]; simpl; [reflexivity|].
  rewrite refs_of_key_events; [| assumption | apply Hnd; now left].
  rewrite IH by (intros x Hx; apply Hnd; now right).
  now destruct (str_in k (get_columns sq)).
Qed.

Lemma map_fst_key_events (ks : list string) (subs : list IqQuery) :
  map fst (flat_map (key_events ks) subs) =
  filter (fun c => str_in c ks) (flat_map get_columns subs).
Proof.
  induction subs as [|sq subs IH]; simpl; [reflexivity|].
  rewrite map_app, filter_app, IH. f_equal.
  unfold key_events. induction (get_columns sq) as [|c cs IHc]; simpl; [reflexivity|].
  rewrite map_app, IHc. now destruct (str_in c ks).
Qed.

Lemma seen_keys_In (ks : list string) (subs : list IqQuery) (k : string) :
  In k (seen_keys ks subs) <-> In k ks /\ found_in subs k <> [].
Proof.
  unfold seen_keys, found_in. rewrite first_seen_In, filter_In, in_flat_map.
  rewrite str_in_In. split.
  - intros [[sq [Hsq Hk]] Hks]. split; [assumption|].
    intros Hnil.
    assert (Hin : In sq (filter (fun sq => str_in k (get_columns sq)) subs))
      by (apply filter_In; split; [assumption | now apply str_in_In]).
    rewrite Hnil in Hin. contradiction.
  - intros [Hks Hne]. split; [| assumption].
    destruct (filter (fun sq => str_in k (get_columns sq)) subs) as [|sq l] eqn:Hf;
      [contradiction|].
    assert (Hin : In sq (filter (fun sq => str_in k (get_columns sq)) subs))
      by (rewrite Hf; now left).
    apply filter_In in Hin. exists sq. now rewrite <- str_in_In.
Qed.

(** The key dict of a build whose sub-query loop succeeds, over sub-queries
    that list each column once. *)
Lemma key_dict_found_in (gq : IqQuery -> IqQuery * result pyval) (ks : list string)
  (subs subs' : list IqQuery) (b : build_state) :
  subqueries_loop gq ks subs (mk_build_state [] [] [] []) = (subs', Returned b) ->
  (forall sq, In sq subs' -> NoDup (get_columns sq)) ->
  key_dict b =
  map (fun k => (k, map (fun sq => qualified sq k) (found_in subs' k)))
      (seen_keys ks subs').
Proof.
  intros Hloop Hnd.
  rewrite (subqueries_loop_gather _ _ _ _ _ _ Hloop). cbn [key_dict].
  rewrite gather_spec, map_fst_key_events. fold (seen_keys ks subs').
  apply map_ext_in. intros k Hk. f_equal.
  apply refs_of_found_in; [| assumption].
  now apply seen_keys_In in Hk.
Qed.

(** X30. Take a multi-query whose sub-queries all build and each list a
    column at most once.  A declared key that no sub-query lists is not
    checked at all.  The others are checked in first-seen order: if
    each is listed by exactly two sub-queries the build succeeds and appends,
    per key, the filter equating the two qualified references to the query's
    filters; otherwise the build raises for the first key that is not, the
    only-found-in-one error when one sub-query lists it and the
    more-than-two error when more than two do. *)
Theorem multi_query_key_arity (db : IqDatabase) (latest : bool) (st : query_state)
  (subs : list IqQuery) (ks : list string) :
  let r := subqueries_loop (get_query db latest) ks subs (mk_build_state [] [] [] []) in
  let subs' := fst r in
  let outcome := snd (get_query db latest (IqMultiQuery st subs ks)) in
  (exists b, snd r = Returned b) ->
  (forall sq, In sq subs' -> NoDup (get_columns sq)) ->
  (forall k, In k (seen_keys ks subs') <-> In k ks /\ found_in subs' k <> []) /\
  ((forall k, In k (seen_keys ks subs') -> length (found_in subs' k) = 2) ->
   exists d,
     outcome = Returned (PDict d) /\
     dict_get d (PStr "filters") =
     Some (PList (filters st ++ map (join_filter subs') (seen_keys ks subs')))) /\
  (forall pre k post,
     seen_keys ks subs' = pre ++ k :: post ->
     (forall k', In k' pre -> length (found_in subs' k') = 2) ->
     (length (found_in subs' k) = 1 ->
      outcome = Raised (PyException (key_not_joinable_message k))) /\
     (2 < length (found_in subs' k) ->
      outcome = Raised (PyException (key_ambiguous_message k)))).
Proof.
  intros r subs' outcome [b Hb] Hnd.
  subst outcome subs'. cbn [get_query]. fold r.
  destruct r as [s' rb] eqn:Hloop. cbn [fst snd] in *. subst rb.
  pose proof (key_dict_found_in _ _ _ _ _ Hloop Hnd) as Hkd.
  split; [intros k; apply seen_keys_In|].
  destruct (key_filters_loop (key_dict b) (filters st)) as [fs rk] eqn:Hk.
  cbn [snd]. split.
  - intros Htwo.
    rewrite Hkd, key_filters_loop_all_two in Hk.
    2:{ intros e He. apply in_map_iff in He. destruct He as [k [<- Hin]].
        cbn [snd]. rewrite length_map. now apply Htwo. }
    injection Hk as <- <-. cbn [bind].
    eexists. split; [reflexivity|]. cbn. do 3 f_equal.
    rewrite map_map. apply map_ext_in. intros k Hin. cbn [snd].
    unfold join_filter. specialize (Htwo k Hin).
    destruct (found_in s' k) as [|x [|y [|z l]]]; try discriminate. reflexivity.
  - intros pre k post Hseen Hpre.
    rewrite Hkd, Hseen, map_app in Hk. cbn [map] in Hk.
    pose proof (key_filters_loop_first_bad
                  (map (fun k => (k, map (fun sq => qualified sq k) (found_in s' k))) pre)
                  (map (fun k => (k, map (fun sq => qualified sq k) (found_in s' k))) post)
                  k (map (fun sq => qualified sq k) (found_in s' k)) (filters st))
      as Hbad.
    rewrite Hk in Hbad. cbn [snd] in Hbad. rewrite length_map in Hbad.
    destruct Hbad as [H1 H2].
    { intros e He. apply in_map_iff in He. destruct He as [k' [<- Hin]].
      cbn [snd]. rewrite length_map. now apply Hpre. }
    split; intros Hlen; [rewrite (H1 Hlen) | rewrite (H2 Hlen)]; reflexivity.
Qed.

Lemma multi_query_key_arity_witness :
  snd (get_query sample_database false
         (IqMultiQuery (new_query_state None) sample_subqueries sample_lone_keys)) =
  Raised (PyException (key_not_joinable_message "tx_stream_live_stats_frame_count")).
Proof.
  destruct (multi_query_key_arity sample_database false (new_query_state None)
              sample_subqueries sample_lone_keys) as [_ [_ H]].
  - eexists. vm_compute. reflexivity.
  - intros sq Hsq. vm_compute in Hsq.
    destruct Hsq as [<-|[<-|[]]]; vm_compute;
      (constructor; [simpl; intuition discriminate |
                     constructor; [simpl; tauto | constructor]]).
  - apply (H [] "tx_stream_live_stats_frame_count" ["stream_stream_id"]).
    + vm_compute. reflexivity.
    + intros k' [].
    + vm_compute. reflexivity.
Defined.

(** C3, at the failing input: the sample multi-query over the two stream
    result sets with the declared key [no_such_column], which neither
    sub-query lists.  The build returns, with no filter for the key and no
    error, although the key exists in no sub-query; the same sub-queries with
    a key that one of them lists raise the error whose message says the key
    must exist in all sub-queries. *)
Theorem multi_query_absent_key_builds :
  exists (st : query_state) (subs : list IqQuery) (ks : list string)
         (q' : IqQuery) (d : pydict),
    sample_absent_key_query = Returned (IqMultiQuery st subs ks) /\
    In "no_such_column" ks /\
    length (found_in subs "no_such_column") = 0 /\
    get_query sample_database false (IqMultiQuery st subs ks) =
    (q', Returned (PDict d)) /\
    dict_get d (PStr "filters") = Some (PList []) /\
    length (found_in subs "tx_stream_live_stats_frame_count") = 1 /\
    snd (get_query sample_database false
           (IqMultiQuery st subs ["tx_stream_live_stats_frame_count"])) =
    Raised (PyException
      "The key 'tx_stream_live_stats_frame_count' was only found in one sub-query. It must exist in all sub-queries.").
Proof.
  do 5 eexists. split; [vm_compute; reflexivity|].
  split; [simpl; auto|].
  split; [vm_compute; reflexivity|].
  split; [vm_compute; reflexivity|].
  split; [vm_compute; reflexivity|].
  split; vm_compute; reflexivity.
Qed.

(** With no filter of the caller's, the join filter goes to a fresh list
    and every build emits it once. *)
Example multi_query_rebuild_without_filters :
  exists (q q1 q2 : IqQuery) (d1 d2 : pydict),
    sample_multi_query = Returned q /\
    get_query sample_database false q = (q1, Returned (PDict d1)) /\
    filters (state_of q1) = [] /\
    get_query sample_database false q1 = (q2, Returned (PDict d2)) /\
    dict_get d2 (PStr "filters") = Some (PList [sample_join_filter]).
Proof.
  do 5 eexists. split; [vm_compute; reflexivity|].
  split; [vm_compute; reflexivity|]. split; [vm_compute; reflexivity|].
  split; vm_compute; reflexivity.
Qed.

(** A nested multi-query answers [get_columns] with the concatenation of
    its sub-queries' lists, so a key its two sub-queries share is listed
    twice by it alone: the outer build joins the nested query with itself. *)
Example nested_multi_query_self_join :
  let inner := IqMultiQuery (new_query_state (Some "view")) sample_subqueries
                            ["stream_stream_id"] in
  let outer := IqMultiQuery (new_query_state None) [inner] ["stream_stream_id"] in
  exists (q' : IqQuery) (d : pydict),
    get_query sample_database false outer = (q', Returned (PDict d)) /\
    dict_get d (PStr "filters") =
    Some (PList [PStr "view.stream_stream_id=view.stream_stream_id"]).
Proof.
  do 2 eexists. split; vm_compute; reflexivity.
Qed.

(** ** [deepupdate] *)

Lemma deepupdate_unfold (items : pydict) (target : pyval) :
  deepupdate target (PDict items) = merge_items items target.
Proof. reflexivity. Qed.

Lemma key_eqb_sym (a b : pyval) : key_eqb a b = key_eqb b a.
Proof.
  destruct a, b; simpl; try reflexivity;
    try (destruct b; destruct b0; reflexivity);
    try apply Z.eqb_sym; try apply String.eqb_sym.
Qed.

Lemma key_eqb_trans (a b c : pyval) :
  key_eqb a b = true -> key_eqb b c = true -> key_eqb a c = true.
Proof.
  destruct a, b, c; simpl; intros H1 H2; try discriminate; try reflexivity;
    repeat match goal with
           | x : bool |- _ => destruct x
           end;
    simpl in *; try discriminate; try reflexivity;
    repeat match goal with
           | H : (_ =? _)%Z = true |- _ => apply Z.eqb_eq in H
           | H : (_ =? _)%string = true |- _ => apply String.eqb_eq in H
           end;
    subst; try discriminate;
    auto using Z.eqb_refl, String.eqb_refl.
Qed.

Lemma key_eqb_false_l (a b c : pyval) :
  key_eqb a b = true -> key_eqb a c = false -> key_eqb b c = false.
Proof.
  intros Hab Hac. destruct (key_eqb b c) eqn:Hbc; [| reflexivity].
  now rewrite (key_eqb_trans a b c Hab Hbc) in Hac.
Qed.

Lemma hashable_key_eqb_refl (k : pyval) : hashable k = true -> key_eqb k k = true.
Proof.
  destruct k; simpl; try discriminate; intros _;
    auto using Z.eqb_refl, String.eqb_refl, Bool.eqb_reflx.
Qed.

(** Reading after writing. *)
Lemma dict_get_dict_set (d : pydict) (k v k' : pyval) :
  dict_get (dict_set d k v) k' =
  if key_eqb k k' then Some v else dict_get d k'.
Proof.
  induction d as [|[k0 v0] d IH]; simpl; [reflexivity|].
  destruct (key_eqb k0 k) eqn:H0; simpl.
  - destruct (key_eqb k k') eqn:Hk.
    + now rewrite (key_eqb_trans k0 k k' H0 Hk).
    + rewrite (key_eqb_sym k0 k) in H0.
      now rewrite (key_eqb_false_l k k0 k' H0 Hk).
  - rewrite IH. destruct (key_eqb k k') eqn:Hk; [| reflexivity].
    destruct (key_eqb k0 k') eqn:E; [| reflexivity].
    rewrite (key_eqb_sym k k') in Hk.
    now rewrite (key_eqb_trans k0 k' k E Hk) in H0.
Qed.

(** Writing keeps the keys where they are and adds a new key last. *)
Lemma dict_keys_dict_set (d : pydict) (k v : pyval) :
  dict_keys (dict_set d k v) =
  if dict_mem d k then dict_keys d else dict_keys d ++ [k].
Proof.
  unfold dict_mem, dict_keys.
  induction d as [|[k0 v0] d IH]; simpl; [reflexivity|].
  destruct (key_eqb k0 k); simpl; [reflexivity|].
  rewrite IH. now destruct (dict_get d k).
Qed.

Lemma merge_item_dict_set (t : pydict) (k v : pyval) (t1 : pydict) :
  merge_item t k v = Returned t1 -> exists x, t1 = dict_set t k x.
Proof.
  unfold merge_item. intros H.
  destruct v; try (injection H as <-; eexists; reflexivity).
  - destruct (dict_get t k) as [[]|]; try discriminate;
      injection H as <-; eexists; reflexivity.
  - destruct (dict_get t k) as [tv|].
    + destruct (deepupdate tv (PDict d)); try discriminate.
      injection H as <-. eexists; reflexivity.
    + injection H as <-. eexists; reflexivity.
Qed.

Lemma merge_items_returned (items : pydict) :
  forall (t : pydict) (r : pyval),
    merge_items items (PDict t) = Returned r ->
    exists t' extra,
      r = PDict t' /\
      dict_keys t' = dict_keys t ++ extra /\
      incl extra (dict_keys items) /\
      forall k, (forall k0, In k0 (dict_keys items) -> key_eqb k0 k = false) ->
                dict_get t' k = dict_get t k.
Proof.
  induction items as [|[k v] items IH]; intros t r H; simpl in H.
  - injection H as <-. exists t, []. rewrite app_nil_r.
    repeat split; auto. intros x [].
  - destruct (merge_item t k v) as [t1| |] eqn:Hm; try discriminate.
    simpl in H. destruct (merge_item_dict_set _ _ _ _ Hm) as [x ->].
    destruct (IH _ _ H) as [t' [extra [-> [Hk [Hincl Hget]]]]].
    rewrite dict_keys_dict_set in Hk.
    destruct (dict_mem t k).
    + exists t', extra. repeat split; auto.
      * intros y Hy. right. now apply Hincl.
      * intros k' Hk'. rewrite Hget by (intros k0 H0; apply Hk'; now right).
        rewrite dict_get_dict_set, (Hk' k) by now left. reflexivity.
    + exists t', (k :: extra). rewrite <- app_assoc in Hk. repeat split; auto.
      * intros y [<-|Hy]; [now left | right; now apply Hincl].
      * intros k' Hk'. rewrite Hget by (intros k0 H0; apply Hk'; now right).
        rewrite dict_get_dict_set, (Hk' k) by now left. reflexivity.
Qed.

(** X1. A [deepupdate] that returns leaves a dict whose keys are the
    target's keys, in their places, followed by new keys, all of them keys
    of the source; under every key that equals no key of the source the
    target's value is unchanged. *)
Theorem deepupdate_touches_only_src_keys (t items : pydict) (r : pyval) :
  deepupdate (PDict t) (PDict items) = Returned r ->
  exists t' extra,
    r = PDict t' /\
    dict_keys t' = dict_keys t ++ extra /\
    incl extra (dict_keys items) /\
    forall k, (forall k0, In k0 (dict_keys items) -> key_eqb k0 k = false) ->
              dict_get t' k = dict_get t k.
Proof. rewrite deepupdate_unfold. apply merge_items_returned. Qed.

Lemma merge_items_disjoint (items : pydict) :
  forall t : pydict,
    (forall k0 k, In k0 (dict_keys t) -> In k (dict_keys items) -> key_eqb k0 k = false) ->
    distinct_keys items ->
    merge_items items (PDict t) = Returned (PDict (t ++ items)).
Proof.
  induction items as [|[k v] items IH]; intros t Hdis Hd; simpl.
  - now rewrite app_nil_r.
  - destruct Hd as [Hk Hd].
    assert (Hnone : dict_get t k = None).
    { clear -Hdis. induction t as [|[k0 v0] t IHt]; simpl; [reflexivity|].
      rewrite (Hdis k0 k) by (simpl; auto).
      apply IHt. intros a b Ha Hb. apply Hdis; simpl; auto. }
    assert (Hm : merge_item t k v = Returned (t ++ [(k, v)])).
    { unfold merge_item. rewrite Hnone, dict_set_fresh by assumption.
      now destruct v. }
    rewrite Hm. simpl. rewrite IH; [now rewrite <- app_assoc | | assumption].
    intros k0 k' H0 Hk'. unfold dict_keys in H0. rewrite map_app in H0.
    apply in_app_or in H0. destruct H0 as [H0|[<-|[]]].
    + apply Hdis; [assumption | now right].
    + now apply Hk.
Qed.

Lemma deepupdate_touches_only_src_keys_witness :
  exists t' extra,
    PDict sample_merged = PDict t' /\
    dict_keys t' = dict_keys sample_target ++ extra /\
    incl extra (dict_keys sample_source) /\
    forall k, (forall k0, In k0 (dict_keys sample_source) -> key_eqb k0 k = false) ->
              dict_get t' k = dict_get sample_target k.
Proof.
  apply (deepupdate_touches_only_src_keys sample_target sample_source).
  reflexivity.
Defined.

(** X2. When no key of the source equals a key of the target, [deepupdate]
    appends the source's items, unchanged and in order, to the target; on an
    empty target it yields the source. *)
Theorem deepupdate_disjoint_appends (t items : pydict) :
  (forall k0 k, In k0 (dict_keys t) -> In k (dict_keys items) -> key_eqb k0 k = false) ->
  distinct_keys items ->
  deepupdate (PDict t) (PDict items) = Returned (PDict (t ++ items)).
Proof. rewrite deepupdate_unfold. apply merge_items_disjoint. Qed.

Lemma merged_under_ext (t0 t t1 t' : pydict) (k v : pyval) :
  dict_get t0 k = dict_get t k -> dict_get t1 k = dict_get t' k ->
  merged_under t t' k v -> merged_under t0 t1 k v.
Proof.
  unfold merged_under. intros -> ->. trivial.
Qed.

Lemma deepupdate_disjoint_appends_witness :
  deepupdate (PDict [(PStr "name", PStr "Ferry")]) (PDict sample_source) =
  Returned (PDict ([(PStr "name", PStr "Ferry")] ++ sample_source)).
Proof.
  apply (deepupdate_disjoint_appends [(PStr "name", PStr "Ferry")] sample_source).
  - intros k0 k [<-|[]] [<-|[]]. reflexivity.
  - simpl. split; [intros k' [] | exact I].
Defined.

Lemma merge_item_lookup (t t1 : pydict) (k v : pyval) :
  hashable k = true -> merge_item t k v = Returned t1 -> merged_under t t1 k v.
Proof.
  intros Hh H. apply hashable_key_eqb_refl in Hh.
  unfold merge_item in H. unfold merged_under.
  destruct v;
    try (injection H as <-; now rewrite dict_get_dict_set, Hh).
  - destruct (dict_get t k) as [[]|]; try discriminate;
      injection H as <-; now rewrite dict_get_dict_set, Hh.
  - destruct (dict_get t k) as [tv|].
    + destruct (deepupdate tv (PDict d)) as [r| |]; try discriminate.
      injection H as <-. exists r. now rewrite dict_get_dict_set, Hh.
    + injection H as <-. now rewrite dict_get_dict_set, Hh.
Qed.

(** X3. On JSON values, which hold no Python set: after a [deepupdate]
    that returns, each item [(k, v)] of the source has been merged under [k]
    on its own: a list [v] is appended to the list the target held there, a
    dict [v] is deep-merged into the value the target held there, a [v] that
    is [None], a boolean, a number or a string replaces it; where the target
    held nothing, [v] itself is stored. *)
Theorem deepupdate_merges_per_key (t items t' : pydict) (k v : pyval) :
  distinct_keys items -> In (k, v) items -> hashable k = true ->
  deepupdate (PDict t) (PDict items) = Returned (PDict t') ->
  merged_under t t' k v.
Proof.
  rewrite deepupdate_unfold. intros Hd Hin Hh. revert t.
  induction items as [|[k1 v1] items IH]; intros t H; [contradiction|].
  destruct Hd as [Hk1 Hd]. simpl in H.
  destruct (merge_item t k1 v1) as [t1| |] eqn:Hm; try discriminate.
  simpl in H.
  destruct Hin as [E|Hin].
  - injection E as -> ->.
    destruct (merge_items_returned _ _ _ H) as [t2 [extra [E2 [_ [_ Hget]]]]].
    injection E2 as <-.
    apply (merged_under_ext t t t' t1); [reflexivity | | now apply merge_item_lookup].
    apply Hget. intros k0 H0. rewrite key_eqb_sym. now apply Hk1.
  - assert (Hne : key_eqb k1 k = false)
      by (apply Hk1; unfold dict_keys; apply (in_map fst _ _ Hin)).
    destruct (merge_item_dict_set _ _ _ _ Hm) as [x ->].
    apply (merged_under_ext t (dict_set t k1 x) t' t'); [ | reflexivity | now apply IH].
    now rewrite dict_get_dict_set, Hne.
Qed.

Lemma deepupdate_merges_per_key_witness :
  merged_under sample_target sample_merged (PStr "hobbies") (PList [PStr "gaming"]).
Proof.
  apply (deepupdate_merges_per_key sample_target sample_source sample_merged).
  - simpl. split; [intros k' [] | exact I].
  - simpl. auto.
  - reflexivity.
  - reflexivity.
Defined.

(** ** [convert_result_to_dict] with key names *)

Lemma row_entry_get (cols : list string) (row : list pyval) (k : string) :
  NoDup cols -> length cols <= length row -> In k cols ->
  exists v, dict_get (row_entry cols row) (PStr k) = Some v /\
            In v (firstn (length cols) row).
Proof.
  intros Hnd Hlen Hin. destruct (In_nth_error _ _ Hin) as [j Hj].
  unfold row_entry.
  rewrite (dict_get_combine_nth cols _ j k Hnd); [| | assumption].
  - assert (Hlt : j < length cols) by (apply nth_error_Some; congruence).
    destruct (nth_error (firstn (length cols) row) j) as [v|] eqn:Hv.
    + exists v. split; [reflexivity | eapply nth_error_In; eassumption].
    + apply nth_error_None in Hv. rewrite length_firstn in Hv. lia.
  - rewrite length_firstn. lia.
Qed.

Lemma fill_entry_row_entry (cols : list string) (row : list pyval) :
  NoDup cols -> length cols <= length row ->
  fill_entry cols row 0 [] = Returned (row_entry cols row).
Proof.
  intros Hnd Hlen.
  rewrite (fill_entry_spec cols row 0 []); [reflexivity | assumption | reflexivity | simpl; lia].
Qed.

Lemma check_key_names_ok (names cols : list string) :
  (forall k, In k names -> In k cols) -> check_key_names names cols = Returned tt.
Proof.
  induction names as [|k names IH]; intros H; simpl; [reflexivity|].
  assert (Hk : str_in k cols = true) by (apply str_in_In, H; now left).
  rewrite Hk. apply IH. intros x Hx. apply H. now right.
Qed.

Lemma dict_set_app_miss (pre d : pydict) (k v : pyval) :
  (forall k0, In k0 (dict_keys pre) -> key_eqb k0 k = false) ->
  dict_set (pre ++ d) k v = pre ++ dict_set d k v.
Proof.
  induction pre as [|[k0 v0] pre IH]; intros H; simpl; [reflexivity|].
  rewrite (H k0) by (simpl; auto). f_equal.
  apply IH. intros x Hx. apply H. simpl. auto.
Qed.

(** Merging an entry with scalar cells into an entry over the same columns
    replaces every cell. *)
Lemma merge_items_overwrite (cols : list string) :
  forall (vs vs' : list pyval) (pre : pydict),
    NoDup cols -> length vs = length cols -> length vs' = length cols ->
    Forall (fun v => hashable v = true) vs' ->
    (forall k0 c, In k0 (dict_keys pre) -> In c cols -> key_eqb k0 (PStr c) = false) ->
    merge_items (combine (map PStr cols) vs')
                (PDict (pre ++ combine (map PStr cols) vs)) =
    Returned (PDict (pre ++ combine (map PStr cols) vs')).
Proof.
  induction cols as [|c cols IH]; intros vs vs' pre Hnd Hl Hl' Hs Hpre.
  - reflexivity.
  - destruct vs as [|v vs]; [discriminate|]. destruct vs' as [|v' vs']; [discriminate|].
    inversion Hnd as [|? ? Hc Hnd']; subst. inversion Hs as [|? ? Hv' Hs']; subst.
    simpl in Hl, Hl'. cbn [map combine merge_items].
    assert (Hm : merge_item (pre ++ (PStr c, v) :: combine (map PStr cols) vs) (PStr c) v' =
                 Returned (pre ++ (PStr c, v') :: combine (map PStr cols) vs)).
    { assert (Hset : dict_set (pre ++ (PStr c, v) :: combine (map PStr cols) vs) (PStr c) v' =
                     pre ++ (PStr c, v') :: combine (map PStr cols) vs).
      { rewrite dict_set_app_miss by (intros k0 H0; apply Hpre; simpl; auto).
        simpl. now rewrite String.eqb_refl. }
      unfold merge_item. destruct v'; try discriminate; now rewrite Hset. }
    rewrite Hm. cbn [bind].
    replace (pre ++ (PStr c, v') :: combine (map PStr cols) vs)
      with ((pre ++ [(PStr c, v')]) ++ combine (map PStr cols) vs)
      by now rewrite <- app_assoc.
    rewrite IH; try assumption; try lia.
    + now rewrite <- app_assoc.
    + intros k0 c0 H0 Hc0. unfold dict_keys in H0. rewrite map_app in H0.
      apply in_app_or in H0. destruct H0 as [H0|[<-|[]]].
      * apply Hpre; simpl; auto.
      * simpl. destruct (String.eqb_spec c c0) as [->|]; [contradiction | reflexivity].
Qed.

Lemma dict_set_In (d : pydict) (k v key val : pyval) :
  In (key, val) (dict_set d k v) -> In (key, val) d \/ val = v.
Proof.
  induction d as [|[k0 v0] d IH]; simpl.
  - intros [E|[]]. injection E as _ <-. now right.
  - destruct (key_eqb k0 k); simpl.
    + intros [E|H]; [injection E as _ <-; now right | left; now right].
    + intros [E|H]; [left; now left|].
      destruct (IH H); [left; now right | now right].
Qed.

(** The row loop keyed by one column whose cells are scalar: every row
    stores its entry under its key cell. *)
Lemma rows_loop_one_key (cols : list string) (k : string) :
  NoDup cols -> In k cols ->
  forall (rs : list (list pyval)) (idx : Z) (d : pydict),
    Forall (fun row => length cols <= length row /\
                       Forall (fun v => hashable v = true) (firstn (length cols) row)) rs ->
    (forall key val, In (key, val) d ->
       exists vs, val = PDict (combine (map PStr cols) vs) /\ length vs = length cols) ->
    rows_loop cols (Some [k]) rs idx (PDict d) =
    Returned (PDict (fold_left
                       (fun d row => dict_set d (cell cols row k) (PDict (row_entry cols row)))
                       rs d)).
Proof.
  intros Hnd Hk. induction rs as [|row rs IH]; intros idx d Hall Hinv; [reflexivity|].
  inversion Hall as [|? ? [Hlen Hsc] Hall']; subst.
  cbn [rows_loop fold_left]. rewrite (fill_entry_row_entry cols row Hnd Hlen). cbn [bind].
  destruct (row_entry_get cols row k Hnd Hlen Hk) as [v [Hv Hvin]].
  assert (Hcell : cell cols row k = v) by (unfold cell; now rewrite Hv).
  assert (Hhash : hashable v = true) by (rewrite Forall_forall in Hsc; now apply Hsc).
  unfold build_new_dict. cbn [last removelast str_in existsb key_values].
  rewrite Hv, Hhash. cbn [bind nest]. rewrite deepupdate_unfold. cbn [merge_items].
  assert (Hm : merge_item d v (PDict (row_entry cols row)) =
               Returned (dict_set d v (PDict (row_entry cols row)))).
  { unfold merge_item. destruct (dict_get d v) as [tv|] eqn:Hget; [| reflexivity].
    assert (Hin : exists key, In (key, tv) d).
    { clear -Hget. induction d as [|[k0 v0] d IHd]; simpl in Hget; [discriminate|].
      destruct (key_eqb k0 v).
      - injection Hget as <-. exists k0. now left.
      - destruct (IHd Hget) as [key Hkey]. exists key. now right. }
    destruct Hin as [key Hin]. destruct (Hinv key tv Hin) as [vs [-> Hvs]].
    rewrite deepupdate_unfold.
    unfold row_entry.
    pose proof (merge_items_overwrite cols vs (firstn (length cols) row) []) as Ho.
    cbn [app] in Ho. rewrite Ho; try assumption; try reflexivity.
    - rewrite length_firstn. lia.
    - intros k0 c []. }
  rewrite Hm. cbn [bind]. rewrite Hcell. apply IH; [assumption|].
  intros key val Hin. apply dict_set_In in Hin. destruct Hin as [Hin| ->].
  - exact (Hinv key val Hin).
  - exists (firstn (length cols) row). split; [reflexivity|].
    rewrite length_firstn. lia.
Qed.

Lemma dict_get_none_of_keys (d : pydict) (k : pyval) :
  (forall k0, In k0 (dict_keys d) -> key_eqb k0 k = false) -> dict_get d k = None.
Proof.
  induction d as [|[k0 v0] d IH]; intros H; simpl; [reflexivity|].
  rewrite (H k0) by (simpl; auto). apply IH. intros x Hx. apply H. simpl. auto.
Qed.

Section FoldDictSet.

Variables (R : Type) (kf vf : R -> pyval).

Let store (d : pydict) (row : R) : pydict := dict_set d (kf row) (vf row).

Lemma fold_dict_set_untouched (rs : list R) (key : pyval) :
  forall d : pydict,
    (forall row, In row rs -> key_eqb (kf row) key = false) ->
    dict_get (fold_left store rs d) key = dict_get d key.
Proof.
  induction rs as [|r rs IH]; intros d H; simpl; [reflexivity|].
  rewrite IH by (intros row Hrow; apply H; now right).
  unfold store. now rewrite dict_get_dict_set, (H r) by now left.
Qed.

(** Storing row after row leaves, under a key, the value of the last row
    with that key. *)
Lemma fold_dict_set_last (rs : list R) :
  forall (d : pydict) (i : nat) (row : R),
    nth_error rs i = Some row ->
    (forall j row', i < j -> nth_error rs j = Some row' ->
                    key_eqb (kf row') (kf row) = false) ->
    key_eqb (kf row) (kf row) = true ->
    dict_get (fold_left store rs d) (kf row) = Some (vf row).
Proof.
  induction rs as [|r rs IH]; intros d i row Hi Hlast Hrefl; [destruct i; discriminate|].
  destruct i as [|i]; simpl in Hi |- *.
  - injection Hi as ->. rewrite fold_dict_set_untouched.
    + unfold store. now rewrite dict_get_dict_set, Hrefl.
    + intros row' Hin. destruct (In_nth_error _ _ Hin) as [j Hj].
      apply (Hlast (S j) row'); [lia | exact Hj].
  - apply (IH _ i row Hi); [| assumption].
    intros j row' Hlt Hj. apply (Hlast (S j) row'); [lia | exact Hj].
Qed.

Lemma fold_dict_set_keys (rs : list R) :
  forall d : pydict,
    length (fold_left store rs d) <= length d + length rs /\
    forall key, In key (dict_keys (fold_left store rs d)) ->
                In key (dict_keys d) \/ exists row, In row rs /\ key = kf row.
Proof.
  induction rs as [|r rs IH]; intros d; simpl.
  - split; [lia | auto].
  - destruct (IH (store d r)) as [Hlen Hkeys].
    assert (Hk : dict_keys (store d r) = dict_keys d \/
                 dict_keys (store d r) = dict_keys d ++ [kf r]).
    { unfold store. rewrite dict_keys_dict_set. destruct (dict_mem d (kf r)); auto. }
    assert (Hl : length (store d r) <= S (length d)).
    { unfold dict_keys in Hk.
      destruct Hk as [Hk|Hk]; apply (f_equal (@length pyval)) in Hk;
        rewrite ?length_app, !length_map in Hk; simpl in Hk; lia. }
    split; [lia|].
    intros key Hin. destruct (Hkeys key Hin) as [H|[row [Hrow ->]]].
    + destruct Hk as [Hk|Hk]; rewrite Hk in H; [now left|].
      apply in_app_or in H. destruct H as [H|[<-|[]]]; [now left|].
      right. exists r. split; [now left | reflexivity].
    + right. exists row. split; [now right | reflexivity].
Qed.

End FoldDictSet.

(** X5. Keyed by one column of a table whose cells are all scalars,
    [convert_result_to_dict] returns a dict with at most one item per row,
    every key the key cell of some row, in which the key cell of a row maps
    to that row's entry unless a later row has the same key cell: of rows
    that share a key, the last one is kept. *)
Theorem convert_result_to_dict_one_key (cols : list string) (k : string)
  (rs : list (list pyval)) :
  NoDup cols -> In k cols ->
  Forall (fun row => length cols <= length row /\
                     Forall (fun v => hashable v = true) (firstn (length cols) row)) rs ->
  exists d : pydict,
    convert_result_to_dict (mk_raw cols (Some rs)) (Some [k]) = Returned (PDict d) /\
    length d <= length rs /\
    (forall key, In key (dict_keys d) ->
                 exists row, In row rs /\ key = cell cols row k) /\
    forall (i : nat) (row : list pyval),
      nth_error rs i = Some row ->
      (forall j row', i < j -> nth_error rs j = Some row' ->
                      key_eqb (cell cols row' k) (cell cols row k) = false) ->
      dict_get d (cell cols row k) = Some (PDict (row_entry cols row)).
Proof.
  intros Hnd Hk Hall.
  set (kf := fun row : list pyval => cell cols row k).
  set (vf := fun row : list pyval => PDict (row_entry cols row)).
  exists (fold_left (fun d row => dict_set d (kf row) (vf row)) rs []).
  destruct (fold_dict_set_keys _ kf vf rs []) as [Hlen Hkeys].
  repeat split.
  - unfold convert_result_to_dict. cbn [columns rows].
    rewrite check_key_names_ok by (intros x [<-|[]]; assumption). cbn [bind].
    destruct rs as [|row rs]; [reflexivity|].
    rewrite (rows_loop_one_key cols k Hnd Hk (row :: rs) 0 []); [reflexivity | assumption|].
    intros key val [].
  - simpl in Hlen. exact Hlen.
  - intros key Hin. destruct (Hkeys key Hin) as [[]|H]. exact H.
  - intros i row Hi Hlast.
    apply (fold_dict_set_last _ kf vf rs [] i row Hi Hlast).
    unfold kf. apply hashable_key_eqb_refl.
    assert (Hrow : In row rs) by (eapply nth_error_In; eassumption).
    rewrite Forall_forall in Hall. destruct (Hall row Hrow) as [Hlen' Hsc].
    destruct (row_entry_get cols row k Hnd Hlen' Hk) as [v [Hv Hvin]].
    unfold cell. rewrite Hv. rewrite Forall_forall in Hsc. now apply Hsc.
Qed.

Lemma convert_result_to_dict_one_key_witness :
  exists d : pydict,
    convert_result_to_dict (mk_raw ["a"; "b"] (Some sample_rows)) (Some ["a"]) =
    Returned (PDict d) /\
    length d <= 3 /\
    (forall key, In key (dict_keys d) ->
                 exists row, In row sample_rows /\ key = cell ["a"; "b"] row "a") /\
    forall (i : nat) (row : list pyval),
      nth_error sample_rows i = Some row ->
      (forall j row', i < j -> nth_error sample_rows j = Some row' ->
                      key_eqb (cell ["a"; "b"] row' "a") (cell ["a"; "b"] row "a") = false) ->
      dict_get d (cell ["a"; "b"] row "a") = Some (PDict (row_entry ["a"; "b"] row)).
Proof.
  apply (convert_result_to_dict_one_key ["a"; "b"] "a" sample_rows).
  - repeat constructor; simpl; intuition discriminate.
  - simpl. auto.
  - repeat constructor; simpl; lia.
Defined.

Lemma key_values_cells (cols : list string) (row : list pyval) (names : list string) :
  NoDup cols -> length cols <= length row ->
  (forall k, In k names -> In k cols /\ hashable (cell cols row k) = true) ->
  key_values (row_entry cols row) names = Returned (map (cell cols row) names).
Proof.
  intros Hnd Hlen. induction names as [|nm names IH]; intros H; simpl; [reflexivity|].
  destruct (H nm (or_introl eq_refl)) as [Hin Hh].
  destruct (row_entry_get cols row nm Hnd Hlen Hin) as [v [Hv _]].
  unfold cell in Hh |- *. rewrite Hv in Hh |- *. rewrite Hh.
  fold (cell cols row). rewrite IH by (intros k Hk; apply H; now right).
  reflexivity.
Qed.

Lemma nest_is_dict (kvs : list pyval) (entry : pydict) :
  exists d, nest kvs entry = PDict d.
Proof. destruct kvs; simpl; eexists; reflexivity. Qed.

Lemma rows_loop_distinct_keys (cols : list string) (k1 : string) (ks : list string) :
  NoDup cols ->
  str_in (last (k1 :: ks) "") (removelast (k1 :: ks)) = false ->
  forall (rs : list (list pyval)) (idx : Z) (d : pydict),
    Forall (fun row => length cols <= length row /\
                       forall k, In k (k1 :: ks) ->
                                 In k cols /\ hashable (cell cols row k) = true) rs ->
    ForallOrdPairs (fun r r' => key_eqb (cell cols r k1) (cell cols r' k1) = false) rs ->
    (forall key row, In key (dict_keys d) -> In row rs ->
                     key_eqb key (cell cols row k1) = false) ->
    rows_loop cols (Some (k1 :: ks)) rs idx (PDict d) =
    Returned (PDict (d ++ map (fun row => (cell cols row k1,
                                           nest (map (cell cols row) ks) (row_entry cols row)))
                              rs)).
Proof.
  intros Hnd Hna. induction rs as [|row rs IH]; intros idx d Hall Hpair Hd.
  - simpl. now rewrite app_nil_r.
  - inversion Hall as [|? ? [Hlen Hkeys] Hall']; subst.
    inversion Hpair as [|? ? Hrow Hpair']; subst.
    cbn [rows_loop]. rewrite (fill_entry_row_entry cols row Hnd Hlen). cbn [bind].
    unfold build_new_dict. rewrite Hna.
    rewrite (key_values_cells cols row (k1 :: ks) Hnd Hlen Hkeys). cbn [bind map nest].
    rewrite deepupdate_unfold. cbn [merge_items].
    assert (Hm : merge_item d (cell cols row k1)
                   (nest (map (cell cols row) ks) (row_entry cols row)) =
                 Returned (d ++ [(cell cols row k1,
                                  nest (map (cell cols row) ks) (row_entry cols row))])).
    { assert (Hnone : dict_get d (cell cols row k1) = None).
      { apply dict_get_none_of_keys. intros k0 H0. apply Hd; [assumption | now left]. }
      destruct (nest_is_dict (map (cell cols row) ks) (row_entry cols row)) as [x ->].
      unfold merge_item. now rewrite Hnone, dict_set_fresh. }
    rewrite Hm. cbn [bind]. rewrite IH; try assumption.
    + cbn [map]. now rewrite <- app_assoc.
    + intros key row' Hkey Hrow'. unfold dict_keys in Hkey. rewrite map_app in Hkey.
      apply in_app_or in Hkey. destruct Hkey as [Hkey|[<-|[]]].
      * apply Hd; [assumption | now right].
      * cbn [fst]. rewrite Forall_forall in Hrow. now apply Hrow.
Qed.

(** X4. Keyed by columns [k1, ..., kn] (the last of which is not also an
    earlier one) on a table whose key cells hash and whose cells under [k1]
    differ from row to row, [convert_result_to_dict] returns one item per
    row, in row order: the row's cell under [k1] mapped to the dicts nested
    along its cells under [k2..kn], the innermost holding the row's
    entry. *)
Theorem convert_result_to_dict_distinct_keys (cols : list string) (k1 : string)
  (ks : list string) (rs : list (list pyval)) :
  NoDup cols ->
  str_in (last (k1 :: ks) "") (removelast (k1 :: ks)) = false ->
  Forall (fun row => length cols <= length row /\
                     forall k, In k (k1 :: ks) ->
                               In k cols /\ hashable (cell cols row k) = true) rs ->
  ForallOrdPairs (fun r r' => key_eqb (cell cols r k1) (cell cols r' k1) = false) rs ->
  rs <> [] ->
  convert_result_to_dict (mk_raw cols (Some rs)) (Some (k1 :: ks)) =
  Returned (PDict (map (fun row => (cell cols row k1,
                                    nest (map (cell cols row) ks) (row_entry cols row)))
                       rs)).
Proof.
  intros Hnd Hna Hall Hpair Hne.
  destruct rs as [|row rs]; [contradiction|].
  unfold convert_result_to_dict. cbn [columns rows].
  rewrite check_key_names_ok.
  - cbn [bind].
    now rewrite (rows_loop_distinct_keys cols k1 ks Hnd Hna (row :: rs) 0 [] Hall Hpair)
      by (intros key r []).
  - inversion Hall as [|? ? [_ Hk] _]; subst. intros k Hin. now apply Hk.
Qed.

Lemma convert_result_to_dict_distinct_keys_witness :
  convert_result_to_dict sample_raw (Some ["a"; "b"]) =
  Returned
    (PDict [(PInt 1, PDict [(PInt 2, PDict [(PStr "a", PInt 1); (PStr "b", PInt 2)])]);
            (PInt 3, PDict [(PInt 4, PDict [(PStr "a", PInt 3); (PStr "b", PInt 4)])])]).
Proof.
  apply (convert_result_to_dict_distinct_keys ["a"; "b"] "a" ["b"]
           [[PInt 1; PInt 2]; [PInt 3; PInt 4]]).
  - repeat constructor; simpl; intuition discriminate.
  - reflexivity.
  - repeat (apply Forall_cons || apply Forall_nil);
      (split; [simpl; lia | intros k [<-|[<-|[]]]; split; simpl; auto]).
  - repeat constructor.
  - discriminate.
Defined.

(** ** [convert_result_to_dict]: edges *)

Lemma fill_entry_short (cols : list string) (row : list pyval) :
  forall (idx : nat) (entry : pydict),
    idx <= length row -> length row < idx + length cols ->
    fill_entry cols row idx entry = Raised IndexError.
Proof.
  induction cols as [|c cols IH]; intros idx entry Hle H; simpl in *; [lia|].
  destruct (nth_error row idx) as [v|] eqn:Hv; [| reflexivity].
  assert (idx < length row) by (apply nth_error_Some; congruence).
  apply IH; lia.
Qed.

Lemma fill_entry_long (cols : list string) (row : list pyval) :
  forall (idx : nat) (entry : pydict),
    idx + length cols <= length row ->
    exists e, fill_entry cols row idx entry = Returned e.
Proof.
  induction cols as [|c cols IH]; intros idx entry H; simpl in *.
  - now exists entry.
  - destruct (nth_error row idx) as [v|] eqn:Hv.
    + apply IH. lia.
    + apply nth_error_None in Hv. lia.
Qed.

Lemma rows_loop_short_row (cols : list string) (pre : list (list pyval))
  (row : list pyval) (post : list (list pyval)) :
  forall (idx : Z) (d : pydict),
    Forall (fun r => length cols <= length r) pre ->
    length row < length cols ->
    rows_loop cols None (pre ++ row :: post) idx (PDict d) = Raised IndexError.
Proof.
  induction pre as [|r pre IH]; intros idx d Hpre Hrow; simpl.
  - now rewrite fill_entry_short by (simpl; lia).
  - inversion Hpre as [|? ? Hr Hpre']; subst.
    destruct (fill_entry_long cols r 0 []) as [e ->]; [simpl; lia|].
    simpl. now apply IH.
Qed.

(** X6. With no key names, the first row that has fewer cells than there
    are columns makes [convert_result_to_dict] raise [IndexError]; the rows
    before it give no partial result. *)
Theorem convert_result_to_dict_short_row (cols : list string)
  (pre : list (list pyval)) (row : list pyval) (post : list (list pyval)) :
  Forall (fun r => length cols <= length r) pre ->
  length row < length cols ->
  convert_result_to_dict (mk_raw cols (Some (pre ++ row :: post))) None =
  Raised IndexError.
Proof.
  intros Hpre Hrow. unfold convert_result_to_dict. cbn [bind columns rows].
  destruct (pre ++ row :: post) as [|x l] eqn:E.
  - destruct pre; discriminate.
  - rewrite <- E. now apply rows_loop_short_row.
Qed.

Lemma convert_result_to_dict_short_row_witness :
  convert_result_to_dict
    (mk_raw ["a"; "b"] (Some ([[PInt 1; PInt 2]] ++ [PInt 3] :: []))) None =
  Raised IndexError.
Proof.
  apply (convert_result_to_dict_short_row ["a"; "b"] [[PInt 1; PInt 2]] [PInt 3] []).
  - repeat constructor.
  - simpl. lia.
Defined.

(** X7. A raw result whose [rows] are absent or empty is reshaped to the
    empty dict, with no key names or with any key names that are columns. *)
Theorem convert_result_to_dict_no_rows (cols : list string)
  (key_names : option (list string)) (rs : option (list (list pyval))) :
  rs = None \/ rs = Some [] ->
  (forall names k, key_names = Some names -> In k names -> In k cols) ->
  convert_result_to_dict (mk_raw cols rs) key_names = Returned (PDict []).
Proof.
  intros Hrs Hk. unfold convert_result_to_dict. cbn [columns rows].
  assert (Hc : match key_names with
               | Some ((_ :: _) as names) => check_key_names names cols
               | _ => Returned tt
               end = Returned tt).
  { destruct key_names as [[|k names]|]; try reflexivity.
    apply check_key_names_ok. intros x Hx. now apply (Hk (k :: names)). }
  rewrite Hc. cbn [bind]. now destruct Hrs as [-> | ->].
Qed.

Lemma convert_result_to_dict_no_rows_witness :
  convert_result_to_dict (mk_raw ["a"; "b"] None) (Some ["b"; "a"]) =
  Returned (PDict []).
Proof.
  apply (convert_result_to_dict_no_rows ["a"; "b"] (Some ["b"; "a"]) None).
  - now left.
  - intros names k E Hk. injection E as <-. simpl in *. intuition.
Defined.

(** ** The client object *)

Lemma find_db_by_id_None (l : list IqDatabase) : find_db_by_id l None = None.
Proof. induction l; simpl; auto. Qed.

(** X8. [find_db_by_id] returns the first database of the list with the
    given id; it returns [None] for no id, for the empty id (even when a
    database has the empty id) and when no database has the id. *)
Theorem find_db_by_id_first_match (l : list IqDatabase) (i : option string) :
  match find_db_by_id l i with
  | Some db =>
      exists s pre post,
        i = Some s /\ s <> "" /\ l = pre ++ db :: post /\ id db = s /\
        forall x, In x pre -> id x <> s
  | None =>
      i = None \/ i = Some "" \/ forall db, In db l -> Some (id db) <> i
  end.
Proof.
  destruct i as [s|]; [| rewrite find_db_by_id_None; now left].
  destruct (String.eqb_spec s "") as [->|Hs].
  - assert (H : find_db_by_id l (Some "") = None) by (induction l; simpl; auto).
    rewrite H. right. now left.
  - induction l as [|d l IH]; simpl.
    + right. right. intros db [].
    + destruct (String.eqb_spec s "") as [|_]; [contradiction|]. simpl.
      destruct (String.eqb_spec s (id d)) as [E|E].
      * exists s, [], l. repeat split; auto.
      * destruct (find_db_by_id l (Some s)) as [db|].
        -- destruct IH as [s' [pre [post [E1 [E2 [E3 [E4 E5]]]]]]].
           injection E1 as <-.
           exists s, (d :: pre), post. repeat split; auto.
           ++ now rewrite E3.
           ++ intros x [<-|Hx]; [congruence | now apply E5].
        -- right. right. destruct IH as [IH|[IH|IH]]; try discriminate.
           ++ injection IH as ->. contradiction.
           ++ intros db [<-|Hdb]; [congruence | now apply IH].
Qed.

(** X9. A client given an STC API instance that is true in a condition
    cannot be constructed: the constructor raises [NameError] for [stc] in
    [subscribe], or [TypeError] before that when the definitions file fails
    to load. *)
Theorem new_client_with_stc_raises (dateutil_parse : string -> result datetime)
  (http : http_client) (fetch : string -> result db_info_t)
  (iq_server_ip : option string) (iq_server_port : Z)
  (definitions_file : option (result pyval)) (api : stc_api) :
  stc_true api = Returned true ->
  new_client dateutil_parse http fetch iq_server_ip iq_server_port
    definitions_file (Some api) =
  match definitions_file with
  | None | Some (Returned _) => Raised (NameError "stc")
  | Some _ => Raised TypeError
  end.
Proof.
  intros Htrue. unfold new_client, subscribe. rewrite Htrue.
  destruct definitions_file as [[v|e|]|]; reflexivity.
Qed.

Lemma new_client_with_stc_raises_witness :
  new_client sample_parse sample_http sample_fetch (Some "10.0.0.1") 9199 None
    (Some (mk_stc (Returned true)
                  (fun _ _ => Returned (PStr "l5ixqul3p5axfgzq")))) =
  Raised (NameError "stc").
Proof.
  apply (new_client_with_stc_raises sample_parse sample_http sample_fetch
           (Some "10.0.0.1") 9199 None
           (mk_stc (Returned true) (fun _ _ => Returned (PStr "l5ixqul3p5axfgzq")))).
  reflexivity.
Defined.

(** X10. A client that was constructed was given a server address and
    either no STC API instance or one that is false in a condition.  It
    holds that instance; its database list is the one
    [refresh_database_list] builds from its URL; its current database is the
    first listed database whose id is the session's result database id, and
    there is none when there is no instance. *)
Theorem new_client_returned (dateutil_parse : string -> result datetime)
  (http : http_client) (fetch : string -> result db_info_t)
  (iq_server_ip : option string) (iq_server_port : Z)
  (definitions_file : option (result pyval)) (stc : option stc_api) (c : client) :
  new_client dateutil_parse http fetch iq_server_ip iq_server_port
    definitions_file stc = Returned c ->
  (stc = None \/ exists api, stc = Some api /\ stc_true api = Returned false) /\
  stc_instance c = stc /\
  current_db c = find_db_by_id (db_list c) (as_id (get_session_db_id stc)) /\
  (stc = None -> current_db c = None) /\
  (exists ip, iq_server_ip = Some ip /\ ip <> "" /\
              spirent_iq_rest_api_url (iq c) =
              "http://" +++ ip +++ ":" +++
              NilZero.string_of_int (Z.to_int iq_server_port)) /\
  refresh_database_list (iq c) stc fetch = (db_list c, Returned tt).
Proof.
  unfold new_client. intros H.
  assert (Hstc : stc = None \/ exists api, stc = Some api /\ stc_true api = Returned false).
  { destruct stc as [api|]; [| now left]. right. exists api. split; [reflexivity|].
    destruct definitions_file as [[v|e|]|]; cbn [bind] in H; try discriminate;
      unfold subscribe in H;
      (destruct (stc_true api) as [[|]| |]; cbn [bind] in H;
       try discriminate; reflexivity). }
  assert (Hsub : subscribe stc 15 "ALL" "ALL" = Returned PNone).
  { destruct Hstc as [->|[api [-> Hf]]]; [reflexivity|].
    unfold subscribe. now rewrite Hf. }
  rewrite Hsub in H.
  destruct definitions_file as [[v|e|]|]; cbn [bind] in H; try discriminate;
    (destruct iq_server_ip as [ip|]; cbn [nonempty] in H; try discriminate;
     destruct (String.eqb_spec ip "") as [|Hip]; try discriminate;
     match type of H with
     | context [refresh_database_list ?s stc fetch] =>
         destruct (refresh_database_list s stc fetch) as [dbs [[]| |]] eqn:Hr;
         try discriminate
     end;
     cbn [set_current_db bind] in H; injection H as <-;
     cbn [stc_instance current_db iq db_list spirent_iq_rest_api_url];
     repeat split; try assumption;
     [ intros ->; apply find_db_by_id_None
     | exists ip; repeat split; assumption ]).
Qed.

(** The condition of the catalogue loop, where it evaluates, holds exactly
    of the entries that name TestCenter. *)
Lemma is_testcenter_names (db_info : pyval) (b : bool) :
  is_testcenter db_info = Returned b -> names_testcenter db_info = b.
Proof.
  unfold is_testcenter, names_testcenter, application_name, subscript.
  destruct db_info as [| | | | |d]; try discriminate.
  destruct (dict_get d (PStr "metadata")) as [md|]; [| discriminate].
  cbn [bind]. destruct md as [| | | | |m]; try discriminate.
  destruct (dict_get m (PStr "application.name")) as [[| | |s| |]|];
    intros H; now injection H as <-.
Qed.

Lemma db_list_loop_spec (stc : option stc_api) (fetch : string -> result db_info_t)
  (infos : list pyval) :
  forall acc l' : list IqDatabase,
    db_list_loop stc fetch infos acc = (l', Returned tt) ->
    exists new,
      l' = acc ++ new /\
      Forall2 (fun info db =>
                 exists i, subscript info "id" = Returned i /\
                           new_database_from stc fetch i = Returned db)
              (filter names_testcenter infos) new.
Proof.
  induction infos as [|info infos IH]; intros acc l' H; simpl in H.
  - injection H as <-. exists []. rewrite app_nil_r. split; [reflexivity | constructor].
  - assert (Hf : filter names_testcenter (info :: infos) =
                 if names_testcenter info then info :: filter names_testcenter infos
                 else filter names_testcenter infos) by reflexivity.
    rewrite Hf.
    destruct (is_testcenter info) as [[|]| |] eqn:Htc; try discriminate;
      rewrite (is_testcenter_names _ _ Htc).
    + destruct (subscript info "id") as [i| |] eqn:Hi; cbn [bind] in H; try discriminate.
      destruct (new_database_from stc fetch i) as [db| |] eqn:Hdb; try discriminate.
      destruct (IH _ _ H) as [new [-> Hall]].
      exists (db :: new). rewrite <- app_assoc. split; [reflexivity|].
      constructor; [| assumption].
      exists i. now split.
    + destruct (IH _ _ H) as [new [-> Hall]].
      exists new. now split.
Qed.

(** X11. When [refresh_database_list] succeeds, the database list holds,
    in catalogue order, exactly one database for each catalogue entry whose
    metadata names the application [TestCenter], built from that entry's
    id; entries that name another application or none are left out. *)
Theorem refresh_database_list_filters (self : SpirentTestCenterIQ)
  (stc : option stc_api) (fetch : string -> result db_info_t)
  (dbs : list IqDatabase) :
  refresh_database_list self stc fetch = (dbs, Returned tt) ->
  exists all_db_info infos,
    execute self "get" "databases?detail=summary" None = Returned all_db_info /\
    py_iter all_db_info = Returned infos /\
    Forall2 (fun info db =>
               exists i, subscript info "id" = Returned i /\
                         new_database_from stc fetch i = Returned db)
            (filter names_testcenter infos) dbs.
Proof.
  unfold refresh_database_list. intros H.
  destruct (execute self "get" "databases?detail=summary" None) as [all| |];
    cbn [bind] in H; try discriminate.
  destruct (py_iter all) as [infos| |] eqn:Hit; try discriminate.
  destruct (db_list_loop_spec _ _ _ _ _ H) as [new [-> Hall]].
  exists all, infos. repeat split; assumption.
Qed.

Lemma refresh_database_list_filters_witness :
  exists infos,
    py_iter sample_catalogue = Returned infos /\
    length infos = 3 /\
    Forall2 (fun info db =>
               exists i, subscript info "id" = Returned i /\
                         new_database_from None sample_fetch i = Returned db)
            (filter names_testcenter infos) [sample_database].
Proof.
  destruct (refresh_database_list_filters sample_service None sample_fetch
              [sample_database]) as [all [infos [Hex [Hit Hall]]]].
  - vm_compute. reflexivity.
  - assert (Hall' : all = sample_catalogue).
    { vm_compute in Hex. now injection Hex as <-. }
    subst all. exists infos. repeat split; try assumption.
    vm_compute in Hit. now injection Hit as <-.
Defined.

Lemma new_client_returned_witness :
  let stc := Some (mk_stc (Returned false)
                          (fun _ _ => Returned (PStr "l5ixqul3p5axfgzq"))) in
  exists c : client,
    new_client sample_parse sample_http sample_fetch (Some "10.0.0.1") 9199 None stc =
    Returned c /\
    stc_instance c = stc /\
    db_list c = [sample_database] /\
    current_db c = Some sample_database.
Proof.
  intros stc.
  eassert (H : new_client sample_parse sample_http sample_fetch (Some "10.0.0.1") 9199
                 None stc = Returned _) by (vm_compute; reflexivity).
  destruct (new_client_returned sample_parse sample_http sample_fetch
              (Some "10.0.0.1") 9199 None stc _ H) as [_ [Hs [Hc _]]].
  eexists. split; [exact H|]. split; [exact Hs|]. split; [reflexivity|].
  rewrite Hc. vm_compute. reflexivity.
Defined.

(** ** Transport *)

(** X12. A method name that is none of get, put, post, delete and head,
    whatever its case, makes [__execute] raise [UnboundLocalError] for
    [response]; no request is sent, the outcome being the same for every
    HTTP client. *)
Theorem execute_unsupported_method (self : SpirentTestCenterIQ)
  (cmdtype url : string) (payload : option pyval) (base : string) :
  get_result_url self = Returned base ->
  ~ In (lower cmdtype) ["get"; "put"; "post"; "delete"; "head"] ->
  execute self cmdtype url payload = Raised (UnboundLocalError "response").
Proof.
  intros Hbase Hm. unfold execute. rewrite Hbase. cbn [bind].
  unfold send_request.
  repeat match goal with
         | |- context [String.eqb (lower cmdtype) ?m] =>
             destruct (String.eqb_spec (lower cmdtype) m) as [E|_];
             [exfalso; apply Hm; rewrite E; simpl; tauto|]
         end.
  reflexivity.
Qed.

Lemma execute_unsupported_method_witness :
  execute sample_service "PATCH" "databases" None =
  Raised (UnboundLocalError "response").
Proof.
  apply (execute_unsupported_method sample_service "PATCH" "databases" None
           "http://10.0.0.1:9199").
  - reflexivity.
  - simpl. intuition discriminate.
Defined.

(** X13. Whatever the status code, a response whose body is not JSON makes
    [__execute] raise the decoding [ValueError]: the status code is never
    returned in its place. *)
Theorem execute_body_not_json (self : SpirentTestCenterIQ) (cmdtype url : string)
  (payload : option pyval) (base : string) (r : response) :
  get_result_url self = Returned base ->
  send_request self cmdtype (base +++ "/" +++ url) payload = Returned (Some r) ->
  json_body r = None ->
  execute self cmdtype url payload = Raised ValueError.
Proof.
  intros Hbase Hsend Hbody.
  rewrite (execute_extract_json self cmdtype url payload base r Hbase Hsend).
  unfold extract_json. now rewrite Hbody.
Qed.

Lemma execute_body_not_json_witness :
  execute (mk_iq "http://10.0.0.1:9199" (fun _ _ _ => Returned (mk_response 200 None)))
          "head" "databases" None = Raised ValueError.
Proof.
  apply (execute_body_not_json _ "head" "databases" None "http://10.0.0.1:9199"
           (mk_response 200 None)); reflexivity.
Defined.

(** The request [execute_query] makes, and what it answers. *)
Lemma execute_query_request (self : SpirentTestCenterIQ) (query : pyval)
  (mode : string) (db_id : pyval) (base : string) (r : response) :
  get_result_url self = Returned base ->
  requests self "post" (base +++ "/queries") (Some (full_query query mode db_id)) =
  Returned r ->
  execute_query self query mode db_id = extract_json r.
Proof.
  intros Hbase Hreq. unfold execute_query.
  apply (execute_extract_json self "post" "queries" _ base r Hbase).
  unfold send_request. cbn. unfold full_query in Hreq. now rewrite Hreq.
Qed.

(** X14. [execute_query] sends one [POST] to [<base>/queries] whose body is
    [{database: {id}, mode, definition}] and returns the parsed body of the
    answer, whatever its status code. *)
Theorem execute_query_posts (self : SpirentTestCenterIQ) (query : pyval)
  (mode : string) (db_id : pyval) (base : string) (r : response) :
  get_result_url self = Returned base ->
  requests self "post" (base +++ "/queries") (Some (full_query query mode db_id)) =
  Returned r ->
  execute_query self query mode db_id = extract_json r.
Proof. exact (execute_query_request self query mode db_id base r). Qed.

Lemma execute_query_posts_witness :
  execute_query sample_service sample_view "once" (PStr "l5ixqul3p5axfgzq") =
  extract_json (mk_response 200 (Some sample_snapshots)).
Proof.
  apply (execute_query_posts sample_service sample_view "once"
           (PStr "l5ixqul3p5axfgzq") "http://10.0.0.1:9199"); reflexivity.
Defined.

(** ** Views and snapshots *)

Lemma view_lines_strings (ks : list pyval) :
  Forall (fun k => exists s, k = PStr s) ks ->
  view_lines ks = (map view_line ks, Returned tt).
Proof.
  induction 1 as [|k ks [s ->] _ IH]; simpl; [reflexivity|].
  now rewrite IH.
Qed.

(** X15. For a view name that the definitions do not hold,
    [execute_view_query] returns [None] and prints the error line followed by
    one indented line per defined view, in the order of the definitions; it
    sends nothing, the outcome being the same for every service and
    database id. *)
Theorem execute_view_query_unknown (svc : SpirentTestCenterIQ) (defs : pydict)
  (stc : option stc_api) (dbs : list IqDatabase) (cur : option IqDatabase)
  (view_name : string) (db_id : option pyval) :
  dict_get defs (PStr view_name) = None ->
  Forall (fun k => exists s, k = PStr s) (dict_keys defs) ->
  execute_view_query (mk_client svc (PDict defs) stc dbs cur) view_name db_id =
  (("ERROR: The view '" +++ view_name +++
    "' is not defined. Please use one of the following views:")
     :: map view_line (dict_keys defs),
   Returned PNone).
Proof.
  intros Hget Hkeys. unfold execute_view_query. cbn [query_definitions].
  rewrite Hget, (view_lines_strings _ Hkeys). reflexivity.
Qed.

Lemma execute_view_query_unknown_witness :
  execute_view_query sample_client "latency" None =
  (["ERROR: The view 'latency' is not defined. Please use one of the following views:";
    "  ports"; "  streams"],
   Returned PNone).
Proof.
  apply (execute_view_query_unknown sample_service
           [(PStr "ports", sample_view); (PStr "streams", sample_view)]
           None [sample_database] None "latency" None).
  - reflexivity.
  - repeat constructor; eexists; reflexivity.
Defined.

(** X16. For a defined view, [execute_view_query] prints nothing and
    returns the parsed body of the one [POST] to [<base>/queries] that carries
    the stored definition, the mode [once] and the given database id, the
    session's when none is given. *)
Theorem execute_view_query_known (svc : SpirentTestCenterIQ) (defs : pydict)
  (stc : option stc_api) (dbs : list IqDatabase) (cur : option IqDatabase)
  (view_name : string) (db_id : option pyval) (query : pyval) (base : string)
  (r : response) :
  dict_get defs (PStr view_name) = Some query ->
  get_result_url svc = Returned base ->
  requests svc "post" (base +++ "/queries")
    (Some (full_query query "once" (view_db_id stc db_id))) = Returned r ->
  execute_view_query (mk_client svc (PDict defs) stc dbs cur) view_name db_id =
  ([], extract_json r).
Proof.
  intros Hget Hbase Hreq. unfold execute_view_query.
  cbn [query_definitions stc_instance iq]. rewrite Hget. f_equal.
  rewrite <- (execute_query_request svc query "once" (view_db_id stc db_id) base r Hbase Hreq).
  f_equal. unfold view_db_id.
  destruct db_id as [[]|]; try reflexivity.
  now destruct (get_session_db_id stc).
Qed.

Lemma execute_view_query_known_witness :
  execute_view_query sample_client "ports" (Some (PStr "l5ixqul3p5axfgzq")) =
  ([], extract_json (mk_response 200 (Some sample_snapshots))).
Proof.
  apply (execute_view_query_known sample_service
           [(PStr "ports", sample_view); (PStr "streams", sample_view)]
           None [sample_database] None "ports" (Some (PStr "l5ixqul3p5axfgzq"))
           sample_view "http://10.0.0.1:9199"); reflexivity.
Defined.

Lemma first_cells_rows (rs : list pyval) :
  Forall (fun row => exists x l, row = PList (x :: l)) rs ->
  first_cells rs = Returned (map first_cell rs).
Proof.
  induction 1 as [|row rs [x [l ->]] _ IH]; simpl; [reflexivity|].
  now rewrite IH.
Qed.

(** X17. [get_snapshot_list] returns the first cell of every row of the
    answer, in order, when the rows are non-empty lists; an answer whose
    [result] has no [rows] makes it raise [KeyError], where
    [convert_result_to_dict] would see an empty table. *)
Theorem get_snapshot_list_first_cells (self : SpirentTestCenterIQ) (db : IqDatabase)
  (order : string) (answer : pyval) (res : pydict) :
  execute_query self (PDict [(PStr "multi_result", snapshot_query order)])
    "once" (PStr (id db)) = Returned answer ->
  subscript answer "result" = Returned (PDict res) ->
  (forall rs, dict_get res (PStr "rows") = Some (PList rs) ->
              Forall (fun row => exists x l, row = PList (x :: l)) rs ->
              get_snapshot_list self db order = Returned (map first_cell rs)) /\
  (dict_get res (PStr "rows") = None ->
   get_snapshot_list self db order = Raised (KeyError "rows")).
Proof.
  intros Hq Hres. unfold get_snapshot_list. rewrite Hq. cbn [bind].
  rewrite Hres. cbn [bind subscript]. split.
  - intros rs Hrows Hall. rewrite Hrows. cbn [bind py_iter].
    now apply first_cells_rows.
  - intros Hrows. now rewrite Hrows.
Qed.

Lemma get_snapshot_list_first_cells_witness :
  get_snapshot_list sample_service sample_database "DESC" =
  Returned [PStr "first"; PStr "second"].
Proof.
  destruct (get_snapshot_list_first_cells sample_service sample_database "DESC"
              sample_snapshots
              [(PStr "columns", PList [PStr "snapshot_name"; PStr "snapshot_number"]);
               (PStr "rows", PList [PList [PStr "first"; PInt 1];
                                    PList [PStr "second"; PInt 2]])])
    as [H _].
  - vm_compute. reflexivity.
  - reflexivity.
  - apply (H [PList [PStr "first"; PInt 1]; PList [PStr "second"; PInt 2]]).
    + reflexivity.
    + repeat constructor; do 2 eexists; reflexivity.
Defined.

(** ** Columns of a set *)

Lemma sdict_get_sdict_set {V : Type} (d : list (string * V)) (k k' : string) (v : V) :
  sdict_get (sdict_set d k v) k' =
  if String.eqb k k' then Some v else sdict_get d k'.
Proof.
  induction d as [|[k0 v0] d IH]; simpl; [reflexivity|].
  destruct (String.eqb_spec k0 k) as [->|Hne]; simpl.
  - now destruct (String.eqb k k').
  - rewrite IH. destruct (String.eqb_spec k k') as [<-|]; [| reflexivity].
    destruct (String.eqb_spec k0 k); [contradiction | reflexivity].
Qed.

Lemma find_append {A : Type} (f : A -> bool) (l l' : list A) :
  find f (l ++ l') = match find f l with Some x => Some x | None => find f l' end.
Proof.
  induction l as [|x l IH]; simpl; [reflexivity|]. now destruct (f x).
Qed.

Lemma populate_columns_spec (cols : list column) :
  forall acc : list string * list (string * column),
    fst (populate_columns cols acc) = fst acc ++ map column_name cols /\
    forall nm,
      sdict_get (snd (populate_columns cols acc)) nm =
      match last_column cols nm with
      | Some c => Some c
      | None => sdict_get (snd acc) nm
      end.
Proof.
  unfold last_column.
  induction cols as [|c cols IH]; intros acc; simpl.
  - now rewrite app_nil_r.
  - destruct (IH (fst acc ++ [column_name c],
                  sdict_set (snd acc) (column_name c) c)) as [H1 H2].
    split.
    + rewrite H1. simpl. now rewrite <- app_assoc.
    + intros nm. rewrite H2, find_append. simpl.
      destruct (find (fun c0 => String.eqb (column_name c0) nm) (rev cols));
        [reflexivity|].
      rewrite sdict_get_sdict_set. simpl.
      now destruct (String.eqb (column_name c) nm).
Qed.

(** X18. A set built from its metadata lists every declared column name,
    repeats included, in declaration order; [get_column_type] and its
    siblings answer with the field of the last declared column of the given
    name and raise the not-found exception for a name that was not
    declared. *)
Theorem get_column_field_declared (si : set_info_t) (field : column -> string)
  (nm : string) :
  column_list (new_result_set si) = map column_name (get_or_empty (facts si)) /\
  column_list (new_dimension_set si) = map column_name (get_or_empty (attributes si)) /\
  get_column_field field (new_result_set si) nm =
    match last_column (get_or_empty (facts si)) nm with
    | Some c => Returned (field c)
    | None => Raised (PyException ("The column '" +++ nm +++ "' was not found."))
    end /\
  get_column_field field (new_dimension_set si) nm =
    match last_column (get_or_empty (attributes si)) nm with
    | Some c => Returned (field c)
    | None => Raised (PyException ("The column '" +++ nm +++ "' was not found."))
    end.
Proof.
  unfold new_result_set, new_dimension_set, get_column_field. cbn [column_list column_info].
  destruct (populate_columns_spec (get_or_empty (facts si)) ([], [])) as [F1 F2].
  destruct (populate_columns_spec (get_or_empty (attributes si)) ([], [])) as [A1 A2].
  repeat split.
  - exact F1.
  - exact A1.
  - rewrite F2. now destruct (last_column (get_or_empty (facts si)) nm).
  - rewrite A2. now destruct (last_column (get_or_empty (attributes si)) nm).
Qed.

(** ** Set lists *)

Lemma second_pass_lists (l : list addr) :
  forall db : IqDatabase,
    let db' := fold_left refresh_related_set_info l db in
    set_list db' = set_list db /\
    result_set_list db' = result_set_list db /\
    dimension_set_list db' = dimension_set_list db /\
    info db' = info db /\
    length (heap db') = length (heap db).
Proof.
  induction l as [|a l IH]; intros db; simpl; [auto 6|].
  destruct (IH (refresh_related_set_info db a)) as [H1 [H2 [H3 [H4 H5]]]].
  rewrite H1, H2, H3, H4, H5. unfold refresh_related_set_info.
  destruct (nth_error (heap db) a) as [self|]; simpl; auto 6.
  repeat split; auto.
  clear. generalize (related_set_info db self) as x. revert a.
  induction (heap db) as [|y h IHh]; intros [|a] x; simpl; auto.
Qed.

(** X19. [refresh_set_list] appends: after it the list of result sets is the
    old list followed by one fresh address per declared result set, likewise
    for the dimension sets, and the set list is the two lists joined.  So a
    second call without [refresh] lists every set twice. *)
Theorem refresh_set_list_appends (db : IqDatabase) :
  let n := length (result_sets (info db)) in
  let m := length (dimension_sets (info db)) in
  let db' := refresh_set_list db in
  result_set_list db' = result_set_list db ++ seq (length (heap db)) n /\
  dimension_set_list db' = dimension_set_list db ++ seq (length (heap db) + n) m /\
  set_list db' = result_set_list db' ++ dimension_set_list db' /\
  length (set_list (refresh_set_list db')) =
  length (set_list db') + (n + m).
Proof.
  intros n m db'.
  assert (Hone : forall d : IqDatabase,
             result_set_list (refresh_set_list d) =
               result_set_list d ++ seq (length (heap d)) (length (result_sets (info d))) /\
             dimension_set_list (refresh_set_list d) =
               dimension_set_list d ++
               seq (length (heap d) + length (result_sets (info d)))
                   (length (dimension_sets (info d))) /\
             set_list (refresh_set_list d) =
               result_set_list (refresh_set_list d) ++
               dimension_set_list (refresh_set_list d) /\
             info (refresh_set_list d) = info d).
  { intros d. unfold refresh_set_list. rewrite !construct_sets_spec.
    rewrite length_app, length_map.
    match goal with
    | |- context [fold_left _ _ ?x] => set (d1 := x)
    end.
    destruct (second_pass_lists (set_list d1) d1) as [H1 [H2 [H3 [H4 _]]]].
    rewrite H1, H2, H3, H4. repeat split. }
  destruct (Hone db) as [H1 [H2 [H3 H4]]]. fold db' in H1, H2, H3, H4.
  repeat split; try assumption.
  destruct (Hone db') as [G1 [G2 [G3 G4]]].
  rewrite G3, G1, G2, H3, H4. rewrite !length_app, !length_seq. fold n m. lia.
Qed.

(** ** Looking sets up after [refresh] *)

Lemma index_of_None (nm : string) (l : list string) :
  index_of nm l = None <-> ~ In nm l.
Proof.
  induction l as [|x l IH]; simpl; [tauto|].
  destruct (String.eqb_spec x nm) as [->|Hne].
  - split; [discriminate | intros H; exfalso; apply H; now left].
  - destruct (index_of nm l); simpl.
    + split; [discriminate|]. intros H.
      assert (Hl : ~ In nm l) by tauto. apply IH in Hl. discriminate.
    + split; [| reflexivity]. intros _ [H|H]; [contradiction | now apply IH].
Qed.

Lemma index_of_Some (nm : string) (l : list string) :
  forall j, index_of nm l = Some j -> nth_error l j = Some nm.
Proof.
  induction l as [|x l IH]; intros j H; simpl in H; [discriminate|].
  destruct (String.eqb_spec x nm) as [->|Hne].
  - now injection H as <-.
  - destruct (index_of nm l) as [j'|]; [| discriminate].
    injection H as <-. simpl. now apply IH.
Qed.

(** Looking a name up in a run of freshly allocated objects. *)
Lemma find_in_set_list_fresh (nm : string) (objs : list IqSet) :
  forall h0 : list IqSet,
    find_in_set_list (h0 ++ objs) (seq (length h0) (length objs)) nm =
    option_map (Nat.add (length h0)) (index_of nm (map set_name objs)).
Proof.
  induction objs as [|x objs IH]; intros h0; [reflexivity|].
  simpl. rewrite nth_error_app2, Nat.sub_diag by lia. simpl.
  destruct (String.eqb_spec (set_name x) nm) as [Hx|Hx].
  - simpl. now rewrite Nat.add_0_r.
  - specialize (IH (h0 ++ [x])).
    rewrite <- app_assoc, length_app in IH. simpl in IH.
    rewrite Nat.add_1_r in IH. rewrite IH.
    destruct (index_of nm (map set_name objs)); simpl; [f_equal; lia | reflexivity].
Qed.

(** [find_set_by_name] reads the names at the listed addresses only. *)
Lemma find_in_set_list_listed (h h' : list IqSet) (sl : list addr) (nm : string) :
  (forall a, In a sl ->
     option_map set_name (nth_error h a) = option_map set_name (nth_error h' a)) ->
  find_in_set_list h sl nm = find_in_set_list h' sl nm.
Proof.
  induction sl as [|a sl IH]; intros H; simpl; [reflexivity|].
  pose proof (H a (or_introl eq_refl)) as Ha.
  rewrite IH by (intros b Hb; apply H; now right).
  destruct (nth_error h a) as [x|], (nth_error h' a) as [x'|];
    simpl in Ha; try discriminate; [| reflexivity].
  now injection Ha as ->.
Qed.

Lemma declared_names_objs (db_info : db_info_t) :
  map set_name (map new_result_set (result_sets db_info) ++
                map new_dimension_set (dimension_sets db_info)) =
  declared_names db_info.
Proof. unfold declared_names. now rewrite map_app, !map_map. Qed.

Lemma related_set_info_class (db : IqDatabase) (o : IqSet) :
  class_of (related_set_info db o) = IqDimensionSet <-> class_of o = IqDimensionSet.
Proof.
  unfold related_set_info. destruct (class_of o) eqn:Hc; simpl.
  - split; discriminate.
  - rewrite Hc. tauto.
Qed.

(** What a look-up finds in the database [refresh] is building, before
    and after the second pass. *)
Lemma find_set_by_name_fresh (db0 : IqDatabase) (db_info : db_info_t) (nm : string) :
  let db := refresh db0 db_info in
  let L := length (heap db0) in
  let objs := map new_result_set (result_sets db_info) ++
              map new_dimension_set (dimension_sets db_info) in
  find_set_by_name db (Some nm) =
    option_map (Nat.add L) (index_of nm (declared_names db_info)) /\
  forall db1 : IqDatabase,
    heap db1 = heap db0 ++ objs -> set_list db1 = seq L (length objs) ->
    find_set_by_name db1 (Some nm) =
      option_map (Nat.add L) (index_of nm (declared_names db_info)).
Proof.
  intros db L objs.
  destruct (refresh_shape db0 db_info) as [Hsl [_ [_ [db1 [Hh1 [Hsl1 Hobj]]]]]].
  fold db L objs in Hsl, Hh1, Hsl1, Hobj.
  assert (Hfresh : forall d : IqDatabase,
             heap d = heap db0 ++ objs -> set_list d = seq L (length objs) ->
             find_set_by_name d (Some nm) =
               option_map (Nat.add L) (index_of nm (declared_names db_info))).
  { intros d Hh Hs. unfold find_set_by_name. rewrite Hh, Hs.
    unfold L. rewrite find_in_set_list_fresh. unfold objs.
    now rewrite declared_names_objs. }
  split; [| exact Hfresh].
  rewrite <- (Hfresh db1 Hh1 Hsl1). unfold find_set_by_name.
  rewrite Hsl, Hsl1. apply find_in_set_list_listed.
  intros a Ha. apply in_seq in Ha.
  destruct (nth_error objs (a - L)) as [o|] eqn:Ho.
  2:{ apply nth_error_None in Ho. lia. }
  pose proof (Hobj _ _ Ho) as Hheap.
  replace (L + (a - L)) with a in Hheap by lia.
  rewrite Hheap, Hh1, nth_error_app2 by (unfold L in *; lia).
  fold L. rewrite Ho. simpl. now rewrite related_set_info_name.
Qed.

(** The look-up in a refreshed database, by position among the declared
    names. *)
Lemma find_set_by_name_refreshed (db0 : IqDatabase) (db_info : db_info_t)
  (nm : string) :
  let db := refresh db0 db_info in
  let L := length (heap db0) in
  find_set_by_name db (Some nm) =
    option_map (Nat.add L) (index_of nm (declared_names db_info)) /\
  (~ In nm (declared_names db_info) -> find_set_by_name db (Some nm) = None) /\
  forall j : nat,
    index_of nm (declared_names db_info) = Some j ->
    exists s : IqSet,
      nth_error (heap db) (L + j) = Some s /\ set_name s = nm /\
      nth_error (set_list db) j = Some (L + j) /\
      (class_of s = IqDimensionSet <-> length (result_sets db_info) <= j).
Proof.
  intros db L.
  destruct (find_set_by_name_fresh db0 db_info nm) as [Hfind _].
  fold db L in Hfind.
  split; [exact Hfind|]. split.
  { intros Hnot. rewrite Hfind. apply index_of_None in Hnot. now rewrite Hnot. }
  intros j Hj.
  destruct (refresh_shape db0 db_info) as [Hsl [_ [_ [db1 [Hh1 [Hsl1 Hobj]]]]]].
  fold db L in Hsl, Hobj.
  set (objs := map new_result_set (result_sets db_info) ++
               map new_dimension_set (dimension_sets db_info)) in *.
  apply index_of_Some in Hj. rewrite <- declared_names_objs in Hj. fold objs in Hj.
  rewrite nth_error_map in Hj.
  destruct (nth_error objs j) as [o|] eqn:Ho; [| discriminate].
  injection Hj as Hname.
  assert (Hlt : j < length objs) by (apply nth_error_Some; congruence).
  exists (related_set_info db1 o). repeat split.
  - now apply Hobj.
  - now rewrite related_set_info_name.
  - rewrite Hsl, nth_error_seq.
    destruct (Nat.ltb_spec j (length objs)); [reflexivity | lia].
  - intros Hc. apply related_set_info_class in Hc.
    destruct (nth_error_objs _ _ _ _ Ho) as [[_ [si [_ ->]]] | [Hge _]];
      [discriminate | exact Hge].
  - intros Hge. apply related_set_info_class.
    destruct (nth_error_objs _ _ _ _ Ho) as [[Hl _] | [_ [si [_ ->]]]];
      [lia | reflexivity].
Qed.

(** X20. After [refresh], [find_set_by_name] answers the object at the
    first position of the name among the declared names, result sets first:
    a result set hides a dimension set of the same name, and a name that was
    not declared gives [None].  The object found carries the name, sits at
    that position of the set list, and is a dimension set exactly when the
    position lies behind the result sets. *)
Theorem find_set_by_name_after_refresh (db0 : IqDatabase) (db_info : db_info_t)
  (nm : string) :
  let db := refresh db0 db_info in
  let L := length (heap db0) in
  find_set_by_name db (Some nm) =
    option_map (Nat.add L) (index_of nm (declared_names db_info)) /\
  (~ In nm (declared_names db_info) -> find_set_by_name db (Some nm) = None) /\
  forall j : nat,
    index_of nm (declared_names db_info) = Some j ->
    exists s : IqSet,
      nth_error (heap db) (L + j) = Some s /\ set_name s = nm /\
      nth_error (set_list db) j = Some (L + j) /\
      (class_of s = IqDimensionSet <-> length (result_sets db_info) <= j).
Proof. exact (find_set_by_name_refreshed db0 db_info nm). Qed.

Lemma find_set_by_name_after_refresh_witness :
  find_set_by_name sample_database (Some "stream") = Some 2 /\
  find_set_by_name sample_database (Some "no_such_set") = None /\
  exists s : IqSet,
    nth_error (heap sample_database) 2 = Some s /\ set_name s = "stream" /\
    nth_error (set_list sample_database) 2 = Some 2 /\
    (class_of s = IqDimensionSet <-> 2 <= 2).
Proof.
  destruct (find_set_by_name_after_refresh
              (unloaded_database "l5ixqul3p5axfgzq" sample_db_info) sample_db_info
              "stream") as [Hfind [_ Hobj]].
  destruct (find_set_by_name_after_refresh
              (unloaded_database "l5ixqul3p5axfgzq" sample_db_info) sample_db_info
              "no_such_set") as [_ [Hnone _]].
  split; [exact Hfind|].
  split.
  - apply Hnone. vm_compute.
    intros H. repeat (destruct H as [H|H]; [discriminate H|]). exact H.
  - apply (Hobj 2). vm_compute. reflexivity.
Defined.

(** ** Unresolved references *)

Lemma dimension_sets_loop_unresolved (h : list IqSet) (refs : list (option addr)) :
  In None refs ->
  (forall b, In (Some b) refs -> nth_error h b <> None) ->
  forall ci : columns_info_t, dimension_sets_loop h refs ci = Raised AttributeError.
Proof.
  induction refs as [|r refs IH]; intros Hin Hok ci; [contradiction|].
  destruct r as [b|]; simpl; [| reflexivity].
  destruct (nth_error h b) as [d|] eqn:Hb.
  - apply IH.
    + destruct Hin as [Hin|Hin]; [discriminate | exact Hin].
    + intros b' Hb'. apply Hok. now right.
  - exfalso. apply (Hok b); [now left | exact Hb].
Qed.

(** A result set of a refreshed database is the object built from its
    metadata, after its second pass against the complete set list. *)
Lemma refreshed_result_set (db0 : IqDatabase) (db_info : db_info_t) (a : addr)
  (rs : IqSet) :
  let db := refresh db0 db_info in
  let L := length (heap db0) in
  let objs := map new_result_set (result_sets db_info) ++
              map new_dimension_set (dimension_sets db_info) in
  In a (result_set_list db) -> nth_error (heap db) a = Some rs ->
  exists (db1 : IqDatabase) (si : set_info_t),
    heap db1 = heap db0 ++ objs /\ set_list db1 = seq L (length objs) /\
    nth_error (result_sets db_info) (a - L) = Some si /\ L <= a /\
    rs = related_set_info db1 (new_result_set si) /\
    forall j o, nth_error objs j = Some o ->
                nth_error (heap db) (L + j) = Some (related_set_info db1 o).
Proof.
  intros db L objs Ha Hrs.
  destruct (refresh_shape db0 db_info) as [_ [Hrl [_ [db1 [Hh1 [Hsl1 Hobj]]]]]].
  fold db L objs in Hrl, Hh1, Hsl1, Hobj.
  rewrite Hrl in Ha. apply in_seq in Ha.
  destruct (nth_error (result_sets db_info) (a - L)) as [si|] eqn:Hsi.
  2:{ apply nth_error_None in Hsi. lia. }
  exists db1, si. repeat split; try assumption; try lia.
  assert (Ho : nth_error objs (a - L) = Some (new_result_set si)).
  { unfold objs. rewrite nth_error_app1 by (rewrite length_map; lia).
    now rewrite nth_error_map, Hsi. }
  apply Hobj in Ho. replace (L + (a - L)) with a in Ho by lia.
  congruence.
Qed.

(** X21. In a refreshed database, a result set that links a name the
    metadata does not declare holds Python's [None] for it, and its
    [get_columns_info] then raises [AttributeError], with or without
    [latest]. *)
Theorem get_columns_info_unresolved (db0 : IqDatabase) (db_info : db_info_t)
  (a : addr) (rs : IqSet) (nm : string) (latest : bool) :
  let db := refresh db0 db_info in
  In a (result_set_list db) ->
  nth_error (heap db) a = Some rs ->
  In nm (get_or_empty (info_dimension_sets (set_info rs))) ->
  ~ In nm (declared_names db_info) ->
  IqResultSet_get_columns_info (heap db) rs latest = Raised AttributeError.
Proof.
  intros db Ha Hrs Hnm Hnot.
  destruct (refreshed_result_set db0 db_info a rs Ha Hrs)
    as [db1 [si [Hh1 [Hsl1 [_ [_ [-> Hobj]]]]]]].
  fold db in Hobj.
  unfold IqResultSet_get_columns_info.
  cbn [related_set_info new_result_set class_of set_info] in *.
  apply dimension_sets_loop_unresolved.
  - cbn [app]. apply in_map_iff. exists nm. split; [| exact Hnm].
    destruct (find_set_by_name_fresh db0 db_info nm) as [_ Hfresh].
    rewrite (Hfresh db1 Hh1 Hsl1).
    apply index_of_None in Hnot. now rewrite Hnot.
  - cbn [app]. intros b Hb. apply in_map_iff in Hb. destruct Hb as [d [Hd _]].
    destruct (find_set_by_name_fresh db0 db_info d) as [_ Hfresh].
    rewrite (Hfresh db1 Hh1 Hsl1) in Hd.
    destruct (index_of d (declared_names db_info)) as [k|] eqn:Hk; [| discriminate].
    injection Hd as <-.
    apply index_of_Some in Hk. rewrite <- declared_names_objs, nth_error_map in Hk.
    match type of Hk with
    | option_map _ (nth_error ?l k) = _ =>
        destruct (nth_error l k) as [o|] eqn:Ho; [| discriminate]
    end.
    rewrite (Hobj k o Ho). discriminate.
Qed.

Lemma get_columns_info_unresolved_witness :
  exists rs : IqSet,
    nth_error (heap sample_dangling_database) 0 = Some rs /\
    IqResultSet_get_columns_info (heap sample_dangling_database) rs true =
    Raised AttributeError.
Proof.
  eexists. split; [vm_compute; reflexivity|].
  apply (get_columns_info_unresolved
           (unloaded_database "k2dmw9x0a7bqhc5e" sample_dangling_info)
           sample_dangling_info 0 _ "port" true).
  - vm_compute. now left.
  - vm_compute. reflexivity.
  - vm_compute. now left.
  - vm_compute. intros H. repeat (destruct H as [H|H]; [discriminate H|]). exact H.
Defined.

(** ** Building single queries *)

Lemma index_of_app (nm : string) (l1 l2 : list string) :
  index_of nm (l1 ++ l2) =
  match index_of nm l1 with
  | Some k => Some k
  | None => option_map (Nat.add (length l1)) (index_of nm l2)
  end.
Proof.
  induction l1 as [|x l1 IH]; simpl.
  - now destruct (index_of nm l2).
  - destruct (String.eqb x nm); [reflexivity|]. rewrite IH.
    destruct (index_of nm l1); simpl; [reflexivity|].
    now destruct (index_of nm l2).
Qed.

(** X22. In a refreshed database, [IqSingleQuery] raises [AttributeError]
    when given no set name or a name that is not declared, and [TypeError]
    when the name is that of a dimension set only: the base
    [get_columns_info] does not take the [latest] argument. *)
Theorem new_single_query_rejects (db0 : IqDatabase) (db_info : db_info_t)
  (nm : string) (alias_arg : option string) :
  let db := refresh db0 db_info in
  new_single_query db None alias_arg = Raised AttributeError /\
  (~ In nm (declared_names db_info) ->
   new_single_query db (Some nm) alias_arg = Raised AttributeError) /\
  (In nm (map info_name (dimension_sets db_info)) ->
   ~ In nm (map info_name (result_sets db_info)) ->
   new_single_query db (Some nm) alias_arg = Raised TypeError).
Proof.
  intros db. split; [reflexivity|].
  destruct (find_set_by_name_refreshed db0 db_info nm) as [Hfind [_ Hat]].
  fold db in Hfind, Hat.
  split.
  - intros Hnot. unfold new_single_query, refresh_columns_info.
    rewrite Hfind. apply index_of_None in Hnot. now rewrite Hnot.
  - intros Hdim Hres. unfold new_single_query, refresh_columns_info.
    rewrite Hfind.
    destruct (index_of nm (declared_names db_info)) as [j|] eqn:Hj.
    2:{ apply index_of_None in Hj. exfalso. apply Hj. unfold declared_names.
        apply in_or_app. now right. }
    destruct (Hat j eq_refl) as [s [Hs [_ [_ Hclass]]]].
    cbn [option_map]. rewrite Hs.
    assert (Hge : length (result_sets db_info) <= j).
    { unfold declared_names in Hj. rewrite index_of_app in Hj.
      apply index_of_None in Hres. rewrite Hres in Hj.
      destruct (index_of nm (map info_name (dimension_sets db_info))); [| discriminate].
      injection Hj as <-. rewrite length_map. lia. }
    apply Hclass in Hge. now rewrite Hge.
Qed.

Lemma new_single_query_rejects_witness :
  new_single_query sample_database (Some "no_such_set") None = Raised AttributeError /\
  new_single_query sample_database (Some "stream") (Some "s") = Raised TypeError.
Proof.
  split.
  - apply (new_single_query_rejects
             (unloaded_database "l5ixqul3p5axfgzq" sample_db_info) sample_db_info
             "no_such_set" None).
    vm_compute. intros H. repeat (destruct H as [H|H]; [discriminate H|]). exact H.
  - apply (new_single_query_rejects
             (unloaded_database "l5ixqul3p5axfgzq" sample_db_info) sample_db_info
             "stream" (Some "s")).
    + vm_compute. now left.
    + vm_compute. intros H. repeat (destruct H as [H|H]; [discriminate H|]). exact H.
Defined.

Lemma column_list_objs (db_info : db_info_t) :
  map column_list (map new_result_set (result_sets db_info) ++
                   map new_dimension_set (dimension_sets db_info)) =
  map (map column_name)
      (map (fun si => get_or_empty (facts si)) (result_sets db_info) ++
       map (fun si => get_or_empty (attributes si)) (dimension_sets db_info)).
Proof.
  rewrite !map_app, !map_map. f_equal; apply map_ext; intros si.
  - unfold new_result_set. cbn [column_list].
    now destruct (populate_columns_spec (get_or_empty (facts si)) ([], [])) as [-> _].
  - unfold new_dimension_set. cbn [column_list].
    now destruct (populate_columns_spec (get_or_empty (attributes si)) ([], [])) as [-> _].
Qed.

Lemma related_set_info_column_list (db : IqDatabase) (o : IqSet) :
  column_list (related_set_info db o) = column_list o.
Proof. unfold related_set_info. now destruct (class_of o). Qed.

(** The object a declared name denotes in a refreshed database. *)
Lemma declared_set_object (db0 : IqDatabase) (db_info : db_info_t) (d : string) :
  let db := refresh db0 db_info in
  In d (declared_names db_info) ->
  exists (k : nat) (s : IqSet),
    index_of d (declared_names db_info) = Some k /\
    nth_error (heap db) (length (heap db0) + k) = Some s /\
    set_name s = d /\ column_list s = declared_columns db_info d.
Proof.
  intros db Hin.
  destruct (index_of d (declared_names db_info)) as [k|] eqn:Hk.
  2:{ apply index_of_None in Hk. contradiction. }
  destruct (refresh_shape db0 db_info) as [_ [_ [_ [db1 [_ [_ Hobj]]]]]].
  fold db in Hobj.
  pose proof (index_of_Some _ _ _ Hk) as Hn.
  rewrite <- declared_names_objs, nth_error_map in Hn.
  match type of Hn with
  | option_map _ (nth_error ?l k) = _ =>
      destruct (nth_error l k) as [o|] eqn:Ho; [| discriminate]
  end.
  injection Hn as Hname.
  exists k, (related_set_info db1 o). repeat split.
  - now apply Hobj.
  - now rewrite related_set_info_name.
  - rewrite related_set_info_column_list. unfold declared_columns. rewrite Hk.
    pose proof (f_equal (fun l => nth_error l k) (column_list_objs db_info)) as Hc.
    cbn beta in Hc. rewrite !nth_error_map, Ho in Hc.
    match type of Hc with
    | _ = option_map _ ?x => destruct x as [cols|]; [| discriminate]
    end.
    now injection Hc as ->.
Qed.

(** The references a result set of a refreshed database holds for declared
    names are resolved, to the sets of those names. *)
Lemma declared_links_resolved (db0 : IqDatabase) (db_info : db_info_t)
  (db1 : IqDatabase) (dnames : list string) :
  let db := refresh db0 db_info in
  let objs := map new_result_set (result_sets db_info) ++
              map new_dimension_set (dimension_sets db_info) in
  heap db1 = heap db0 ++ objs -> set_list db1 = seq (length (heap db0)) (length objs) ->
  Forall (fun d => In d (declared_names db_info)) dnames ->
  exists dims : list IqSet,
    resolved (heap db) (map (fun d => find_set_by_name db1 (Some d)) dnames) dims /\
    flat_map (fun s => map (spec_projection (set_name s)) (column_list s)) dims =
      flat_map (fun d => map (spec_projection d) (declared_columns db_info d)) dnames /\
    flat_map (fun s => map (spec_alias (set_name s)) (column_list s)) dims =
      flat_map (fun d => map (spec_alias d) (declared_columns db_info d)) dnames.
Proof.
  intros db objs Hh1 Hsl1 Hall. unfold resolved.
  induction Hall as [|d dnames Hd _ IH].
  - exists []. repeat split. constructor.
  - destruct IH as [dims [Hres [Hp Ha]]].
    destruct (declared_set_object db0 db_info d Hd) as [k [s [Hk [Hs [Hn Hc]]]]].
    fold db in Hs.
    exists (s :: dims). repeat split.
    + cbn [map]. constructor; [| exact Hres].
      exists (length (heap db0) + k). split; [| exact Hs].
      destruct (find_set_by_name_fresh db0 db_info d) as [_ Hfresh].
      rewrite (Hfresh db1 Hh1 Hsl1), Hk. reflexivity.
    + cbn [flat_map]. now rewrite Hp, Hn, Hc.
    + cbn [flat_map]. now rewrite Ha, Hn, Hc.
Qed.

(** The columns information of a result set of a refreshed database whose
    links are all declared. *)
Lemma refreshed_columns_info (db0 : IqDatabase) (db_info : db_info_t)
  (j : nat) (si : set_info_t) (latest : bool) :
  let db := refresh db0 db_info in
  nth_error (result_sets db_info) j = Some si ->
  Forall (fun d => In d (declared_names db_info))
         (get_or_empty (info_dimension_sets si)) ->
  exists rs : IqSet,
    nth_error (heap db) (length (heap db0) + j) = Some rs /\
    (exists dsets prim, class_of rs = IqResultSet dsets prim) /\
    IqResultSet_get_columns_info (heap db) rs latest =
    Returned (declared_columns_info db_info si latest).
Proof.
  intros db Hsi Hall.
  destruct (refresh_shape db0 db_info) as [_ [_ [_ [db1 [Hh1 [Hsl1 Hobj]]]]]].
  fold db in Hobj.
  set (objs := map new_result_set (result_sets db_info) ++
               map new_dimension_set (dimension_sets db_info)) in *.
  assert (Ho : nth_error objs j = Some (new_result_set si)).
  { unfold objs. rewrite nth_error_app1.
    - now rewrite nth_error_map, Hsi.
    - rewrite length_map. apply nth_error_Some. congruence. }
  exists (related_set_info db1 (new_result_set si)).
  split; [now apply Hobj|].
  split; [cbn; eauto|].
  destruct (declared_links_resolved db0 db_info db1 _ Hh1 Hsl1 Hall)
    as [dims [Hres [Hp Ha]]].
  fold db in Hres.
  unfold IqResultSet_get_columns_info.
  cbn [related_set_info new_result_set class_of set_info column_list set_name app].
  rewrite fold_append_column.
  rewrite (dimension_sets_loop_resolved _ _ dims Hres). cbn [projections column_alias_list app].
  rewrite Hp, Ha. unfold declared_columns_info, declared_columns_of.
  destruct (populate_columns_spec (get_or_empty (facts si)) ([], [])) as [-> _].
  cbn [fst app]. do 3 f_equal. apply map_ext. intros c.
  unfold IqResultSet_get_full_column_name, spec_latest_projection,
    spec_projection, get_column_alias, spec_alias.
  now destruct latest.
Qed.

(** X23. In a refreshed database, [IqSingleQuery] over the name of a
    declared result set whose linked names are all declared returns a query
    on that set, named by the [name] argument or else by the set, without
    filters, groups or orders, whose columns are the aliases
    ["<set>_<column>"] of the set's own columns followed by those of each
    linked set's columns. *)
Theorem new_single_query_columns (db0 : IqDatabase) (db_info : db_info_t)
  (j : nat) (si : set_info_t) (alias_arg : option string) :
  let db := refresh db0 db_info in
  let ci := declared_columns_info db_info si false in
  nth_error (result_sets db_info) j = Some si ->
  index_of (info_name si) (declared_names db_info) = Some j ->
  Forall (fun d => In d (declared_names db_info))
         (get_or_empty (info_dimension_sets si)) ->
  new_single_query db (Some (info_name si)) alias_arg =
    Returned
      (IqSingleQuery
         (new_query_state
            (match nonempty alias_arg with
             | Some n => Some n
             | None => Some (info_name si)
             end))
         (Some (length (heap db0) + j)) (Some ci) (column_alias_list ci)) /\
  column_alias_list ci =
    map (spec_alias (info_name si)) (declared_columns_of si) ++
    flat_map (fun d => map (spec_alias d) (declared_columns db_info d))
             (get_or_empty (info_dimension_sets si)).
Proof.
  intros db ci Hsi Hj Hall. split; [| reflexivity].
  destruct (refreshed_columns_info db0 db_info j si false Hsi Hall)
    as [rs [Hrs [[dsets [prim Hclass]] Hci]]].
  fold db in Hrs, Hci.
  destruct (find_set_by_name_refreshed db0 db_info (info_name si)) as [Hfind _].
  fold db in Hfind.
  unfold new_single_query, refresh_columns_info.
  rewrite Hfind, Hj. cbn [option_map]. rewrite Hrs, Hclass, Hci. reflexivity.
Qed.

Lemma new_single_query_columns_witness :
  exists q : IqQuery,
    new_single_query sample_database (Some "tx_stream_live_stats") None = Returned q /\
    alias (state_of q) = Some "tx_stream_live_stats" /\
    get_columns q = ["tx_stream_live_stats_frame_count"; "stream_stream_id"].
Proof.
  destruct (new_single_query_columns
              (unloaded_database "l5ixqul3p5axfgzq" sample_db_info) sample_db_info
              0 sample_tx_info None) as [H _].
  - reflexivity.
  - vm_compute. reflexivity.
  - apply Forall_cons; [| apply Forall_nil]. vm_compute. right. right. now left.
  - eexists. split; [exact H|]. split; vm_compute; reflexivity.
Defined.

(** X24. [get_query(latest)] of a single query on such a set returns the
    seven entries of the base query followed by ["projections"], which holds
    the [latest] form for the set's own columns only.  It leaves the query's
    name, filters, groups, orders and time range as they are, stores the
    columns information it built, and the columns it leaves do not depend on
    [latest] nor on what was stored before. *)
Theorem single_query_get_query (db0 : IqDatabase) (db_info : db_info_t)
  (j : nat) (si : set_info_t) (latest : bool) (st : query_state)
  (old_ci : option columns_info_t) (old_cols : list string) :
  let db := refresh db0 db_info in
  let ci := declared_columns_info db_info si latest in
  let a := length (heap db0) + j in
  nth_error (result_sets db_info) j = Some si ->
  Forall (fun d => In d (declared_names db_info))
         (get_or_empty (info_dimension_sets si)) ->
  get_query db latest (IqSingleQuery st (Some a) old_ci old_cols) =
    (IqSingleQuery st (Some a) (Some ci) (column_alias_list ci),
     Returned (PDict (IqQuery_get_query st ++
                      [(PStr "projections", str_list (projections ci))]))) /\
  column_alias_list ci =
    column_alias_list (declared_columns_info db_info si (negb latest)).
Proof.
  intros db ci a Hsi Hall. split; [| reflexivity].
  destruct (refreshed_columns_info db0 db_info j si latest Hsi Hall)
    as [rs [Hrs [[dsets [prim Hclass]] Hci]]].
  fold db a in Hrs, Hci.
  cbn [get_query]. unfold refresh_columns_info.
  rewrite Hrs, Hclass, Hci. reflexivity.
Qed.

Lemma single_query_get_query_witness :
  exists q' : IqQuery,
    get_query sample_database true
      (IqSingleQuery (add_filter (new_query_state (Some "tx")) (PStr "x > 1"))
                     (Some 0) None []) =
    (q', Returned (PDict
       [(PStr "alias", PStr "tx");
        (PStr "filters", PList [PStr "x > 1"]);
        (PStr "groups", PList []);
        (PStr "orders", PList []);
        (PStr "timestamp_range", PDict []);
        (PStr "limit", PNone);
        (PStr "pagination", PNone);
        (PStr "projections",
         PList [PStr "(tx_stream_live_stats$last.frame_count) AS tx_stream_live_stats_frame_count";
                PStr "stream.stream_id AS stream_stream_id"])])) /\
    get_columns q' = ["tx_stream_live_stats_frame_count"; "stream_stream_id"].
Proof.
  destruct (single_query_get_query
              (unloaded_database "l5ixqul3p5axfgzq" sample_db_info) sample_db_info
              0 sample_tx_info true
              (add_filter (new_query_state (Some "tx")) (PStr "x > 1")) None [])
    as [H _].
  - reflexivity.
  - apply Forall_cons; [| apply Forall_nil]. vm_compute. right. right. now left.
  - eexists. split; [exact H|]. vm_compute. reflexivity.
Defined.

(** ** The top level of a multi-query *)

Lemma scan_columns_projections (ks : list string) (sq : IqQuery) (cs : list string) :
  forall b b' : build_state,
    scan_columns (alias (state_of sq)) ks cs b = Returned b' ->
    (seen_columns b', built_projections b') =
      fold_left project_step (map (fun c => (c, qualified sq c)) cs)
                (seen_columns b, built_projections b) /\
    built_subqueries b' = built_subqueries b.
Proof.
  unfold qualified, sub_name.
  induction cs as [|c cs IH]; intros b b' H; simpl in H.
  - now injection H as <-.
  - destruct (alias (state_of sq)) as [n|]; [| discriminate].
    apply IH in H. destruct H as [H1 H2]. rewrite H1, H2. cbn [map fold_left].
    split.
    + f_equal. unfold project_step. cbn [fst snd].
      destruct (str_in c ks); destruct (str_in c (seen_columns b)); reflexivity.
    + destruct (str_in c ks); destruct (str_in c (seen_columns b)); reflexivity.
Qed.

Lemma subqueries_loop_projections (gq : IqQuery -> IqQuery * result pyval)
  (ks : list string) (subs : list IqQuery) :
  forall (b b' : build_state) (subs' : list IqQuery),
    subqueries_loop gq ks subs b = (subs', Returned b') ->
    (seen_columns b', built_projections b') =
      fold_left project_step (flat_map column_events subs')
                (seen_columns b, built_projections b) /\
    exists qs : list pyval,
      built_subqueries b' = built_subqueries b ++ qs /\
      Forall2 (fun sq q => snd (gq sq) = Returned q) subs qs /\
      map fst (map gq subs) = subs'.
Proof.
  induction subs as [|sq subs IH]; intros b b' subs' H; simpl in H.
  - injection H as <- <-. split; [reflexivity|]. exists [].
    rewrite app_nil_r. repeat split. constructor.
  - destruct (gq sq) as [sq' [q| |]] eqn:Hgq; try discriminate.
    destruct (scan_columns (alias (state_of sq')) ks (get_columns sq') _)
      as [b2| |] eqn:Hscan; try discriminate.
    destruct (subqueries_loop gq ks subs b2) as [rest' r'] eqn:Hrest.
    injection H as <- ->.
    apply scan_columns_projections in Hscan. cbn [seen_columns built_projections
      built_subqueries] in Hscan. destruct Hscan as [Hs1 Hs2].
    destruct (IH _ _ _ Hrest) as [H1 [qs [H2 [H3 H4]]]].
    split.
    + rewrite H1, Hs1. cbn [flat_map]. now rewrite fold_left_app.
    + exists (q :: qs). repeat split.
      * rewrite H2, Hs2, <- app_assoc. reflexivity.
      * constructor; [now rewrite Hgq | exact H3].
      * cbn [map]. now rewrite Hgq, H4.
Qed.

Lemma find_first_ref (events : list (string * string)) (c : string) :
  In c (map fst events) ->
  forall e, first_ref (events ++ [e]) c = first_ref events c.
Proof.
  intros Hin e. unfold first_ref. rewrite find_append.
  destruct (find (fun e0 => String.eqb (fst e0) c) events) eqn:Hf; [reflexivity|].
  exfalso. apply in_map_iff in Hin. destruct Hin as [x [Hx Hin]].
  apply (find_none _ _ Hf) in Hin. rewrite Hx, String.eqb_refl in Hin. discriminate.
Qed.

Lemma project_spec (events : list (string * string)) :
  fold_left project_step events ([], []) =
  (first_seen (map fst events),
   map (fun c => first_ref events c +++ " AS " +++ c) (first_seen (map fst events))).
Proof.
  induction events as [|e events IH] using rev_ind; [reflexivity|].
  rewrite fold_left_app, IH, map_app. cbn [map fold_left].
  rewrite first_seen_snoc. unfold project_step. cbn [fst snd].
  destruct (str_in (fst e) (first_seen (map fst events))) eqn:Hin.
  - f_equal. apply map_ext_in. intros c Hc.
    rewrite find_first_ref; [reflexivity | now apply first_seen_In].
  - f_equal. rewrite map_app. cbn [map]. f_equal.
    + apply map_ext_in. intros c Hc.
      rewrite find_first_ref; [reflexivity | now apply first_seen_In].
    + apply str_in_not_In in Hin. rewrite first_seen_In in Hin.
      unfold first_ref. rewrite find_append.
      destruct (find (fun e0 => String.eqb (fst e0) (fst e)) events) as [x|] eqn:Hf.
      * exfalso. apply find_some in Hf. destruct Hf as [Hx He].
        apply String.eqb_eq in He. apply Hin. rewrite <- He. now apply in_map.
      * cbn [find]. now rewrite String.eqb_refl.
Qed.

Lemma find_column_events (sq : IqQuery) (c : string) :
  find (fun e => String.eqb (fst e) c) (column_events sq) =
  if str_in c (get_columns sq) then Some (c, qualified sq c) else None.
Proof.
  unfold column_events, str_in.
  induction (get_columns sq) as [|x cs IH]; [reflexivity|].
  cbn [map find fst existsb]. rewrite (String.eqb_sym c x).
  destruct (String.eqb_spec x c) as [->|]; [reflexivity | exact IH].
Qed.

Lemma first_ref_owner (subs : list IqQuery) (c : string) :
  first_ref (flat_map column_events subs) c +++ " AS " +++ c =
  match owner subs c with
  | Some sq => qualified sq c +++ " AS " +++ c
  | None => " AS " +++ c
  end.
Proof.
  unfold first_ref, owner.
  induction subs as [|sq subs IH]; [reflexivity|].
  cbn [flat_map find]. rewrite find_append, find_column_events.
  destruct (str_in c (get_columns sq)); [reflexivity | exact IH].
Qed.

Lemma map_fst_column_events (subs : list IqQuery) :
  map fst (flat_map column_events subs) = flat_map get_columns subs.
Proof.
  induction subs as [|sq subs IH]; [reflexivity|].
  cbn [flat_map]. rewrite map_app, IH. f_equal.
  unfold column_events. rewrite map_map. apply map_id.
Qed.

(** X25. A multi-query that builds returns, under ["subqueries"], the
    dicts its sub-queries' own [get_query] returned, in order, and under
    ["projections"] one clause per distinct column alias of the sub-queries,
    in the order the aliases are first met: ["<sub-query>.<alias> AS <alias>"]
    with the name of the first sub-query that lists the alias. *)
Theorem multi_query_projections (db : IqDatabase) (latest : bool) (st : query_state)
  (subs : list IqQuery) (ks : list string) (q' : IqQuery) (d : pydict) :
  let subs' := map (fun sq => fst (get_query db latest sq)) subs in
  get_query db latest (IqMultiQuery st subs ks) = (q', Returned (PDict d)) ->
  dict_get d (PStr "projections") =
    Some (str_list (map (top_projection subs')
                        (first_seen (flat_map get_columns subs')))) /\
  exists qs : list pyval,
    dict_get d (PStr "subqueries") = Some (PList qs) /\
    Forall2 (fun sq q => snd (get_query db latest sq) = Returned q) subs qs.
Proof.
  intros subs' H. cbn [get_query] in H.
  destruct (subqueries_loop (get_query db latest) ks subs (mk_build_state [] [] [] []))
    as [subs1 [b| |]] eqn:Hloop; try discriminate.
  destruct (key_filters_loop (key_dict b) (filters st)) as [fs [[]| |]];
    cbn [bind] in H; try discriminate.
  injection H as _ <-.
  destruct (subqueries_loop_projections _ _ _ _ _ _ Hloop) as [Hp [qs [Hq [Hall Hs]]]].
  cbn [seen_columns built_projections built_subqueries app] in Hp, Hq.
  rewrite map_map in Hs. fold subs' in Hs. subst subs1.
  rewrite project_spec, map_fst_column_events in Hp.
  injection Hp as _ Hp.
  split.
  - cbn. rewrite Hp. do 2 f_equal. apply map_ext_in. intros c Hc.
    rewrite first_ref_owner. unfold top_projection.
    destruct (owner subs' c) eqn:Ho; [reflexivity|].
    exfalso. apply first_seen_In, in_flat_map in Hc. destruct Hc as [sq [Hsq Hc]].
    unfold owner in Ho. apply (find_none _ _ Ho) in Hsq.
    apply str_in_In in Hc. congruence.
  - exists qs. split; [cbn; now rewrite Hq | exact Hall].
Qed.

Lemma multi_query_projections_witness :
  exists (q' : IqQuery) (d : pydict),
    get_query sample_database false
      (IqMultiQuery (new_query_state None) sample_subqueries ["stream_stream_id"]) =
    (q', Returned (PDict d)) /\
    dict_get d (PStr "projections") =
    Some (str_list
      ["tx_stream_live_stats.tx_stream_live_stats_frame_count AS tx_stream_live_stats_frame_count";
       "tx_stream_live_stats.stream_stream_id AS stream_stream_id";
       "rx_stream_live_stats.rx_stream_live_stats_frame_count AS rx_stream_live_stats_frame_count"]).
Proof.
  eexists. eexists. split; [vm_compute; reflexivity|].
  refine (proj1 (multi_query_projections sample_database false (new_query_state None)
                   sample_subqueries ["stream_stream_id"] _ _ _)).
  vm_compute. reflexivity.
Defined.

(** ** The sub-query loop: failures *)

Lemma scan_columns_named (n : string) (ks : list string) (cs : list string) :
  forall b : build_state, exists b', scan_columns (Some n) ks cs b = Returned b'.
Proof.
  induction cs as [|c cs IH]; intros b; simpl; [now exists b | apply IH].
Qed.

Lemma scan_columns_unnamed (ks : list string) (cs : list string) (b : build_state) :
  cs <> [] -> scan_columns None ks cs b = Raised TypeError.
Proof. destruct cs; [contradiction | reflexivity]. Qed.

(** The loop passes every sub-query that builds and carries a name. *)
Lemma subqueries_loop_app (gq : IqQuery -> IqQuery * result pyval)
  (ks : list string) (pre rest : list IqQuery) :
  Forall (fun p => (exists q, snd (gq p) = Returned q) /\
                   alias (state_of (fst (gq p))) <> None) pre ->
  forall b : build_state,
    exists b1 : build_state,
      subqueries_loop gq ks (pre ++ rest) b =
      (map (fun p => fst (gq p)) pre ++ fst (subqueries_loop gq ks rest b1),
       snd (subqueries_loop gq ks rest b1)).
Proof.
  induction 1 as [|p pre [[q Hq] Hn] _ IH]; intros b.
  - exists b. cbn [app map]. now destruct (subqueries_loop gq ks rest b).
  - cbn [app map subqueries_loop].
    destruct (gq p) as [p' r] eqn:Hp. cbn [fst snd] in Hq, Hn. subst r.
    destruct (alias (state_of p')) as [n|] eqn:Hal; [| contradiction].
    destruct (scan_columns_named n ks (get_columns p')
                (mk_build_state (built_subqueries b ++ [q]) (seen_columns b)
                                (built_projections b) (key_dict b))) as [b2 Hb2].
    rewrite Hb2.
    destruct (IH b2) as [b1 Hb1]. exists b1. rewrite Hb1. reflexivity.
Qed.

(** X26. [get_query] of a multi-query stops at the first sub-query that
    does not pass: when the sub-queries before it build and carry a name, an
    exception its own [get_query] raises is the exception of the multi-query,
    and a sub-query that builds but has no name while it lists a column makes
    the multi-query raise [TypeError]. *)
Theorem multi_query_first_failure (db : IqDatabase) (latest : bool) (st : query_state)
  (pre : list IqQuery) (sq : IqQuery) (post : list IqQuery) (ks : list string) :
  let outcome := snd (get_query db latest (IqMultiQuery st (pre ++ sq :: post) ks)) in
  Forall (fun p => (exists q, snd (get_query db latest p) = Returned q) /\
                   alias (state_of (fst (get_query db latest p))) <> None) pre ->
  (forall e, snd (get_query db latest sq) = Raised e -> outcome = Raised e) /\
  (forall q, snd (get_query db latest sq) = Returned q ->
             alias (state_of (fst (get_query db latest sq))) = None ->
             get_columns (fst (get_query db latest sq)) <> [] ->
             outcome = Raised TypeError).
Proof.
  intros outcome Hpre. subst outcome. cbn [get_query].
  destruct (subqueries_loop_app (get_query db latest) ks pre (sq :: post) Hpre
              (mk_build_state [] [] [] [])) as [b1 Hloop].
  rewrite Hloop. cbn [subqueries_loop].
  destruct (get_query db latest sq) as [sq' r] eqn:Hsq. cbn [fst snd].
  split.
  - intros e ->. reflexivity.
  - intros q -> Hal Hcols. rewrite Hal.
    rewrite scan_columns_unnamed by exact Hcols. reflexivity.
Qed.

Lemma multi_query_first_failure_witness :
  let unnamed := IqMultiQuery (new_query_state None) sample_subqueries [] in
  let lone := IqMultiQuery (new_query_state (Some "view")) sample_subqueries
                           sample_lone_keys in
  snd (get_query sample_database false
         (IqMultiQuery (new_query_state None) (sample_subqueries ++ [unnamed]) [])) =
  Raised TypeError /\
  snd (get_query sample_database false
         (IqMultiQuery (new_query_state None) (sample_subqueries ++ [lone]) [])) =
  Raised (PyException (key_not_joinable_message "tx_stream_live_stats_frame_count")).
Proof.
  intros unnamed lone.
  assert (Hpre : Forall
            (fun p => (exists q, snd (get_query sample_database false p) = Returned q) /\
                      alias (state_of (fst (get_query sample_database false p))) <> None)
            sample_subqueries).
  { apply Forall_cons; [| apply Forall_cons; [| apply Forall_nil]];
      (split; [eexists; vm_compute; reflexivity | vm_compute; discriminate]). }
  split.
  - eapply (proj2 (multi_query_first_failure sample_database false (new_query_state None)
                     sample_subqueries unnamed [] [] Hpre)).
    + vm_compute. reflexivity.
    + vm_compute. reflexivity.
    + vm_compute. discriminate.
  - apply (proj1 (multi_query_first_failure sample_database false (new_query_state None)
                    sample_subqueries lone [] [] Hpre)).
    vm_compute. reflexivity.
Defined.

(** ** The filters of a multi-query *)

(** The filters the key loop appends depend on the key dict only. *)
Lemma key_filters_loop_extends (kd : list (string * list string)) :
  exists (J : list pyval) (r : result unit),
    forall fs : list pyval, key_filters_loop kd fs = (fs ++ J, r).
Proof.
  induction kd as [|[k refs] kd [J [r IH]]].
  - exists [], (Returned tt). intros fs. simpl. now rewrite app_nil_r.
  - destruct refs as [|r0 [|r1 [|r2 refs]]].
    + exists [], (Raised IndexError). intros fs. simpl. now rewrite app_nil_r.
    + exists [], (Raised (PyException (key_not_joinable_message k))).
      intros fs. simpl. now rewrite app_nil_r.
    + exists (PStr (r0 +++ "=" +++ r1) :: J), r. intros fs. simpl.
      rewrite IH, <- app_assoc. reflexivity.
    + exists [], (Raised (PyException (key_ambiguous_message k))).
      intros fs. simpl. now rewrite app_nil_r.
Qed.

Lemma set_filters_same (st : query_state) : set_filters st (filters st) = st.
Proof. now destruct st. Qed.

Lemma subqueries_loop_no_keys (gq : IqQuery -> IqQuery * result pyval)
  (subs : list IqQuery) :
  forall (b b' : build_state) (subs' : list IqQuery),
    subqueries_loop gq [] subs b = (subs', Returned b') ->
    key_dict b' = key_dict b.
Proof.
  intros b b' subs' H. rewrite (subqueries_loop_gather _ _ _ _ _ _ H).
  assert (He : flat_map (key_events []) subs' = []).
  { clear. induction subs' as [|sq subs' IH]; [reflexivity|].
    cbn [flat_map]. rewrite IH, app_nil_r. unfold key_events.
    induction (get_columns sq) as [|c cs IHc]; [reflexivity | exact IHc]. }
  now rewrite He.
Qed.

(** X27. Whatever the outcome, [get_query] of a multi-query leaves its
    name, groups, orders, time range, limit, pagination and keys as they
    were, and its filters are the old ones followed by what the key loop
    appended: nothing if the query had no filter of its own or declares no
    key.  When it had a filter and the build succeeds, the filters it is left
    with are exactly the list the returned dict holds under ["filters"]. *)
Theorem multi_query_filters_kept (db : IqDatabase) (latest : bool) (st : query_state)
  (subs : list IqQuery) (ks : list string) :
  exists (st' : query_state) (subs' : list IqQuery) (J : list pyval),
    fst (get_query db latest (IqMultiQuery st subs ks)) = IqMultiQuery st' subs' ks /\
    st' = set_filters st (filters st ++ J) /\
    (filters st = [] -> J = []) /\
    (ks = [] -> J = []) /\
    forall d : pydict,
      snd (get_query db latest (IqMultiQuery st subs ks)) = Returned (PDict d) ->
      filters st <> [] ->
      dict_get d (PStr "filters") = Some (PList (filters st')).
Proof.
  cbn [get_query].
  destruct (subqueries_loop (get_query db latest) ks subs (mk_build_state [] [] [] []))
    as [subs' [b| |]] eqn:Hloop.
  - destruct (key_filters_loop_extends (key_dict b)) as [J [r HJ]].
    rewrite (HJ (filters st)).
    destruct (filters st) as [|f fs] eqn:Hf.
    + exists st, subs', []. cbn [fst snd].
      repeat split; try reflexivity.
      * cbn [app]. rewrite <- Hf. symmetry. apply set_filters_same.
      * intros d _ Hne. contradiction.
    + exists (set_filters st ((f :: fs) ++ J)), subs', J. cbn [fst snd].
      repeat split; try reflexivity; try discriminate.
      * intros ->. apply subqueries_loop_no_keys in Hloop. cbn in Hloop.
        rewrite Hloop in HJ. specialize (HJ []). cbn in HJ. now injection HJ as <- _.
      * intros d Hd _. destruct r as [[]| |]; cbn [bind] in Hd; try discriminate.
        injection Hd as <-. reflexivity.
  - exists st, subs', []. cbn [fst snd]. rewrite app_nil_r, set_filters_same.
    repeat split; try reflexivity. intros d Hd. discriminate.
  - exists st, subs', []. cbn [fst snd]. rewrite app_nil_r, set_filters_same.
    repeat split; try reflexivity. intros d Hd. discriminate.
Qed.

Lemma multi_query_filters_kept_witness :
  filters (state_of (fst (get_query sample_database false
     (IqMultiQuery (add_filter (new_query_state None) (PStr "x > 1"))
                   sample_subqueries ["stream_stream_id"])))) =
  [PStr "x > 1"; sample_join_filter].
Proof.
  destruct (multi_query_filters_kept sample_database false
              (add_filter (new_query_state None) (PStr "x > 1"))
              sample_subqueries ["stream_stream_id"])
    as [st' [subs' [J [H1 [_ [_ [_ H5]]]]]]].
  rewrite H1. cbn [state_of].
  eassert (Hs : snd (get_query sample_database false
                       (IqMultiQuery (add_filter (new_query_state None) (PStr "x > 1"))
                                     sample_subqueries ["stream_stream_id"])) =
                Returned (PDict _)) by (lazy; reflexivity).
  specialize (H5 _ Hs). cbn in H5.
  assert (Hne : [PStr "x > 1"] <> []) by discriminate.
  specialize (H5 Hne). now injection H5 as <-.
Defined.

(** ** Building a multi-query again *)

(** A single query that has built builds again to the same answer. *)
Lemma single_get_query_again (db : IqDatabase) (latest : bool) (sq sq' : IqQuery)
  (q : pyval) :
  is_single sq = true ->
  get_query db latest sq = (sq', Returned q) ->
  get_query db latest sq' = (sq', Returned q).
Proof.
  destruct sq as [st s ci cs|]; [| discriminate]. intros _.
  cbn [get_query]. unfold refresh_columns_info.
  destruct s as [a|]; [| discriminate].
  destruct (nth_error (heap db) a) as [x|] eqn:Hx; [| discriminate].
  destruct (class_of x) eqn:Hc; [| discriminate].
  destruct (IqResultSet_get_columns_info (heap db) x latest) as [ci'| |] eqn:Hci;
    try discriminate.
  intros H. injection H as <- <-.
  cbn [get_query]. unfold refresh_columns_info. now rewrite Hx, Hc, Hci.
Qed.

Lemma subqueries_loop_again (gq : IqQuery -> IqQuery * result pyval)
  (ks : list string) (subs : list IqQuery) :
  Forall (fun sq => forall sq' q, gq sq = (sq', Returned q) ->
                                  gq sq' = (sq', Returned q)) subs ->
  forall (b b' : build_state) (subs' : list IqQuery),
    subqueries_loop gq ks subs b = (subs', Returned b') ->
    subqueries_loop gq ks subs' b = (subs', Returned b').
Proof.
  induction 1 as [|sq subs Hsq _ IH]; intros b b' subs' H; simpl in H.
  - now injection H as <- <-.
  - destruct (gq sq) as [sq' [q| |]] eqn:Hgq; try discriminate.
    destruct (scan_columns (alias (state_of sq')) ks (get_columns sq') _)
      as [b2| |] eqn:Hscan; try discriminate.
    destruct (subqueries_loop gq ks subs b2) as [rest' r'] eqn:Hrest.
    injection H as <- ->.
    cbn [subqueries_loop]. rewrite (Hsq _ _ eq_refl), Hscan.
    now rewrite (IH _ _ _ Hrest).
Qed.

(** X28. Building a multi-query over single queries a second time gives
    the same dict but for ["filters"]: when the query had no filter of its
    own the join filters appear once again as in the first build, otherwise
    they follow the ones the first build left in the query, so that they
    appear twice. *)
Theorem multi_query_rebuild (db : IqDatabase) (latest : bool) (st : query_state)
  (subs : list IqQuery) (ks : list string) (q1 : IqQuery) (d1 : pydict) :
  forallb is_single subs = true ->
  get_query db latest (IqMultiQuery st subs ks) = (q1, Returned (PDict d1)) ->
  exists (J : list pyval) (q2 : IqQuery),
    dict_get d1 (PStr "filters") = Some (PList (filters st ++ J)) /\
    get_query db latest q1 =
      (q2, Returned (PDict (dict_set d1 (PStr "filters")
                              (PList (match filters st with
                                      | [] => J
                                      | _ => filters st ++ J ++ J
                                      end))))).
Proof.
  intros Hsingle H. cbn [get_query] in H.
  destruct (subqueries_loop (get_query db latest) ks subs (mk_build_state [] [] [] []))
    as [subs' [b| |]] eqn:Hloop; try discriminate.
  destruct (key_filters_loop_extends (key_dict b)) as [J [r HJ]].
  rewrite (HJ (filters st)) in H.
  destruct r as [[]| |]; cbn [bind] in H; try discriminate.
  injection H as <- <-.
  assert (Hagain : subqueries_loop (get_query db latest) ks subs'
                     (mk_build_state [] [] [] []) = (subs', Returned b)).
  { apply (subqueries_loop_again _ _ subs); [| exact Hloop].
    apply Forall_forall. intros sq Hsq sq' q Hq.
    apply (single_get_query_again db latest sq); [| exact Hq].
    rewrite forallb_forall in Hsingle. now apply Hsingle. }
  exists J.
  destruct (filters st) as [|f fs] eqn:Hf.
  - eexists. split; [reflexivity|].
    cbn [get_query]. rewrite Hagain, Hf, HJ. reflexivity.
  - eexists. split; [reflexivity|].
    cbn [get_query]. rewrite Hagain. cbn [filters set_filters]. rewrite HJ.
    cbn [bind alias groups orders limit pagination set_filters].
    rewrite <- app_assoc. reflexivity.
Qed.

Lemma multi_query_rebuild_witness :
  exists (q1 : IqQuery) (d1 : pydict) (q2 : IqQuery) (d2 : pydict),
    get_query sample_database false
      (IqMultiQuery (add_filter (new_query_state None) (PStr "x > 1"))
                    sample_subqueries ["stream_stream_id"]) =
    (q1, Returned (PDict d1)) /\
    get_query sample_database false q1 = (q2, Returned (PDict d2)) /\
    dict_get d2 (PStr "filters") =
    Some (PList [PStr "x > 1"; sample_join_filter; sample_join_filter]).
Proof.
  eassert (H0 : get_query sample_database false
                  (IqMultiQuery (add_filter (new_query_state None) (PStr "x > 1"))
                                sample_subqueries ["stream_stream_id"]) =
                (_, Returned (PDict _))) by (lazy; reflexivity).
  destruct (multi_query_rebuild sample_database false
              (add_filter (new_query_state None) (PStr "x > 1"))
              sample_subqueries ["stream_stream_id"] _ _ eq_refl H0)
    as [J [q2 [H1 H2]]].
  cbn in H1. injection H1 as <-.
  eexists _, _, q2, _. split; [exact H0|]. split; [exact H2|].
  vm_compute. reflexivity.
Defined.

(** ** Building multi-queries *)

Lemma new_single_queries_returned (db : IqDatabase) (names : list string)
  (qs : list IqQuery) :
  Forall2 (fun n q => new_single_query db (Some n) None = Returned q) names qs ->
  new_single_queries db names = Returned qs.
Proof.
  induction 1 as [|n q names qs Hq _ IH]; [reflexivity|].
  cbn [new_single_queries]. rewrite Hq. cbn [bind]. rewrite IH. reflexivity.
Qed.

Lemma new_single_queries_raised (db : IqDatabase) (pre : list string) (n : string)
  (post : list string) (e : exn) :
  Forall (fun p => exists q, new_single_query db (Some p) None = Returned q) pre ->
  new_single_query db (Some n) None = Raised e ->
  new_single_queries db (pre ++ n :: post) = Raised e.
Proof.
  intros Hpre Hn. induction Hpre as [|p pre [q Hq] _ IH].
  - cbn [app new_single_queries]. now rewrite Hn.
  - cbn [app new_single_queries]. rewrite Hq. cbn [bind]. now rewrite IH.
Qed.

(** X29. [IqMultiQuery] called without set names raises [TypeError].  Given
    set names, it makes one single query per name, in order and each named
    after its set, and returns a multi-query over them with the given name
    and keys, no keys if none are given; the exception of the first name
    whose single query cannot be made is the exception of the call. *)
Theorem new_multi_query_subqueries (db : IqDatabase) (names : list string)
  (nm : option string) (ks : option (list string)) :
  new_multi_query db None nm ks = Raised TypeError /\
  (forall qs : list IqQuery,
     Forall2 (fun n q => new_single_query db (Some n) None = Returned q) names qs ->
     new_multi_query db (Some names) nm ks =
       Returned (IqMultiQuery (new_query_state nm) qs (get_or_empty ks))) /\
  (forall (pre : list string) (n : string) (post : list string) (e : exn),
     names = pre ++ n :: post ->
     Forall (fun p => exists q, new_single_query db (Some p) None = Returned q) pre ->
     new_single_query db (Some n) None = Raised e ->
     new_multi_query db (Some names) nm ks = Raised e).
Proof.
  split; [reflexivity|]. split.
  - intros qs Hqs. unfold new_multi_query.
    now rewrite (new_single_queries_returned db names qs Hqs).
  - intros pre n post e -> Hpre Hn. unfold new_multi_query.
    now rewrite (new_single_queries_raised db pre n post e Hpre Hn).
Qed.

Lemma new_multi_query_subqueries_witness :
  sample_multi_query =
    Returned (IqMultiQuery (new_query_state None) sample_subqueries
                           ["stream_stream_id"]) /\
  new_multi_query sample_database
    (Some ["tx_stream_live_stats"; "stream"; "rx_stream_live_stats"]) None None =
  Raised TypeError.
Proof.
  split.
  - apply (new_multi_query_subqueries sample_database
             ["tx_stream_live_stats"; "rx_stream_live_stats"] None
             (Some ["stream_stream_id"])).
    apply Forall2_cons; [vm_compute; reflexivity|].
    apply Forall2_cons; [vm_compute; reflexivity | apply Forall2_nil].
  - apply (new_multi_query_subqueries sample_database
             ["tx_stream_live_stats"; "stream"; "rx_stream_live_stats"] None None)
      with (pre := ["tx_stream_live_stats"]) (n := "stream")
           (post := ["rx_stream_live_stats"]).
    + reflexivity.
    + apply Forall_cons; [eexists; vm_compute; reflexivity | apply Forall_nil].
    + vm_compute. reflexivity.
Defined.

(** ** The references of a result set after [refresh] *)

(** C9, as amended.  After [refresh], the set list is the result sets
    followed by the dimension sets, each in declaration order.  Every result
    set in it holds one reference per dimension-set name it declares, and
    one for its primary dimension set: the reference for a name is the first
    set of that name in the set list, [None] if the database declares no
    such set, and the primary reference is [None] when the result set names
    no primary dimension set.  So a name that is the name of a declared
    dimension set and of no result set is resolved to the dimension-set
    object of that name, which lies in the same set list after the result
    set itself. *)
Theorem refresh_resolves_dimension_sets (db0 : IqDatabase) (db_info : db_info_t)
  (a : addr) (rs : IqSet) (dsets : list (option addr)) (prim : option addr) :
  let db := refresh db0 db_info in
  let locate := fun nm : string =>
    option_map (Nat.add (length (heap db0))) (index_of nm (declared_names db_info)) in
  In a (set_list db) ->
  nth_error (heap db) a = Some rs ->
  class_of rs = IqResultSet dsets prim ->
  set_list db = result_set_list db ++ dimension_set_list db /\
  map (fun x => option_map set_name (nth_error (heap db) x)) (set_list db) =
    map Some (declared_names db_info) /\
  dsets = map locate (get_or_empty (info_dimension_sets (set_info rs))) /\
  prim = match info_primary_dimension_set (set_info rs) with
         | Some nm => locate nm
         | None => None
         end /\
  (forall nm : string, ~ In nm (declared_names db_info) -> locate nm = None) /\
  forall nm : string,
    In nm (map info_name (dimension_sets db_info)) ->
    ~ In nm (map info_name (result_sets db_info)) ->
    exists (b : addr) (ds : IqSet) (pa pb : nat),
      locate nm = Some b /\
      nth_error (heap db) b = Some ds /\
      class_of ds = IqDimensionSet /\ set_name ds = nm /\
      nth_error (set_list db) pa = Some a /\
      nth_error (set_list db) pb = Some b /\
      pa < pb.
Proof.
  intros db locate Ha Hrs Hclass.
  destruct (refresh_shape db0 db_info) as [Hsl [Hrl [Hdl [db1 [Hh1 [Hsl1 Hobj]]]]]].
  fold db in Hsl, Hrl, Hdl, Hobj.
  set (L := length (heap db0)) in *.
  set (objs := map new_result_set (result_sets db_info) ++
               map new_dimension_set (dimension_sets db_info)) in *.
  assert (Hlen : length objs =
                 length (result_sets db_info) + length (dimension_sets db_info))
    by (unfold objs; now rewrite length_app, !length_map).
  assert (Hfresh : forall nm, find_set_by_name db1 (Some nm) = locate nm).
  { intros nm. destruct (find_set_by_name_fresh db0 db_info nm) as [_ Hf].
    now apply Hf. }
  split; [rewrite Hsl, Hrl, Hdl, Hlen; apply seq_app|].
  split.
  { rewrite Hsl, (map_seq_nth objs _ (fun o => Some (set_name o))).
    - unfold objs, declared_names. now rewrite !map_app, !map_map.
    - intros j o Hj. rewrite (Hobj j o Hj). simpl. f_equal.
      apply related_set_info_name. }
  rewrite Hsl in Ha. apply in_seq in Ha.
  set (pa := a - L).
  assert (Hpa : a = L + pa) by (unfold pa; lia).
  destruct (nth_error objs pa) as [o|] eqn:Ho.
  2:{ apply nth_error_None in Ho. lia. }
  pose proof (Hobj pa o Ho) as Hheap. rewrite <- Hpa, Hrs in Hheap.
  injection Hheap as Hrs'.
  destruct (nth_error_objs _ _ _ _ Ho) as [[Hlt [si [Hsi ->]]] | [Hge [si [Hsi ->]]]].
  2:{ rewrite Hrs' in Hclass. discriminate. }
  rewrite Hrs' in Hclass |- *. cbn in Hclass. injection Hclass as Hd Hp.
  cbn [set_info related_set_info new_result_set class_of].
  split.
  { rewrite <- Hd. apply map_ext. intros nm. apply Hfresh. }
  split.
  { rewrite <- Hp. destruct (info_primary_dimension_set si) as [nm|];
      [apply Hfresh | reflexivity]. }
  split.
  { intros nm Hnot. unfold locate. apply index_of_None in Hnot. now rewrite Hnot. }
  intros nm Hdim Hnot.
  destruct (find_set_by_name_refreshed db0 db_info nm) as [_ [_ Hat]].
  fold db L in Hat.
  destruct (index_of nm (declared_names db_info)) as [j|] eqn:Hj.
  2:{ apply index_of_None in Hj. exfalso. apply Hj. unfold declared_names.
      apply in_or_app. now right. }
  destruct (Hat j eq_refl) as [ds [Hds [Hname [Hpos Hcl]]]].
  assert (Hge : length (result_sets db_info) <= j).
  { unfold declared_names in Hj. rewrite index_of_app in Hj.
    apply index_of_None in Hnot. rewrite Hnot in Hj.
    destruct (index_of nm (map info_name (dimension_sets db_info))); [| discriminate].
    injection Hj as <-. rewrite length_map. lia. }
  exists (L + j), ds, pa, j. repeat split; try assumption.
  - unfold locate. now rewrite Hj.
  - now apply Hcl.
  - rewrite Hsl, nth_error_seq.
    destruct (Nat.ltb_spec pa (length objs)); [now rewrite Hpa | lia].
  - lia.
Qed.

Lemma refresh_resolves_dimension_sets_witness :
  exists (ds : IqSet) (pa pb : nat),
    class_of sample_tx = IqResultSet [Some 2] (Some 2) /\
    nth_error (heap sample_database) 2 = Some ds /\
    class_of ds = IqDimensionSet /\ set_name ds = "stream" /\
    nth_error (set_list sample_database) pa = Some 0 /\
    nth_error (set_list sample_database) pb = Some 2 /\
    pa < pb.
Proof.
  destruct (refresh_resolves_dimension_sets
              (unloaded_database "l5ixqul3p5axfgzq" sample_db_info) sample_db_info 0
              sample_tx [Some 2] (Some 2))
    as [_ [_ [_ [_ [_ H]]]]].
  - simpl. auto.
  - reflexivity.
  - reflexivity.
  - destruct (H "stream") as [b [ds [pa [pb [Hb [Hds [Hc [Hn [Hpa [Hpb Hlt]]]]]]]]]].
    + simpl. auto.
    + simpl. intuition discriminate.
    + vm_compute in Hb. injection Hb as <-.
      exists ds, pa, pb. repeat split; assumption.
Defined.

(** C9 as stated fails: a reference is not always resolved to a
    dimension-set object.  A result set that links the name [port], which
    the database does not declare, holds [None] for it; and where a result
    set is called [stream] like the dimension set, the link [stream] of the
    first result set is resolved to that result set, at address 1, not to
    the dimension set at address 2. *)
Lemma refresh_leaves_link_unresolved :
  (exists rs : IqSet,
     In 0 (set_list sample_dangling_database) /\
     nth_error (heap sample_dangling_database) 0 = Some rs /\
     info_dimension_sets (set_info rs) = Some ["port"] /\
     class_of rs = IqResultSet [None] None) /\
  (exists rs other : IqSet,
     In 0 (set_list sample_shadow_database) /\
     nth_error (heap sample_shadow_database) 0 = Some rs /\
     info_dimension_sets (set_info rs) = Some ["stream"] /\
     class_of rs = IqResultSet [Some 1] (Some 1) /\
     nth_error (heap sample_shadow_database) 1 = Some other /\
     set_name other = "stream" /\
     class_of other = IqResultSet [] None).
Proof.
  split.
  - eexists. split; [vm_compute; auto|].
    split; [vm_compute; reflexivity|]. split; vm_compute; reflexivity.
  - do 2 eexists. split; [vm_compute; auto|].
    split; [vm_compute; reflexivity|]. split; [vm_compute; reflexivity|].
    split; [vm_compute; reflexivity|]. split; [vm_compute; reflexivity|].
    split; vm_compute; reflexivity.
Qed.
